(** * Price monitor: the threshold evaluation engine of [price_monitor.py]

    A shallow embedding of [PriceMonitor.check_price_movements],
    [load_watchlist], [save_watchlist], [save_tokens], [add_coin],
    [remove_coin], [get_coin_price], [get_monitored_coins] and
    [get_coin_info], and the properties of the alerting rules proved on it.

    Conventions of the embedding.
    - Python [float] is IEEE binary64: prices and percentages are primitive
      floats, with the operations of [PrimFloat] (round to nearest even, as
      CPython).  Python raises [ZeroDivisionError] where IEEE returns an
      infinity or a NaN; [py_div] writes that out.
    - A naive [datetime] is a number of microseconds ([Z]); a [timedelta] is a
      difference of two of them.
    - A Python [dict] whose iteration order reaches the output (the watchlist,
      the token list, a JSON object) is an association list with the keys in
      insertion order; [current_prices], which is only looked up, is a [gmap].
    - The body of the per-coin [try] runs in a state-and-exception monad in
      which the state written before a [raise] survives it, as the mutations
      of the Python objects do.
    - [load_watchlist] and [save_watchlist] carry the prices, the name and
      the symbol of a record as the JSON values they are ([stored_info]):
      the code checks nothing about them.  The loop of
      [check_price_movements] is embedded on typed records ([coin_info]: a
      price is [None] or a float, a name and a symbol are strings), which are
      the records the program itself writes; [check_price_movements] says
      [Untyped_record] when a tick reads a record that is not one of
      these. *)

From Stdlib Require Import ZArith String List Bool Floats Lia DecimalString.
From stdpp Require Import gmap.
Import ListNotations.

Set Warnings "-inexact-float,-register-all".

Open Scope Z_scope.

(** ** Python runtime *)

Inductive exn : Type :=
  | ZeroDivisionError
  | OverflowError
  | KeyError
  | TypeError.

Inductive result (A : Type) : Type :=
  | Ok (a : A)
  | Raise (e : exn).

Arguments Ok {A} a.
Arguments Raise {A} e.

(** [a / b] on floats. *)
Definition py_div (a b : float) : result float :=
  if PrimFloat.eqb b 0%float then Raise ZeroDivisionError
  else Ok (PrimFloat.div a b).

(** [a >= b] on floats. *)
Definition py_ge (a b : float) : bool := PrimFloat.leb b a.

Definition datetime : Type := Z.
Definition timedelta : Type := Z.

(** The [minutes] entry of a threshold: an [int], or [float('inf')]. *)
Inductive minutes_value : Type :=
  | Minutes (m : Z)
  | Infinity.

Definition microseconds_per_minute : Z := 60000000.

(** [timedelta(minutes=m)].  The constructor converts a float argument to an
    integer number of microseconds, and [float('inf')] has none:
    CPython raises [OverflowError: cannot convert float infinity to integer]. *)
Definition timedelta_of_minutes (m : minutes_value) : result timedelta :=
  match m with
  | Minutes k => Ok (k * microseconds_per_minute)
  | Infinity => Raise OverflowError
  end.

(** ** Dictionaries in insertion order *)

Section Dict.
Context {K V : Type} `{EqDecision K}.

Fixpoint dict_get (k : K) (d : list (K * V)) : option V :=
  match d with
  | [] => None
  | (k', v) :: rest => if decide (k = k') then Some v else dict_get k rest
  end.

(** [d[k] = v]: in place when [k] is a key, at the end otherwise. *)
Fixpoint dict_set (k : K) (v : V) (d : list (K * V)) : list (K * V) :=
  match d with
  | [] => [(k, v)]
  | (k', v') :: rest =>
      if decide (k = k') then (k', v) :: rest else (k', v') :: dict_set k v rest
  end.

(** A mutation of the object stored at [k]. *)
Fixpoint dict_alter (f : V -> V) (k : K) (d : list (K * V)) : list (K * V) :=
  match d with
  | [] => []
  | (k', v) :: rest =>
      if decide (k = k') then (k', f v) :: rest else (k', v) :: dict_alter f k rest
  end.

Definition dict_keys (d : list (K * V)) : list K := map fst d.

Definition dict_remove (k : K) (d : list (K * V)) : list (K * V) :=
  List.filter (fun kv => negb (bool_decide (fst kv = k))) d.
End Dict.

(** ** Configuration *)

Record threshold : Type := {
  percent : float;
  minutes : minutes_value
}.

Definition SHORT_TERM_THRESHOLDS : list threshold :=
  [ {| percent := 0.2; minutes := Minutes 2 |};
    {| percent := 0.5; minutes := Minutes 5 |};
    {| percent := 1.0; minutes := Minutes 10 |};
    {| percent := 2.0; minutes := Minutes 30 |} ].

Definition LONG_TERM_THRESHOLDS : list threshold :=
  [ {| percent := 3.0; minutes := Minutes 60 |};
    {| percent := 5.0; minutes := Minutes 360 |};
    {| percent := 8.0; minutes := Minutes 720 |};
    {| percent := 12.0; minutes := Minutes 1440 |};
    {| percent := 15.0; minutes := Infinity |} ].

(** ** Watch state and notifications *)

Record channel : Type := {
  last_price : option float;
  last_notification_time : datetime
}.

Record coin_info : Type := {
  short_term : channel;
  long_term : channel;
  name : string;
  symbol : string
}.

Inductive notification_type : Type :=
  | type_short_term
  | type_long_term
  | type_absolute.

Record notification : Type := {
  coin_name : string;
  coin_symbol : string;
  current_price : float;
  price_change : float;
  time_elapsed : option timedelta;
  type : notification_type;
  coin_id : Z
}.

Definition is_short_term (n : notification) : bool :=
  match type n with type_short_term => true | _ => false end.

Definition is_long_term (n : notification) : bool :=
  match type n with type_long_term => true | _ => false end.

Definition is_absolute (n : notification) : bool :=
  match type n with type_absolute => true | _ => false end.

(** The locals of [check_price_movements] that outlive one iteration of the
    loop over the coins.  The four lists that only feed the log
    ([short_term_matches], [long_term_matches], [absolute_matches],
    [significant_changes]) are left out: nothing reads them back. *)
Record tick_state : Type := {
  watchlist : list (Z * coin_info);
  notifications : list notification;
  absolute_notifications : list notification;
  watchlist_updated : bool
}.

Definition set_watchlist (f : list (Z * coin_info) -> list (Z * coin_info))
    (s : tick_state) : tick_state :=
  {| watchlist := f (watchlist s);
     notifications := notifications s;
     absolute_notifications := absolute_notifications s;
     watchlist_updated := watchlist_updated s |}.

Definition append_notification (n : notification) (s : tick_state) : tick_state :=
  {| watchlist := watchlist s;
     notifications := notifications s ++ [n];
     absolute_notifications := absolute_notifications s;
     watchlist_updated := watchlist_updated s |}.

Definition append_absolute (n : notification) (s : tick_state) : tick_state :=
  {| watchlist := watchlist s;
     notifications := notifications s;
     absolute_notifications := absolute_notifications s ++ [n];
     watchlist_updated := watchlist_updated s |}.

Definition mark_updated (s : tick_state) : tick_state :=
  {| watchlist := watchlist s;
     notifications := notifications s;
     absolute_notifications := absolute_notifications s;
     watchlist_updated := true |}.

(** ** The monad of the per-coin [try] body *)

Definition M (A : Type) : Type := tick_state -> result A * tick_state.

Definition ret {A : Type} (a : A) : M A := fun s => (Ok a, s).

Definition bind {A B : Type} (m : M A) (k : A -> M B) : M B :=
  fun s =>
    match m s with
    | (Ok a, s') => k a s'
    | (Raise e, s') => (Raise e, s')
    end.

Definition lift {A : Type} (r : result A) : M A := fun s => (r, s).

Definition modify (f : tick_state -> tick_state) : M unit := fun s => (Ok tt, f s).

(** [watchlist[coin_id]]. *)
Definition get_coin (coin_id : Z) : M coin_info :=
  fun s =>
    match dict_get coin_id (watchlist s) with
    | Some info => (Ok info, s)
    | None => (Raise KeyError, s)
    end.

(** [try: body / except Exception: log]: the exception is dropped, the state
    reached when it was raised is kept. *)
Definition try_except (body : M unit) (s : tick_state) : tick_state := snd (body s).

Declare Scope py_scope.
Delimit Scope py_scope with py.
Notation "x <- m ;; k" := (bind m (fun x => k))
  (at level 100, m at next level, right associativity) : py_scope.
Notation "m ;;; k" := (bind m (fun _ => k))
  (at level 100, right associativity) : py_scope.

(** ** [check_price_movements]: the loop over the coins *)

(** [((current_price - last) / last) * 100]. *)
Definition change_percent (current last : float) : result float :=
  match py_div (PrimFloat.sub current last) last with
  | Ok q => Ok (PrimFloat.mul q 100%float)
  | Raise e => Raise e
  end.

Definition set_short_term (c : channel) (info : coin_info) : coin_info :=
  {| short_term := c; long_term := long_term info;
     name := name info; symbol := symbol info |}.

Definition set_long_term (c : channel) (info : coin_info) : coin_info :=
  {| short_term := short_term info; long_term := c;
     name := name info; symbol := symbol info |}.

Definition fresh_channel (price : float) (current_time : datetime) : channel :=
  {| last_price := Some price; last_notification_time := current_time |}.

(** The four assignments of the initialisation branch. *)
Definition initialise (price : float) (current_time : datetime)
    (info : coin_info) : coin_info :=
  set_long_term (fresh_channel price current_time)
    (set_short_term (fresh_channel price current_time) info).

Section Tick.
Variable current_prices : gmap Z float.
Variable current_time : datetime.

Section Coin.
Variable coin_id : Z.
Variable info : coin_info.
Variable price : float.

Definition absolute_notification (short_term_change_percent : float)
    : notification :=
  Build_notification (name info) (symbol info) price
    short_term_change_percent None type_absolute coin_id.

Definition short_term_notification (short_term_change_percent : float)
    (elapsed : timedelta) : notification :=
  Build_notification (name info) (symbol info) price
    short_term_change_percent (Some elapsed) type_short_term coin_id.

Definition long_term_notification (long_term_change_percent : float)
    (elapsed : timedelta) : notification :=
  Build_notification (name info) (symbol info) price
    long_term_change_percent (Some elapsed) type_long_term coin_id.

(** [for threshold in SHORT_TERM_THRESHOLDS: ...].  The value is the
    [threshold] the loop stopped at ([short_term_matched] is then
    [True]), or [None] when the loop ran to its end. *)
Fixpoint short_term_scan (short_term_change_percent : float)
    (thresholds : list threshold) : M (option threshold) :=
  match thresholds with
  | [] => ret None
  | threshold :: rest =>
      (w <- get_coin coin_id ;;
       let short_term_time_elapsed :=
         current_time - last_notification_time (short_term w) in
       if py_ge (PrimFloat.abs short_term_change_percent) (percent threshold)
       then
         window <- lift (timedelta_of_minutes (minutes threshold)) ;;
         if short_term_time_elapsed <=? window
         then
           modify (append_notification
                     (short_term_notification short_term_change_percent
                        short_term_time_elapsed)) ;;;
           ret (Some threshold)
         else short_term_scan short_term_change_percent rest
       else short_term_scan short_term_change_percent rest)%py
  end.

(** [for threshold in LONG_TERM_THRESHOLDS: ...]. *)
Fixpoint long_term_scan (long_term_change_percent : float)
    (thresholds : list threshold) : M (option threshold) :=
  match thresholds with
  | [] => ret None
  | threshold :: rest =>
      (w <- get_coin coin_id ;;
       let long_term_time_elapsed :=
         current_time - last_notification_time (long_term w) in
       if py_ge (PrimFloat.abs long_term_change_percent) (percent threshold)
       then
         window <- lift (timedelta_of_minutes (minutes threshold)) ;;
         if long_term_time_elapsed <=? window
         then
           modify (append_notification
                     (long_term_notification long_term_change_percent
                        long_term_time_elapsed)) ;;;
           modify (set_watchlist
                     (dict_alter
                        (set_long_term (fresh_channel price current_time))
                        coin_id)) ;;;
           modify mark_updated ;;;
           ret (Some threshold)
         else long_term_scan long_term_change_percent rest
       else long_term_scan long_term_change_percent rest)%py
  end.

(** The part of the body after the initialisation branch. *)
Definition check_thresholds (short_term_price long_term_price : float)
    : M unit :=
  (short_term_change_percent <- lift (change_percent price short_term_price) ;;
   long_term_change_percent <- lift (change_percent price long_term_price) ;;
   (if py_ge (PrimFloat.abs short_term_change_percent) 2.0
    then modify (append_absolute
                   (absolute_notification short_term_change_percent))
    else ret tt) ;;;
   short_term_scan short_term_change_percent SHORT_TERM_THRESHOLDS ;;;
   long_term_scan long_term_change_percent LONG_TERM_THRESHOLDS ;;;
   ret tt)%py.
End Coin.

(** The body of [try:] for one [coin_id]. *)
Definition process_coin_body (coin_id : Z) : M unit :=
  (info <- get_coin coin_id ;;
   match current_prices !! coin_id with
   | None => ret tt
   | Some price =>
       match last_price (short_term info), last_price (long_term info) with
       | Some short_term_price, Some long_term_price =>
           check_thresholds coin_id info price short_term_price long_term_price
       | _, _ =>
           modify (set_watchlist
                     (dict_alter (initialise price current_time) coin_id)) ;;;
           modify mark_updated
       end
   end)%py.

Definition process_coin (s : tick_state) (coin_id : Z) : tick_state :=
  try_except (process_coin_body coin_id) s.

Definition initial_state (wl : list (Z * coin_info)) : tick_state :=
  {| watchlist := wl;
     notifications := [];
     absolute_notifications := [];
     watchlist_updated := false |}.

(** [for coin_id in list(watchlist.keys()): try: ... except ...]. *)
Definition scan_coins (wl : list (Z * coin_info)) : tick_state :=
  fold_left process_coin (dict_keys wl) (initial_state wl).

(** ** Overlap resolution *)

(** [any(notif["coin_symbol"] == abs_notif["coin_symbol"] and
        notif["type"] == "short_term" for notif in notifications)]. *)
Definition overlaps (abs_notif : notification)
    (notifs : list notification) : bool :=
  existsb (fun notif =>
             String.eqb (coin_symbol notif) (coin_symbol abs_notif)
             && is_short_term notif) notifs.

(** One iteration of [for abs_notif in absolute_notifications]. *)
Definition resolve_overlap (notifs : list notification)
    (abs_notif : notification) : list notification :=
  if overlaps abs_notif notifs then notifs else notifs ++ [abs_notif].

Definition resolve_overlaps (s : tick_state) : tick_state :=
  {| watchlist := watchlist s;
     notifications :=
       fold_left resolve_overlap (absolute_notifications s) (notifications s);
     absolute_notifications := absolute_notifications s;
     watchlist_updated := watchlist_updated s |}.

(** ** Baseline reset *)

(** One iteration of the final [for notification in notifications]. *)
Definition update_price (s : tick_state) (n : notification) : tick_state :=
  match type n with
  | type_short_term | type_absolute =>
      mark_updated
        (set_watchlist
           (dict_alter
              (set_short_term (fresh_channel (current_price n) current_time))
              (coin_id n)) s)
  | type_long_term => s
  end.

Definition update_prices (s : tick_state) : tick_state :=
  fold_left update_price (notifications s) s.

(** [check_price_movements] between the load of a non-empty watchlist and
    the save: the state in which the method leaves its locals. *)
Definition evaluate (wl : list (Z * coin_info)) : tick_state :=
  update_prices (resolve_overlaps (scan_coins wl)).

(** ** One iteration in equational form

    What an iteration of the loop does depends on the record of its coin
    only.  [effect_of_coin] computes it without the monad; the lemma
    [process_coin_effect] below shows that [process_coin] does just that. *)

(** The value of a scan: the rule it stops at, no rule, or the
    exception it raises. *)
Fixpoint scan_outcome (change : float) (elapsed : timedelta)
    (thresholds : list threshold) : result (option threshold) :=
  match thresholds with
  | [] => Ok None
  | threshold :: rest =>
      if py_ge (PrimFloat.abs change) (percent threshold)
      then
        match timedelta_of_minutes (minutes threshold) with
        | Ok window =>
            if elapsed <=? window then Ok (Some threshold)
            else scan_outcome change elapsed rest
        | Raise e => Raise e
        end
      else scan_outcome change elapsed rest
  end.

Definition stops (r : result (option threshold)) : bool :=
  match r with
  | Ok (Some _) => true
  | _ => false
  end.

Record coin_effect : Type := {
  entry_after : coin_info;
  emitted : list notification;
  candidates : list notification;
  changed : bool
}.

Definition no_effect (info : coin_info) : coin_effect :=
  {| entry_after := info; emitted := []; candidates := []; changed := false |}.

Definition short_elapsed (info : coin_info) : timedelta :=
  current_time - last_notification_time (short_term info).

Definition long_elapsed (info : coin_info) : timedelta :=
  current_time - last_notification_time (long_term info).

Definition checked_effect (id : Z) (info : coin_info) (price : float)
    (short_change long_change : float) : coin_effect :=
  let short_hit :=
    stops (scan_outcome short_change (short_elapsed info) SHORT_TERM_THRESHOLDS) in
  let long_hit :=
    stops (scan_outcome long_change (long_elapsed info) LONG_TERM_THRESHOLDS) in
  {| entry_after :=
       if long_hit
       then set_long_term (fresh_channel price current_time) info
       else info;
     emitted :=
       (if short_hit
        then [short_term_notification id info price short_change
                (short_elapsed info)]
        else []) ++
       (if long_hit
        then [long_term_notification id info price long_change
                (long_elapsed info)]
        else []);
     candidates :=
       if py_ge (PrimFloat.abs short_change) 2.0
       then [absolute_notification id info price short_change]
       else [];
     changed := long_hit |}.

Definition effect_of_coin (id : Z) (info : coin_info) : coin_effect :=
  match current_prices !! id with
  | None => no_effect info
  | Some price =>
      match last_price (short_term info), last_price (long_term info) with
      | Some short_term_price, Some long_term_price =>
          match change_percent price short_term_price,
                change_percent price long_term_price with
          | Ok short_change, Ok long_change =>
              checked_effect id info price short_change long_change
          | _, _ => no_effect info
          end
      | _, _ =>
          {| entry_after := initialise price current_time info;
             emitted := [];
             candidates := [];
             changed := true |}
      end
  end.

Definition apply_effect (id : Z) (e : coin_effect) (s : tick_state)
    : tick_state :=
  {| watchlist := dict_alter (fun _ => entry_after e) id (watchlist s);
     notifications := notifications s ++ emitted e;
     absolute_notifications := absolute_notifications s ++ candidates e;
     watchlist_updated := watchlist_updated s || changed e |}.

(** What the final loop does to the watchlist for one notification. *)
Definition reset_short_term (wl : list (Z * coin_info)) (n : notification)
    : list (Z * coin_info) :=
  if is_long_term n then wl
  else dict_alter
         (set_short_term (fresh_channel (current_price n) current_time))
         (coin_id n) wl.

(** The notifications that are left after the overlap resolution. *)
Definition resolved (notifs cands : list notification) : list notification :=
  notifs ++ List.filter (fun a => negb (overlaps a notifs)) cands.

(** The loop over the coins in closed form. *)
Definition scanned (wl : list (Z * coin_info)) : tick_state :=
  {| watchlist :=
       map (fun kv => (fst kv, entry_after (effect_of_coin (fst kv) (snd kv)))) wl;
     notifications :=
       flat_map (fun kv => emitted (effect_of_coin (fst kv) (snd kv))) wl;
     absolute_notifications :=
       flat_map (fun kv => candidates (effect_of_coin (fst kv) (snd kv))) wl;
     watchlist_updated :=
       existsb (fun kv => changed (effect_of_coin (fst kv) (snd kv))) wl |}.
End Tick.

(** ** The persisted documents *)

(** What [json.load] returns.  A JSON object is a [dict]: its fields in
    the order of the document.  Numbers are carried as the float they are in
    the arithmetic of [check_price_movements]. *)
Inductive json : Type :=
  | JNull
  | JBool (b : bool)
  | JNum (x : float)
  | JStr (s : string)
  | JArr (items : list json)
  | JObj (fields : list (string * json)).

(** The library functions the persistence code calls, whose definitions are
    not part of the repository. *)
Record runtime : Type := {
  (** [json.load(f)]; [None] stands for [JSONDecodeError]. *)
  json_load : string -> option json;
  (** [json.dump(data, f, indent=2, sort_keys=b)]. *)
  json_dump : bool -> json -> string;
  (** [int(s)]; [None] stands for [ValueError]. *)
  int_of_str : string -> option Z;
  (** [str(n)]. *)
  str_of_int : Z -> string;
  (** [datetime.fromisoformat(s)], a naive datetime; [None] stands for
      [ValueError]. *)
  fromisoformat : string -> option datetime;
  (** [d.isoformat()]. *)
  isoformat : datetime -> string
}.

(** The two files of the working directory: [None] when [os.path.exists]
    is [False], the text of the file otherwise. *)
Record files : Type := {
  watchlist_json : option string;
  tokens_json : option string
}.

(** The monitor object: the files it works on and [self.tokens]. *)
Record monitor : Type := {
  disk : files;
  tokens : list (Z * (string * string))
}.

(** [os.path.exists(p) and os.path.getsize(p) > 0]: the text to read. *)
Definition nonempty_file (f : option string) : option string :=
  match f with
  | Some EmptyString => None
  | Some content => Some content
  | None => None
  end.

(** [j[k]] for a string [k]. *)
Definition getitem (j : json) (k : string) : result json :=
  match j with
  | JObj fields =>
      match dict_get k fields with
      | Some v => Ok v
      | None => Raise KeyError
      end
  | _ => Raise TypeError
  end.

(** [k in s] on strings. *)
Fixpoint is_substring (k s : string) : bool :=
  String.prefix k s ||
  match s with
  | EmptyString => false
  | String _ rest => is_substring k rest
  end.

(** [k in j] for a string [k]. *)
Definition py_contains (k : string) (j : json) : result bool :=
  match j with
  | JObj fields =>
      Ok (match dict_get k fields with Some _ => true | None => false end)
  | JArr items =>
      Ok (existsb (fun x => match x with
                            | JStr s => String.eqb s k
                            | _ => false
                            end) items)
  | JStr s => Ok (is_substring k s)
  | _ => Raise TypeError
  end.

(** ** The watchlist in memory

    A record of the dictionary [load_watchlist] returns and [save_watchlist]
    is given.  The two times are [datetime]s.  The prices, the name and the
    symbol are the values of the document: [load_watchlist] copies them as
    they are and checks nothing about them. *)
Record stored_channel : Type := {
  stored_last_price : json;
  stored_last_notification_time : datetime
}.

Record stored_info : Type := {
  stored_short_term : stored_channel;
  stored_long_term : stored_channel;
  stored_name : json;
  stored_symbol : json
}.

(** The records [check_price_movements] is written for, and the ones the
    program itself writes: a price that is [None] or a number, a name and a
    symbol that are strings.  [typed_info] reads such a record as a
    [coin_info]; it is [None] on any other record. *)
Definition typed_channel (c : stored_channel) : option channel :=
  match stored_last_price c with
  | JNull =>
      Some {| last_price := None;
              last_notification_time := stored_last_notification_time c |}
  | JNum x =>
      Some {| last_price := Some x;
              last_notification_time := stored_last_notification_time c |}
  | _ => None
  end.

Definition typed_info (w : stored_info) : option coin_info :=
  match typed_channel (stored_short_term w), typed_channel (stored_long_term w),
        stored_name w, stored_symbol w with
  | Some s, Some l, JStr n, JStr sy =>
      Some {| short_term := s; long_term := l; name := n; symbol := sy |}
  | _, _, _, _ => None
  end.

Definition stored_of_channel (c : channel) : stored_channel :=
  {| stored_last_price :=
       match last_price c with Some x => JNum x | None => JNull end;
     stored_last_notification_time := last_notification_time c |}.

Definition stored_of_info (info : coin_info) : stored_info :=
  {| stored_short_term := stored_of_channel (short_term info);
     stored_long_term := stored_of_channel (long_term info);
     stored_name := JStr (name info);
     stored_symbol := JStr (symbol info) |}.

Definition stored_watchlist (wl : list (Z * coin_info)) : list (Z * stored_info) :=
  map (fun kv => (fst kv, stored_of_info (snd kv))) wl.

(** What the model says of a tick: what the method returns and the files
    it leaves behind, or that the loop read a record that is outside the
    typed records. *)
Inductive tick_outcome : Type :=
  | Returned (notifs : list notification) (fs : files)
  | Untyped_record.

Section Persistence.
Variable rt : runtime.

(** One channel of a stored record: [info[...]["last_price"]] as it is,
    and [datetime.fromisoformat(info[...]["last_notification_time"])].
    [None] when one of the two lookups raises, or [fromisoformat] does (on a
    value that is no string, or a string that is no date). *)
Definition load_channel (c : json) : option stored_channel :=
  match getitem c "last_notification_time", getitem c "last_price" with
  | Ok (JStr t), Ok p =>
      match fromisoformat rt t with
      | Some time =>
          Some {| stored_last_price := p; stored_last_notification_time := time |}
      | None => None
      end
  | _, _ => None
  end.

(** The record built for one coin, or [None] when the coin is skipped:
    a required field is missing, or the inner [try] raises.  An [info]
    that is not an object ends there too: either the test of the required
    fields fails or raises, or [info["short_term"]] raises. *)
Definition load_info (info : json) : option stored_info :=
  match info with
  | JObj _ =>
      match getitem info "short_term", getitem info "long_term",
            getitem info "name", getitem info "symbol" with
      | Ok st, Ok lt, Ok n, Ok sy =>
          match load_channel st, load_channel lt with
          | Some s, Some l =>
              Some {| stored_short_term := s; stored_long_term := l;
                      stored_name := n; stored_symbol := sy |}
          | _, _ => None
          end
      | _, _, _, _ => None
      end
  | _ => None
  end.

(** One iteration of [for coin_id_str, info in data.items()]. *)
Definition load_item (wl : list (Z * stored_info)) (item : string * json)
    : list (Z * stored_info) :=
  match int_of_str rt (fst item) with
  | Some coin_id =>
      match load_info (snd item) with
      | Some info => dict_set coin_id info wl
      | None => wl
      end
  | None => wl
  end.

Definition load_watchlist (fs : files) : list (Z * stored_info) :=
  match nonempty_file (watchlist_json fs) with
  | Some content =>
      match json_load rt content with
      | Some (JObj data) => fold_left load_item data []
      | Some _ => []
      | None => []
      end
  | None => []
  end.

Definition dump_channel (c : stored_channel) : json :=
  JObj [ ("last_price"%string, stored_last_price c);
         ("last_notification_time"%string,
          JStr (isoformat rt (stored_last_notification_time c))) ].

Definition dump_info (info : stored_info) : json :=
  JObj [ ("symbol"%string, stored_symbol info);
         ("name"%string, stored_name info);
         ("short_term"%string, dump_channel (stored_short_term info));
         ("long_term"%string, dump_channel (stored_long_term info)) ].

Definition save_watchlist (wl : list (Z * stored_info)) (fs : files) : files :=
  let data :=
    fold_left (fun data item =>
                 dict_set (str_of_int rt (fst item)) (dump_info (snd item)) data)
              wl [] in
  {| watchlist_json := Some (json_dump rt true (JObj data));
     tokens_json := tokens_json fs |}.

Definition dump_token (t : string * string) : json :=
  JObj [ ("name"%string, JStr (fst t)); ("symbol"%string, JStr (snd t)) ].

Definition save_tokens (m : monitor) : monitor :=
  let data :=
    fold_left (fun data item =>
                 dict_set (str_of_int rt (fst item)) (dump_token (snd item)) data)
              (tokens m) [] in
  {| disk := {| watchlist_json := watchlist_json (disk m);
                tokens_json := Some (json_dump rt false (JObj data)) |};
     tokens := tokens m |}.

(** The entry [add_coin] writes for a new coin. *)
Definition new_entry (coin : string * string) (current_time : datetime) : json :=
  let blank :=
    JObj [ ("last_price"%string, JNull);
           ("last_notification_time"%string, JStr (isoformat rt current_time)) ] in
  JObj [ ("short_term"%string, blank);
         ("long_term"%string, blank);
         ("name"%string, JStr (fst coin));
         ("symbol"%string, JStr (snd coin)) ].

(** [add_coin] from the request to the API on.  [coin_data] is the name
    and symbol the API gave for the coin, or [None] when the request
    raised, the API reported an error or did not know the coin: all of
    these return [False] with nothing written. *)
Definition add_new_coin (coin_id : Z) (coin_data : option (string * string))
    (current_time : datetime) (watchlist_data : json) (m : monitor)
    : bool * monitor :=
  match coin_data with
  | None => (false, m)
  | Some coin =>
      let m1 :=
        save_tokens {| disk := disk m;
                       tokens := dict_set coin_id coin (tokens m) |} in
      match watchlist_data with
      | JObj fields =>
          let data :=
            JObj (dict_set (str_of_int rt coin_id)
                    (new_entry coin current_time) fields) in
          (true,
           {| disk := {| watchlist_json := Some (json_dump rt true data);
                         tokens_json := tokens_json (disk m1) |};
              tokens := tokens m1 |})
      | _ => (false, m1)
      end
  end.

Definition add_coin (coin_id : Z) (coin_data : option (string * string))
    (current_time : datetime) (m : monitor) : bool * monitor :=
  match nonempty_file (watchlist_json (disk m)) with
  | Some content =>
      match json_load rt content with
      | Some watchlist_data =>
          match py_contains (str_of_int rt coin_id) watchlist_data with
          | Ok true => (true, m)
          | Ok false => add_new_coin coin_id coin_data current_time watchlist_data m
          | Raise _ => (false, m)
          end
      | None => (false, m)
      end
  | None => add_new_coin coin_id coin_data current_time (JObj []) m
  end.

(** The records the tick reads, typed.  The loop over the coins passes
    by a coin without price before it looks at any field of its record
    ([if coin_id not in current_prices: ... continue]), and what comes after
    the loop only goes back to the coins of the notifications.  So a record
    outside the typed records takes no part in the tick when its coin has no
    price, and stays in the dictionary as it is; when its coin has a price the
    loop reads it, and the model stops there ([None]). *)
Fixpoint records_read (current_prices : gmap Z float)
    (loaded : list (Z * stored_info)) : option (list (Z * coin_info)) :=
  match loaded with
  | [] => Some []
  | (coin_id, w) :: rest =>
      match typed_info w, current_prices !! coin_id with
      | Some info, _ =>
          match records_read current_prices rest with
          | Some wl => Some ((coin_id, info) :: wl)
          | None => None
          end
      | None, None => records_read current_prices rest
      | None, Some _ => None
      end
  end.

(** The dictionary after the tick: the records the tick read, as it left
    them; the others, as they were. *)
Definition records_written (wl : list (Z * coin_info))
    (loaded : list (Z * stored_info)) : list (Z * stored_info) :=
  map (fun kv =>
         (fst kv,
          match dict_get (fst kv) wl with
          | Some info => stored_of_info info
          | None => snd kv
          end))
      loaded.

(** [check_price_movements].  [get_coin_price] is what the price API
    answers for a list of coins (the method absorbs its own failures and
    then returns an empty map); [current_time] is [datetime.now()]. *)
Definition check_price_movements (get_coin_price : list Z -> gmap Z float)
    (current_time : datetime) (fs : files) : tick_outcome :=
  match load_watchlist fs with
  | [] => Returned [] fs
  | loaded =>
      let current_prices := get_coin_price (dict_keys loaded) in
      match records_read current_prices loaded with
      | Some wl =>
          let s := evaluate current_prices current_time wl in
          Returned (notifications s)
            (if watchlist_updated s
             then save_watchlist (records_written (watchlist s) loaded) fs
             else fs)
      | None => Untyped_record
      end
  end.
End Persistence.

(** ** Removing and listing coins *)

(** [bool(j)]: what [not coin_info] tests. *)
Definition py_truthy (j : json) : bool :=
  match j with
  | JNull => false
  | JBool b => b
  | JNum x => negb (PrimFloat.eqb x 0%float)
  | JStr s => negb (String.eqb s "")
  | JArr items => match items with [] => false | _ => true end
  | JObj fields => match fields with [] => false | _ => true end
  end.

(** An item of [get_monitored_coins], and the value of [get_coin_info]. *)
Record coin_summary : Type := {
  summary_id : Z;
  summary_name : json;
  summary_symbol : json
}.

Section Commands.
Variable rt : runtime.

(** [remove_coin].  On a document that is not an object the membership
    test or [pop(key, None)] raises, and the method returns [False]. *)
Definition remove_coin (coin_id : Z) (m : monitor) : bool * monitor :=
  match nonempty_file (watchlist_json (disk m)) with
  | Some content =>
      match json_load rt content with
      | Some (JObj fields) =>
          match dict_get (str_of_int rt coin_id) fields with
          | Some coin_info =>
              if py_truthy coin_info
              then
                let data := JObj (dict_remove (str_of_int rt coin_id) fields) in
                let m1 :=
                  {| disk := {| watchlist_json := Some (json_dump rt true data);
                                tokens_json := tokens_json (disk m) |};
                     tokens := tokens m |} in
                (true,
                 match dict_get coin_id (tokens m) with
                 | Some _ =>
                     save_tokens rt {| disk := disk m1;
                                       tokens := dict_remove coin_id (tokens m) |}
                 | None => m1
                 end)
              else (false, m)
          | None => (false, m)
          end
      | Some _ => (false, m)
      | None => (false, m)
      end
  | None => (false, m)
  end.

(** [get_monitored_coins].  Every loaded record has a name and a
    symbol, so the defaults of [.get] are never used. *)
Definition get_monitored_coins (fs : files) : list coin_summary :=
  map (fun kv => {| summary_id := fst kv;
                    summary_name := stored_name (snd kv);
                    summary_symbol := stored_symbol (snd kv) |})
      (load_watchlist rt fs).

(** [get_coin_info]: the watchlist first, then [self.tokens]. *)
Definition get_coin_info (coin_id : Z) (m : monitor) : option coin_summary :=
  match dict_get coin_id (load_watchlist rt (disk m)) with
  | Some info =>
      Some {| summary_id := coin_id;
              summary_name := stored_name info;
              summary_symbol := stored_symbol info |}
  | None =>
      match dict_get coin_id (tokens m) with
      | Some token =>
          Some {| summary_id := coin_id;
                  summary_name := JStr (fst token);
                  summary_symbol := JStr (snd token) |}
      | None => None
      end
  end.
End Commands.

(** ** The price source *)

Definition BATCH_SIZE : nat := 100.

Definition max_retries : nat := 3.

(** [range(0, stop, step)] for a positive [step]. *)
Definition py_range (stop step : nat) : list nat :=
  map (fun k => (k * step)%nat) (seq 0 ((stop + step - 1) / step)).

(** [l[i:j]] for [0 <= i <= j]. *)
Definition py_slice {A : Type} (l : list A) (i j : nat) : list A :=
  firstn (j - i) (skipn i l).

(** [[coin_ids[i:i + BATCH_SIZE] for i in range(0, len(coin_ids), BATCH_SIZE)]]. *)
Definition batches (coin_ids : list Z) : list (list Z) :=
  map (fun i => py_slice coin_ids i (i + BATCH_SIZE))
      (py_range (List.length coin_ids) BATCH_SIZE).

Section PriceSource.
(** [fetch retry_count i batch]: what the request for batch number [i]
    (from 1) of the attempt number [retry_count] (from 0) gives, after the
    conversion of the identifiers with [int] and of the prices with [float],
    in the order of the response; [None] when the request, the decoding or the
    conversion raises. *)
Variable fetch : nat -> nat -> list Z -> option (list (Z * float)).

(** [all_prices.update(batch_prices)]. *)
Definition update_all_prices (all_prices : gmap Z float)
    (batch_prices : list (Z * float)) : gmap Z float :=
  fold_left (fun prices kv => <[fst kv := snd kv]> prices) batch_prices all_prices.

(** [for i, batch in enumerate(batches, 1): ...] inside the [try]. *)
Fixpoint fetch_batches (retry_count i : nat) (todo : list (list Z))
    (all_prices : gmap Z float) : option (gmap Z float) :=
  match todo with
  | [] => Some all_prices
  | batch :: rest =>
      match fetch retry_count i batch with
      | Some batch_prices =>
          fetch_batches retry_count (S i) rest
            (update_all_prices all_prices batch_prices)
      | None => None
      end
  end.

(** [while retry_count < max_retries: ...]; [fuel] bounds the number of
    iterations, which [max_retries] does. *)
Fixpoint retry_loop (fuel retry_count : nat) (coin_ids : list Z) : gmap Z float :=
  match fuel with
  | O => ∅
  | S fuel' =>
      if (retry_count <? max_retries)%nat
      then
        match fetch_batches retry_count 1 (batches coin_ids) ∅ with
        | Some all_prices => all_prices
        | None =>
            if (max_retries <=? S retry_count)%nat then ∅
            else retry_loop fuel' (S retry_count) coin_ids
        end
      else ∅
  end.

Definition get_coin_price (coin_ids : list Z) : gmap Z float :=
  retry_loop max_retries 0 coin_ids.
End PriceSource.

(** ** Documents up to the order of their fields *)

(** [reordered j j']: [j'] is [j] with the fields of its objects in
    another order, as after [json.dump(..., sort_keys=True)]. *)
Inductive reordered : json -> json -> Prop :=
  | reordered_same (j : json) : reordered j j
  | reordered_object (fields fields' : list (string * json)) :
      (forall k, In k (dict_keys fields) <-> In k (dict_keys fields')) ->
      (forall k v v',
         dict_get k fields = Some v -> dict_get k fields' = Some v' ->
         reordered v v') ->
      reordered (JObj fields) (JObj fields').

(** The object [save_watchlist] hands to [json.dump]. *)
Definition watchlist_document (rt : runtime) (wl : list (Z * stored_info)) : json :=
  JObj (fold_left
          (fun data item =>
             dict_set (str_of_int rt (fst item)) (dump_info rt (snd item)) data)
          wl []).

(** What [int] and [fromisoformat] must read back for the coins of a
    watchlist to survive a save. *)
Definition reads_back (rt : runtime) (wl : list (Z * stored_info)) : Prop :=
  forall id info,
    In (id, info) wl ->
    int_of_str rt (str_of_int rt id) = Some id /\
    fromisoformat rt
      (isoformat rt (stored_last_notification_time (stored_short_term info)))
    = Some (stored_last_notification_time (stored_short_term info)) /\
    fromisoformat rt
      (isoformat rt (stored_last_notification_time (stored_long_term info)))
    = Some (stored_last_notification_time (stored_long_term info)).

(** A runtime for the examples with a table of documents: a text is the
    name of a document; what is dumped is read back as the document called
    [stored]. *)
Definition table_runtime (documents : list (string * json)) : runtime :=
  {| json_load := fun text => dict_get text documents;
     json_dump := fun _ _ => "stored"%string;
     int_of_str := fun text => option_map Z.of_int (NilZero.int_of_string text);
     str_of_int := fun n => NilZero.string_of_int (Z.to_int n);
     fromisoformat := fun text => option_map Z.of_int (NilZero.int_of_string text);
     isoformat := fun t => NilZero.string_of_int (Z.to_int t) |}.

(** The stored object [add_coin] starts from: the parsed document, or
    an empty object when there is no file or an empty one. *)
Definition stored_object (rt : runtime) (m : monitor)
    (fields : list (string * json)) : Prop :=
  (nonempty_file (watchlist_json (disk m)) = None /\ fields = [])
  \/ exists content,
       nonempty_file (watchlist_json (disk m)) = Some content /\
       json_load rt content = Some (JObj fields).

(** ** The rules as the specification words them *)

(** [elapsed <= maxWindow], where the window may be infinite. *)
Definition within_window (elapsed : timedelta) (m : minutes_value) : bool :=
  match m with
  | Minutes k => elapsed <=? k * microseconds_per_minute
  | Infinity => true
  end.

(** [abs(changePercent) >= percentMagnitude AND elapsed <= maxWindow]. *)
Definition spec_rule_matches (change : float) (elapsed : timedelta)
    (rule : threshold) : bool :=
  py_ge (PrimFloat.abs change) (percent rule) && within_window elapsed (minutes rule).

(** The first matching rule in declared order. *)
Definition spec_first_match (change : float) (elapsed : timedelta)
    (rules : list threshold) : option threshold :=
  List.find (spec_rule_matches change elapsed) rules.

(** A rule whose window is a number of minutes. *)
Definition finite_window (rule : threshold) : Prop := minutes rule <> Infinity.

(** The short-term notifications about coin [id]. *)
Definition short_term_about (id : Z) (n : notification) : bool :=
  is_short_term n && (coin_id n =? id).

(** The notifications of the short-term class (table match or absolute
    change) about coin [id]. *)
Definition short_class_about (id : Z) (n : notification) : bool :=
  negb (is_long_term n) && (coin_id n =? id).

(** The long-term notifications about coin [id]. *)
Definition long_term_about (id : Z) (n : notification) : bool :=
  is_long_term n && (coin_id n =? id).

(** ** Scenarios *)

(** Scenario A: baselines 100 and 100, last notifications one minute
    before the tick, current price 102. *)
Definition scenario_A_info (now : datetime) : coin_info :=
  {| short_term := {| last_price := Some 100%float;
                      last_notification_time := now - 1 * microseconds_per_minute |};
     long_term := {| last_price := Some 100%float;
                     last_notification_time := now - 1 * microseconds_per_minute |};
     name := "Asset X";
     symbol := "X" |}.

Definition scenario_A_prices : gmap Z float := <[1 := 102%float]> ∅.

(** Two coins that share a ticker symbol, at a tick at minute 61.  The
    first moved 2% one minute after its last notification; the second moved
    3% sixty-one minutes after its own, too late for any table rule. *)
Definition twin_symbol_time : datetime := 61 * microseconds_per_minute.

Definition twin_symbol_watchlist : list (Z * coin_info) :=
  [ (1, {| short_term := {| last_price := Some 100%float;
                            last_notification_time := 60 * microseconds_per_minute |};
           long_term := {| last_price := Some 100%float;
                           last_notification_time := 60 * microseconds_per_minute |};
           name := "Alpha Token";
           symbol := "ABC" |});
    (2, {| short_term := {| last_price := Some 100%float;
                            last_notification_time := 0 |};
           long_term := {| last_price := Some 100%float;
                           last_notification_time := 0 |};
           name := "Another Coin";
           symbol := "ABC" |}) ].

Definition twin_symbol_prices : gmap Z float :=
  <[1 := 102%float]> (<[2 := 103%float]> ∅).

(** A coin 20% above its long-term baseline, 1500 minutes (25 hours)
    after its last notifications. *)
Definition slow_mover_time : datetime := 1500 * microseconds_per_minute.

Definition slow_mover_info : coin_info :=
  {| short_term := {| last_price := Some 100%float; last_notification_time := 0 |};
     long_term := {| last_price := Some 100%float; last_notification_time := 0 |};
     name := "Slow Mover";
     symbol := "SLOW" |}.

Definition slow_mover_prices : gmap Z float := <[1 := 120%float]> ∅.

(** A runtime for the examples: integers in decimal, a time written as
    its number of microseconds, and a parser that knows two documents by
    name. *)
Definition example_document : json :=
  JObj [ ("1"%string, JNull); ("1027"%string, JObj []) ].

Definition example_runtime : runtime :=
  {| json_load := fun text =>
       if String.eqb text "watchlist" then Some example_document
       else if String.eqb text "empty" then Some (JObj [])
       else None;
     json_dump := fun _ _ => "watchlist"%string;
     int_of_str := fun text => option_map Z.of_int (NilZero.int_of_string text);
     str_of_int := fun n => NilZero.string_of_int (Z.to_int n);
     fromisoformat := fun text => option_map Z.of_int (NilZero.int_of_string text);
     isoformat := fun t => NilZero.string_of_int (Z.to_int t) |}.

(** * Properties *)

(** ** Dictionaries *)

Section DictFacts.
Context {K V : Type} `{EqDecision K}.
Implicit Types (k : K) (d : list (K * V)).

Lemma dict_keys_alter (f : V -> V) k d :
  dict_keys (dict_alter f k d) = dict_keys d.
Proof.
  unfold dict_keys. induction d as [|[k' v] d IH]; simpl; [reflexivity|].
  destruct (decide (k = k')); simpl; [reflexivity|]. now rewrite IH.
Qed.

Lemma dict_get_alter (f : V -> V) k k' d :
  dict_get k' (dict_alter f k d) =
  if decide (k' = k) then option_map f (dict_get k' d) else dict_get k' d.
Proof.
  induction d as [|[k0 v] d IH]; simpl.
  - now destruct (decide (k' = k)).
  - destruct (decide (k = k0)) as [->|Hne]; simpl;
      destruct (decide (k' = k0)) as [->|Hne']; simpl;
      try reflexivity; try exact IH.
    now destruct (decide (k0 = k)) as [->|?].
Qed.

Lemma dict_get_alter_eq (f : V -> V) k d :
  dict_get k (dict_alter f k d) = option_map f (dict_get k d).
Proof. rewrite dict_get_alter. now rewrite decide_True by reflexivity. Qed.

Lemma dict_get_alter_ne (f : V -> V) k k' d :
  k' <> k -> dict_get k' (dict_alter f k d) = dict_get k' d.
Proof. intros Hne. rewrite dict_get_alter. now rewrite decide_False by assumption. Qed.

Lemma dict_alter_ext (f g : V -> V) k d v :
  dict_get k d = Some v -> f v = g v -> dict_alter f k d = dict_alter g k d.
Proof.
  induction d as [|[k0 v0] d IH]; simpl; [discriminate|].
  destruct (decide (k = k0)) as [->|Hne]; intros Hget Hfg.
  - injection Hget as ->. now rewrite Hfg.
  - f_equal. now apply IH.
Qed.

Lemma dict_alter_same (f : V -> V) k d v :
  dict_get k d = Some v -> f v = v -> dict_alter f k d = d.
Proof.
  induction d as [|[k0 v0] d IH]; simpl; [discriminate|].
  destruct (decide (k = k0)) as [->|Hne]; intros Hget Hfg.
  - injection Hget as ->. now rewrite Hfg.
  - f_equal. now apply IH.
Qed.

Lemma dict_alter_missing (f : V -> V) k d :
  dict_get k d = None -> dict_alter f k d = d.
Proof.
  induction d as [|[k0 v0] d IH]; simpl; [reflexivity|].
  destruct (decide (k = k0)) as [->|Hne]; [discriminate|].
  intros Hget. f_equal. now apply IH.
Qed.

Lemma dict_get_In k d v : dict_get k d = Some v -> In (k, v) d.
Proof.
  induction d as [|[k0 v0] d IH]; simpl; [discriminate|].
  destruct (decide (k = k0)) as [->|Hne]; intros Hget.
  - injection Hget as ->. now left.
  - right. now apply IH.
Qed.

Lemma dict_get_None k d : dict_get k d = None <-> ~ In k (dict_keys d).
Proof.
  unfold dict_keys. induction d as [|[k0 v0] d IH]; simpl.
  - tauto.
  - destruct (decide (k = k0)) as [->|Hne].
    + split; [discriminate|]. intros Hn. exfalso. apply Hn. now left.
    + rewrite IH. split; [|tauto]. intros Hn [Heq|Hin]; [congruence|tauto].
Qed.

Lemma In_dict_get k v d :
  List.NoDup (dict_keys d) -> In (k, v) d -> dict_get k d = Some v.
Proof.
  unfold dict_keys. induction d as [|[k0 v0] d IH]; simpl; [tauto|].
  intros Hnd [Heq|Hin].
  - injection Heq as -> ->. now rewrite decide_True by reflexivity.
  - apply NoDup_cons_iff in Hnd as [Hnotin Hnd].
    destruct (decide (k = k0)) as [->|Hne].
    + exfalso. apply Hnotin. now apply (in_map fst) in Hin.
    + now apply IH.
Qed.

Lemma dict_get_app k d1 d2 :
  ~ In k (dict_keys d1) -> dict_get k (d1 ++ d2) = dict_get k d2.
Proof.
  unfold dict_keys. induction d1 as [|[k0 v0] d1 IH]; simpl; [reflexivity|].
  intros Hn. destruct (decide (k = k0)) as [->|Hne]; [tauto|].
  apply IH. tauto.
Qed.

Lemma dict_alter_app (f : V -> V) k d1 d2 :
  ~ In k (dict_keys d1) -> dict_alter f k (d1 ++ d2) = d1 ++ dict_alter f k d2.
Proof.
  unfold dict_keys. induction d1 as [|[k0 v0] d1 IH]; simpl; [reflexivity|].
  intros Hn. destruct (decide (k = k0)) as [->|Hne]; [tauto|].
  f_equal. apply IH. tauto.
Qed.

Lemma dict_get_remove_ne k k' d :
  k' <> k -> dict_get k' (dict_remove k d) = dict_get k' d.
Proof.
  intros Hne. unfold dict_remove.
  induction d as [|[k0 v0] d IH]; simpl; [reflexivity|].
  destruct (bool_decide_reflect (k0 = k)) as [->|Hne0]; simpl.
  - now rewrite decide_False by assumption.
  - now rewrite IH.
Qed.

Lemma dict_get_remove_eq k d : dict_get k (dict_remove k d) = None.
Proof.
  unfold dict_remove.
  induction d as [|[k0 v0] d IH]; simpl; [reflexivity|].
  destruct (bool_decide_reflect (k0 = k)) as [->|Hne0]; simpl; [exact IH|].
  now rewrite decide_False by congruence.
Qed.

Lemma dict_alter_remove (f : V -> V) k k' d :
  dict_alter f k' (dict_remove k d) = dict_remove k (dict_alter f k' d).
Proof.
  unfold dict_remove.
  induction d as [|[k0 v0] d IH]; simpl; [reflexivity|].
  destruct (bool_decide_reflect (k0 = k)) as [->|Hne0]; simpl.
  - destruct (decide (k' = k)) as [->|Hne]; simpl.
    + rewrite bool_decide_true by reflexivity. simpl.
      apply dict_alter_missing. apply dict_get_remove_eq.
    + rewrite bool_decide_true by reflexivity. simpl. exact IH.
  - destruct (decide (k' = k0)) as [->|Hne]; simpl.
    + now rewrite bool_decide_false by assumption.
    + rewrite bool_decide_false by assumption. simpl. now rewrite IH.
Qed.

Lemma dict_keys_remove k d :
  dict_keys (dict_remove k d) = List.filter (fun x => negb (bool_decide (x = k))) (dict_keys d).
Proof.
  unfold dict_keys, dict_remove.
  induction d as [|[k0 v0] d IH]; simpl; [reflexivity|].
  destruct (bool_decide (k0 = k)); simpl; now rewrite IH.
Qed.

Lemma dict_keys_set_In k v d x :
  In x (dict_keys (dict_set k v d)) -> x = k \/ In x (dict_keys d).
Proof.
  unfold dict_keys. induction d as [|[k0 v0] d IH]; simpl.
  - intros [<-|[]]. now left.
  - destruct (decide (k = k0)) as [->|Hne]; simpl; intros [<-|Hx]; auto.
    destruct (IH Hx); auto.
Qed.

Lemma dict_keys_set k v d :
  List.NoDup (dict_keys d) -> List.NoDup (dict_keys (dict_set k v d)).
Proof.
  induction d as [|[k0 v0] d IH]; simpl; intros Hnd.
  - constructor; [simpl; tauto|constructor].
  - apply NoDup_cons_iff in Hnd as [Hnotin Hnd].
    destruct (decide (k = k0)) as [->|Hne]; simpl.
    + now constructor.
    + constructor; [|now apply IH].
      intros Hx. apply dict_keys_set_In in Hx as [Hx|Hx]; [congruence|].
      now apply Hnotin.
Qed.
End DictFacts.

(** ** The scans *)

Arguments scan_outcome : simpl never.

Lemma scan_outcome_cons (change : float) (elapsed : timedelta)
    (rule : threshold) (rules : list threshold) :
  scan_outcome change elapsed (rule :: rules) =
  if py_ge (PrimFloat.abs change) (percent rule)
  then
    match timedelta_of_minutes (minutes rule) with
    | Ok window =>
        if elapsed <=? window then Ok (Some rule)
        else scan_outcome change elapsed rules
    | Raise e => Raise e
    end
  else scan_outcome change elapsed rules.
Proof. reflexivity. Qed.

(** On rules with finite windows the scan is the search for the first
    matching rule, and raises nothing. *)
Lemma scan_outcome_finite (change : float) (elapsed : timedelta)
    (rules : list threshold) :
  Forall finite_window rules ->
  scan_outcome change elapsed rules = Ok (spec_first_match change elapsed rules).
Proof.
  unfold spec_first_match.
  induction 1 as [|rule rules Hfin _ IH]; [reflexivity|].
  - rewrite scan_outcome_cons. cbn [List.find]. unfold spec_rule_matches at 1.
    destruct (py_ge (PrimFloat.abs change) (percent rule)); simpl; [|exact IH].
    unfold finite_window in Hfin.
    destruct (minutes rule) as [k|]; [|congruence]. simpl.
    destruct (elapsed <=? k * microseconds_per_minute); [reflexivity|exact IH].
Qed.

Lemma short_term_windows_finite : Forall finite_window SHORT_TERM_THRESHOLDS.
Proof. repeat constructor; discriminate. Qed.

(** ** One iteration of the loop over the coins *)

Lemma tick_state_eta (s : tick_state) :
  {| watchlist := watchlist s;
     notifications := notifications s;
     absolute_notifications := absolute_notifications s;
     watchlist_updated := watchlist_updated s |} = s.
Proof. now destruct s. Qed.

Section CoinFacts.
Variable current_prices : gmap Z float.
Variable current_time : datetime.
Variable id : Z.
Variable info : coin_info.
Variable price : float.

Let short_fired (change : float) (s : tick_state) : tick_state :=
  append_notification
    (short_term_notification id info price change
       (short_elapsed current_time info)) s.

Let long_fired (change : float) (s : tick_state) : tick_state :=
  mark_updated
    (set_watchlist
       (dict_alter (set_long_term (fresh_channel price current_time)) id)
       (append_notification
          (long_term_notification id info price change
             (long_elapsed current_time info)) s)).

(** The short-term loop returns the outcome of the scan and appends one
    notification when it stops at a rule. *)
Lemma short_term_scan_run (change : float) (thresholds : list threshold)
    (s : tick_state) :
  dict_get id (watchlist s) = Some info ->
  short_term_scan current_time id info price change thresholds s =
  (scan_outcome change (short_elapsed current_time info) thresholds,
   if stops (scan_outcome change (short_elapsed current_time info) thresholds)
   then short_fired change s else s).
Proof.
  intros Hget. induction thresholds as [|th rest IH]; simpl.
  - reflexivity.
  - rewrite scan_outcome_cons. unfold bind at 1, get_coin. rewrite Hget.
    fold (short_elapsed current_time info).
    destruct (py_ge (PrimFloat.abs change) (percent th)); [|exact IH].
    unfold bind at 1, lift.
    destruct (timedelta_of_minutes (minutes th)) as [window|e]; [|reflexivity].
    destruct (short_elapsed current_time info <=? window); [|exact IH].
    reflexivity.
Qed.

(** The long-term loop, likewise; when it stops it also resets the
    long-term baseline.  An exception leaves the state as it was. *)
Lemma long_term_scan_run (change : float) (thresholds : list threshold)
    (s : tick_state) :
  dict_get id (watchlist s) = Some info ->
  long_term_scan current_time id info price change thresholds s =
  (scan_outcome change (long_elapsed current_time info) thresholds,
   if stops (scan_outcome change (long_elapsed current_time info) thresholds)
   then long_fired change s else s).
Proof.
  intros Hget. induction thresholds as [|th rest IH]; simpl.
  - reflexivity.
  - rewrite scan_outcome_cons. unfold bind at 1, get_coin. rewrite Hget.
    fold (long_elapsed current_time info).
    destruct (py_ge (PrimFloat.abs change) (percent th)); [|exact IH].
    unfold bind at 1, lift.
    destruct (timedelta_of_minutes (minutes th)) as [window|e]; [|reflexivity].
    destruct (long_elapsed current_time info <=? window); [|exact IH].
    reflexivity.
Qed.

(** The checks after the initialisation branch, without the monad. *)
Lemma check_thresholds_effect (short_term_price long_term_price : float)
    (s : tick_state) :
  dict_get id (watchlist s) = Some info ->
  snd (check_thresholds current_time id info price
         short_term_price long_term_price s) =
  match change_percent price short_term_price,
        change_percent price long_term_price with
  | Ok short_change, Ok long_change =>
      apply_effect id
        (checked_effect current_time id info price short_change long_change) s
  | _, _ => s
  end.
Proof.
  intros Hget. unfold check_thresholds.
  unfold bind at 1, lift.
  destruct (change_percent price short_term_price) as [sc|e]; [|reflexivity].
  unfold bind at 1.
  destruct (change_percent price long_term_price) as [lc|e]; [|reflexivity].
  unfold bind at 1.
  set (s1 := if py_ge (PrimFloat.abs sc) 2.0
             then append_absolute (absolute_notification id info price sc) s
             else s).
  assert (Habs : (if py_ge (PrimFloat.abs sc) 2.0
                  then modify (append_absolute
                                 (absolute_notification id info price sc))
                  else ret tt) s = (Ok tt, s1)).
  { subst s1. now destruct (py_ge (PrimFloat.abs sc) 2.0). }
  rewrite Habs.
  assert (Hget1 : dict_get id (watchlist s1) = Some info).
  { subst s1. now destruct (py_ge (PrimFloat.abs sc) 2.0). }
  unfold bind at 1. rewrite (short_term_scan_run _ _ _ Hget1).
  set (so := scan_outcome sc (short_elapsed current_time info)
               SHORT_TERM_THRESHOLDS).
  set (s2 := if stops so then short_fired sc s1 else s1).
  assert (Hget2 : dict_get id (watchlist s2) = Some info).
  { subst s2. now destruct (stops so). }
  assert (Hso : exists r, so = Ok r).
  { subst so. rewrite (scan_outcome_finite _ _ _ short_term_windows_finite).
    eauto. }
  destruct Hso as [r Hso]. rewrite Hso.
  unfold bind at 1. rewrite (long_term_scan_run _ _ _ Hget2).
  unfold apply_effect, checked_effect. fold so.
  set (lo := scan_outcome lc (long_elapsed current_time info)
               LONG_TERM_THRESHOLDS).
  subst s2 s1. rewrite Hso.
  destruct r as [th|]; destruct lo as [[lth|]|le]; simpl;
    destruct (py_ge (PrimFloat.abs sc) 2.0); simpl;
    unfold short_fired, long_fired, mark_updated, set_watchlist,
      append_notification, append_absolute; simpl;
    rewrite ?app_nil_r, ?orb_true_r, ?orb_false_r, <- ?app_assoc; simpl;
    f_equal;
    try (now apply (dict_alter_ext _ _ _ _ info));
    try (symmetry; now apply (dict_alter_same _ _ _ info)).
  all: rewrite (dict_alter_same (fun _ => info) id (watchlist s) info Hget eq_refl);
    symmetry; apply tick_state_eta.
Qed.
End CoinFacts.

(** ** The loop over the coins *)

Section ScanFacts.
Variable current_prices : gmap Z float.
Variable current_time : datetime.

Local Abbreviation effect := (effect_of_coin current_prices current_time).
Local Abbreviation step := (process_coin current_prices current_time).

Lemma apply_no_effect (id : Z) (info : coin_info) (s : tick_state) :
  dict_get id (watchlist s) = Some info ->
  apply_effect id (no_effect info) s = s.
Proof.
  intros Hget. unfold apply_effect, no_effect. simpl.
  rewrite (dict_alter_same (fun _ => info) id (watchlist s) info Hget eq_refl).
  rewrite app_nil_r, app_nil_r, orb_false_r. apply tick_state_eta.
Qed.

(** One iteration applies the effect computed from the record of its
    coin; exceptions included. *)
Lemma process_coin_effect (s : tick_state) (id : Z) (info : coin_info) :
  dict_get id (watchlist s) = Some info ->
  step s id = apply_effect id (effect id info) s.
Proof.
  intros Hget.
  unfold process_coin, try_except, process_coin_body, effect_of_coin.
  unfold bind at 1, get_coin. rewrite Hget.
  destruct (current_prices !! id) as [price|].
  - destruct (last_price (short_term info)) as [sp|] eqn:Hs;
      [destruct (last_price (long_term info)) as [lp|] eqn:Hl|].
    + rewrite (check_thresholds_effect current_time id info price sp lp s Hget).
      destruct (change_percent price sp) as [sc|e];
        [destruct (change_percent price lp) as [lc|e]|];
        try reflexivity; symmetry; now apply apply_no_effect.
    + unfold apply_effect, bind, modify, mark_updated, set_watchlist. simpl.
      rewrite !app_nil_r, orb_true_r. f_equal.
      now apply (dict_alter_ext _ _ _ _ info).
    + unfold apply_effect, bind, modify, mark_updated, set_watchlist. simpl.
      rewrite !app_nil_r, orb_true_r. f_equal.
      now apply (dict_alter_ext _ _ _ _ info).
  - simpl. symmetry. now apply apply_no_effect.
Qed.

Lemma scan_fold (items pre : list (Z * coin_info)) (s : tick_state) :
  List.NoDup (dict_keys items) ->
  (forall k, In k (dict_keys items) -> ~ In k (dict_keys pre)) ->
  watchlist s = pre ++ items ->
  fold_left step (dict_keys items) s =
  {| watchlist :=
       pre ++ map (fun kv => (fst kv, entry_after (effect (fst kv) (snd kv)))) items;
     notifications :=
       notifications s ++ flat_map (fun kv => emitted (effect (fst kv) (snd kv))) items;
     absolute_notifications :=
       absolute_notifications s ++
       flat_map (fun kv => candidates (effect (fst kv) (snd kv))) items;
     watchlist_updated :=
       watchlist_updated s ||
       existsb (fun kv => changed (effect (fst kv) (snd kv))) items |}.
Proof.
  revert pre s. induction items as [|[k v] rest IH]; intros pre s Hnd Hpre Hwl.
  - simpl. rewrite !app_nil_r, orb_false_r. rewrite <- (tick_state_eta s) at 1.
    f_equal. now rewrite Hwl, app_nil_r.
  - simpl in Hnd. apply NoDup_cons_iff in Hnd as [Hk Hnd].
    assert (Hkpre : ~ In k (dict_keys pre)) by (apply Hpre; now left).
    assert (Hget : dict_get k (watchlist s) = Some v).
    { rewrite Hwl, dict_get_app by assumption. simpl.
      now rewrite decide_True by reflexivity. }
    simpl. rewrite (process_coin_effect s k v Hget).
    rewrite (IH (pre ++ [(k, entry_after (effect k v))])); [|assumption| |].
    + simpl. rewrite <- !app_assoc, orb_assoc. reflexivity.
    + intros k' Hk'. unfold dict_keys. rewrite map_app, in_app_iff. simpl.
      intros [Hin|[Heq|[]]].
      * apply (Hpre k'); [now right|assumption].
      * subst k'. now apply Hk.
    + simpl. rewrite Hwl, dict_alter_app by assumption. simpl.
      rewrite decide_True by reflexivity. now rewrite <- app_assoc.
Qed.

(** With distinct keys, as in a [dict], the loop is [scanned]. *)
Lemma scan_coins_scanned (wl : list (Z * coin_info)) :
  List.NoDup (dict_keys wl) ->
  scan_coins current_prices current_time wl = scanned current_prices current_time wl.
Proof.
  intros Hnd. unfold scan_coins.
  rewrite (scan_fold wl [] (initial_state wl) Hnd); [reflexivity| |reflexivity].
  intros k _ [].
Qed.
End ScanFacts.

(** ** Overlap resolution and baseline reset *)

Section ResolveFacts.
Variable current_time : datetime.

Lemma overlaps_app (a : notification) (notifs extra : list notification) :
  Forall (fun n => is_short_term n = false) extra ->
  overlaps a (notifs ++ extra) = overlaps a notifs.
Proof.
  intros Hextra. unfold overlaps. rewrite existsb_app.
  induction Hextra as [|n extra Hn _ IH]; simpl.
  - apply orb_false_r.
  - now rewrite Hn, andb_false_r.
Qed.

Lemma resolve_fold (cands notifs extra : list notification) :
  Forall (fun n => is_short_term n = false) cands ->
  Forall (fun n => is_short_term n = false) extra ->
  fold_left resolve_overlap cands (notifs ++ extra) =
  notifs ++ extra ++ List.filter (fun a => negb (overlaps a notifs)) cands.
Proof.
  revert extra. induction cands as [|a cands IH]; intros extra Hc He; simpl.
  - now rewrite app_nil_r.
  - apply Forall_cons_iff in Hc as [Ha Hc].
    unfold resolve_overlap at 2. rewrite (overlaps_app a notifs extra He).
    destruct (overlaps a notifs); simpl.
    + now apply IH.
    + rewrite <- app_assoc. rewrite (IH (extra ++ [a])); [|assumption|].
      * now rewrite <- app_assoc.
      * apply Forall_app. split; [assumption|]. now constructor.
Qed.

(** The second pass keeps the candidates that no short-term notification
    of the first pass overlaps, in their order. *)
Lemma resolve_overlaps_resolved (s : tick_state) :
  Forall (fun n => is_short_term n = false) (absolute_notifications s) ->
  notifications (resolve_overlaps s) =
  resolved (notifications s) (absolute_notifications s).
Proof.
  intros Hc. unfold resolve_overlaps, resolved. simpl.
  rewrite <- (app_nil_r (notifications s)) at 1.
  now rewrite (resolve_fold _ _ [] Hc) by constructor.
Qed.

Lemma update_price_fold (ns : list notification) (s : tick_state) :
  fold_left (update_price current_time) ns s =
  {| watchlist := fold_left (reset_short_term current_time) ns (watchlist s);
     notifications := notifications s;
     absolute_notifications := absolute_notifications s;
     watchlist_updated :=
       watchlist_updated s || existsb (fun n => negb (is_long_term n)) ns |}.
Proof.
  revert s. induction ns as [|n ns IH]; intros s; simpl.
  - rewrite orb_false_r. symmetry. apply tick_state_eta.
  - rewrite IH. unfold update_price, reset_short_term, is_long_term.
    destruct (type n); simpl; try reflexivity; now rewrite orb_true_r.
Qed.

Lemma reset_fold_keys (ns : list notification) (wl : list (Z * coin_info)) :
  dict_keys (fold_left (reset_short_term current_time) ns wl) = dict_keys wl.
Proof.
  revert wl. induction ns as [|n ns IH]; intros wl; simpl; [reflexivity|].
  rewrite IH. unfold reset_short_term.
  destruct (is_long_term n); [reflexivity|apply dict_keys_alter].
Qed.

(** A coin none of whose notifications is of the short-term class keeps
    its record. *)
Lemma reset_fold_untouched (id : Z) (ns : list notification)
    (wl : list (Z * coin_info)) :
  (forall n, In n ns -> coin_id n = id -> is_long_term n = true) ->
  dict_get id (fold_left (reset_short_term current_time) ns wl) = dict_get id wl.
Proof.
  revert wl. induction ns as [|n ns IH]; intros wl Hns; simpl; [reflexivity|].
  rewrite IH by (intros m Hm; apply Hns; now right).
  unfold reset_short_term.
  destruct (is_long_term n) eqn:Hl; [reflexivity|].
  apply dict_get_alter_ne. intros Heq.
  rewrite (Hns n (or_introl eq_refl)) in Hl by congruence. discriminate.
Qed.

Lemma reset_fold_stable (id : Z) (p : float) (info : coin_info)
    (ns : list notification) (wl : list (Z * coin_info)) :
  (forall n, In n ns -> coin_id n = id -> current_price n = p) ->
  dict_get id wl = Some (set_short_term (fresh_channel p current_time) info) ->
  dict_get id (fold_left (reset_short_term current_time) ns wl) =
  Some (set_short_term (fresh_channel p current_time) info).
Proof.
  revert wl. induction ns as [|n ns IH]; intros wl Hp Hget; simpl; [assumption|].
  apply IH; [intros m Hm; apply Hp; now right|].
  unfold reset_short_term. destruct (is_long_term n); [assumption|].
  rewrite dict_get_alter. destruct (decide (id = coin_id n)) as [Heq|Hne];
    [|assumption].
  rewrite Hget. simpl. now rewrite (Hp n (or_introl eq_refl)) by congruence.
Qed.

(** A coin with a notification of the short-term class ends with its
    short-term baseline at the price of the notification. *)
Lemma reset_fold_touched (id : Z) (p : float) (info : coin_info)
    (ns : list notification) (wl : list (Z * coin_info)) :
  (forall n, In n ns -> coin_id n = id -> current_price n = p) ->
  (exists n, In n ns /\ coin_id n = id /\ is_long_term n = false) ->
  dict_get id wl = Some info ->
  dict_get id (fold_left (reset_short_term current_time) ns wl) =
  Some (set_short_term (fresh_channel p current_time) info).
Proof.
  revert wl. induction ns as [|n ns IH]; intros wl Hp [m (Hm & Hid & Hl)] Hget.
  - destruct Hm.
  - assert (Hp' : forall n', In n' ns -> coin_id n' = id -> current_price n' = p)
      by (intros n' Hn'; apply Hp; now right).
    simpl. unfold reset_short_term at 2.
    destruct (is_long_term n) eqn:Hln.
    + apply IH; [assumption| |assumption].
      destruct Hm as [->|Hm]; [congruence|]. now exists m.
    + destruct (decide (id = coin_id n)) as [Heq|Hne].
      * apply reset_fold_stable; [assumption|].
        rewrite <- Heq, dict_get_alter_eq, Hget. simpl.
        now rewrite (Hp n (or_introl eq_refl)) by congruence.
      * apply IH; [assumption| |now rewrite dict_get_alter_ne].
        destruct Hm as [->|Hm]; [congruence|]. now exists m.
Qed.
End ResolveFacts.

(** ** The whole evaluation *)

Section EvaluateFacts.
Variable current_prices : gmap Z float.
Variable current_time : datetime.

Local Abbreviation effect := (effect_of_coin current_prices current_time).
Local Abbreviation eval := (evaluate current_prices current_time).
Local Abbreviation scan := (scanned current_prices current_time).

(** Where a notification of the first pass comes from. *)
Lemma emitted_facts (id : Z) (info : coin_info) (n : notification) :
  In n (emitted (effect id info)) ->
  coin_id n = id /\
  current_prices !! id = Some (current_price n) /\
  coin_symbol n = symbol info /\
  is_absolute n = false /\
  (is_long_term n = true ->
   long_term (entry_after (effect id info)) =
   fresh_channel (current_price n) current_time).
Proof.
  unfold effect_of_coin.
  destruct (current_prices !! id) as [price|]; [|intros []].
  destruct (last_price (short_term info)) as [sp|];
    [destruct (last_price (long_term info)) as [lp|]|]; try (intros []).
  destruct (change_percent price sp) as [sc|e];
    [destruct (change_percent price lp) as [lc|e]|]; try (intros []).
  unfold checked_effect. simpl.
  destruct (stops (scan_outcome sc (short_elapsed current_time info) SHORT_TERM_THRESHOLDS));
    destruct (stops (scan_outcome lc (long_elapsed current_time info) LONG_TERM_THRESHOLDS)); simpl;
    intros Hin; repeat destruct Hin as [<-|Hin]; try destruct Hin;
    simpl; repeat split; auto; discriminate.
Qed.

(** Where a pending absolute notification comes from. *)
Lemma candidates_facts (id : Z) (info : coin_info) (n : notification) :
  In n (candidates (effect id info)) ->
  coin_id n = id /\
  current_prices !! id = Some (current_price n) /\
  coin_symbol n = symbol info /\
  type n = type_absolute.
Proof.
  unfold effect_of_coin.
  destruct (current_prices !! id) as [price|]; [|intros []].
  destruct (last_price (short_term info)) as [sp|];
    [destruct (last_price (long_term info)) as [lp|]|]; try (intros []).
  destruct (change_percent price sp) as [sc|e];
    [destruct (change_percent price lp) as [lc|e]|]; try (intros []).
  unfold checked_effect. simpl.
  destruct (py_ge (PrimFloat.abs sc) 2); simpl; intros Hin;
    repeat destruct Hin as [<-|Hin]; try destruct Hin; simpl; auto.
Qed.

(** A coin that was given a price leaves the loop with both baselines. *)
Lemma entry_after_baselines (id : Z) (info : coin_info) (price : float) :
  current_prices !! id = Some price ->
  (exists x, last_price (short_term (entry_after (effect id info))) = Some x) /\
  (exists y, last_price (long_term (entry_after (effect id info))) = Some y).
Proof.
  intros Hp. unfold effect_of_coin. rewrite Hp.
  destruct (last_price (short_term info)) as [sp|] eqn:Hs;
    [destruct (last_price (long_term info)) as [lp|] eqn:Hl|];
    [destruct (change_percent price sp) as [sc|e];
     [destruct (change_percent price lp) as [lc|e]|]|..];
    [unfold checked_effect;
     destruct (stops (scan_outcome lc (long_elapsed current_time info)
                        LONG_TERM_THRESHOLDS))|..];
    simpl; rewrite ?Hs, ?Hl; split; eexists; reflexivity.
Qed.

Lemma dict_get_scanned (id : Z) (wl : list (Z * coin_info)) :
  dict_get id (watchlist (scan wl)) =
  option_map (fun info => entry_after (effect id info)) (dict_get id wl).
Proof.
  unfold scanned. simpl. induction wl as [|[k v] wl IH]; simpl; [reflexivity|].
  destruct (decide (id = k)) as [->|Hne]; [reflexivity|exact IH].
Qed.

Lemma scanned_candidates_not_short (wl : list (Z * coin_info)) :
  Forall (fun n => is_short_term n = false) (absolute_notifications (scan wl)).
Proof.
  apply List.Forall_forall. intros n Hn. unfold scanned in Hn. simpl in Hn.
  apply in_flat_map in Hn as [[k v] [_ Hn]].
  apply candidates_facts in Hn as (_ & _ & _ & Hty).
  unfold is_short_term. now rewrite Hty.
Qed.

(** The evaluation in closed form, for a watchlist with distinct keys. *)
Lemma evaluate_closed (wl : list (Z * coin_info)) :
  List.NoDup (dict_keys wl) ->
  eval wl =
  let ns := resolved (notifications (scan wl)) (absolute_notifications (scan wl)) in
  {| watchlist := fold_left (reset_short_term current_time) ns (watchlist (scan wl));
     notifications := ns;
     absolute_notifications := absolute_notifications (scan wl);
     watchlist_updated :=
       watchlist_updated (scan wl) || existsb (fun n => negb (is_long_term n)) ns |}.
Proof.
  intros Hnd. unfold evaluate, update_prices.
  rewrite (scan_coins_scanned _ _ _ Hnd), update_price_fold.
  rewrite (resolve_overlaps_resolved _ (scanned_candidates_not_short wl)).
  reflexivity.
Qed.

Lemma evaluate_watchlist (wl : list (Z * coin_info)) :
  List.NoDup (dict_keys wl) ->
  watchlist (eval wl) =
  fold_left (reset_short_term current_time) (notifications (eval wl))
    (watchlist (scan wl)).
Proof. intros Hnd. now rewrite (evaluate_closed wl Hnd). Qed.

Lemma evaluate_notifications (wl : list (Z * coin_info)) :
  List.NoDup (dict_keys wl) ->
  notifications (eval wl) =
  resolved (notifications (scan wl)) (absolute_notifications (scan wl)).
Proof. intros Hnd. now rewrite (evaluate_closed wl Hnd). Qed.

Lemma evaluate_updated (wl : list (Z * coin_info)) :
  List.NoDup (dict_keys wl) ->
  watchlist_updated (eval wl) =
  watchlist_updated (scan wl)
  || existsb (fun n => negb (is_long_term n)) (notifications (eval wl)).
Proof. intros Hnd. now rewrite (evaluate_closed wl Hnd). Qed.

Lemma scanned_keys (wl : list (Z * coin_info)) :
  dict_keys (watchlist (scan wl)) = dict_keys wl.
Proof.
  unfold scanned, dict_keys. simpl. rewrite map_map. reflexivity.
Qed.

(** Every notification of a tick is about a coin of the watchlist, and
    carries the price the tick was given for it. *)
Lemma notification_origin (wl : list (Z * coin_info)) (n : notification) :
  List.NoDup (dict_keys wl) ->
  In n (notifications (eval wl)) ->
  exists info,
    dict_get (coin_id n) wl = Some info /\
    current_prices !! coin_id n = Some (current_price n) /\
    (In n (emitted (effect (coin_id n) info)) /\ is_absolute n = false
     \/ In n (candidates (effect (coin_id n) info)) /\ type n = type_absolute).
Proof.
  intros Hnd. rewrite (evaluate_closed wl Hnd). simpl. unfold resolved.
  rewrite in_app_iff, filter_In. intros [Hn|[Hn _]];
    unfold scanned in Hn; simpl in Hn;
    apply in_flat_map in Hn as [[k v] [Hkv Hn]]; simpl in Hn.
  - destruct (emitted_facts k v n Hn) as (Hid & Hp & _ & Habs & _).
    exists v. subst k. split; [now apply In_dict_get|]. split; [assumption|].
    left. now split.
  - destruct (candidates_facts k v n Hn) as (Hid & Hp & _ & Hty).
    exists v. subst k. split; [now apply In_dict_get|]. split; [assumption|].
    right. now split.
Qed.

(** The final loop only writes short-term baselines. *)
Lemma reset_fold_long_term (id : Z) (info : coin_info)
    (ns : list notification) (wl : list (Z * coin_info)) :
  dict_get id wl = Some info ->
  exists info',
    dict_get id (fold_left (reset_short_term current_time) ns wl) = Some info' /\
    long_term info' = long_term info /\
    name info' = name info /\
    symbol info' = symbol info /\
    (forall x, last_price (short_term info) = Some x ->
               exists y, last_price (short_term info') = Some y).
Proof.
  revert wl info. induction ns as [|n ns IH]; intros wl info Hget; simpl.
  - exists info. split; [assumption|]. repeat split. intros x Hx. now exists x.
  - unfold reset_short_term at 2. destruct (is_long_term n); [now apply IH|].
    destruct (decide (id = coin_id n)) as [Heq|Hne].
    + destruct (IH (dict_alter (set_short_term (fresh_channel (current_price n)
                                                  current_time)) (coin_id n) wl)
                  (set_short_term (fresh_channel (current_price n) current_time) info))
        as (info' & Hg & Hl & Hn & Hs & Hx).
      { now rewrite <- Heq, dict_get_alter_eq, Hget. }
      exists info'. repeat split; try assumption.
      intros x _. now apply (Hx (current_price n)).
    + apply IH. now rewrite dict_get_alter_ne.
Qed.
End EvaluateFacts.

(** ** Baseline reset on firing *)

(** C8. Every notification a tick returns is about a watched coin and
    carries the price the tick was given for that coin.  After the tick, when
    the notification is of the short-term class (a short-term table match or
    an absolute change that was not suppressed), the short-term baseline of
    the coin is that price at the time of the tick; when it is a long-term
    notification, the long-term baseline is that price at the time of the
    tick. *)
Theorem C8_alert_resets_baseline (current_prices : gmap Z float)
    (current_time : datetime) (wl : list (Z * coin_info)) (n : notification) :
  List.NoDup (dict_keys wl) ->
  In n (notifications (evaluate current_prices current_time wl)) ->
  exists info',
    dict_get (coin_id n) (watchlist (evaluate current_prices current_time wl))
    = Some info' /\
    current_prices !! coin_id n = Some (current_price n) /\
    (type n = type_short_term \/ type n = type_absolute ->
     short_term info' = {| last_price := Some (current_price n);
                           last_notification_time := current_time |}) /\
    (type n = type_long_term ->
     long_term info' = {| last_price := Some (current_price n);
                          last_notification_time := current_time |}).
Proof.
  intros Hnd Hin.
  destruct (notification_origin _ _ wl n Hnd Hin) as (info & Hget & Hp & Hsrc).
  pose proof (dict_get_scanned current_prices current_time (coin_id n) wl) as Hsc.
  rewrite Hget in Hsc. simpl in Hsc.
  set (e1 := entry_after (effect_of_coin current_prices current_time (coin_id n) info)) in *.
  assert (Hsame : forall m,
             In m (notifications (evaluate current_prices current_time wl)) ->
             coin_id m = coin_id n -> current_price m = current_price n).
  { intros m Hm Hid.
    destruct (notification_origin _ _ wl m Hnd Hm) as (_ & _ & Hpm & _).
    rewrite Hid, Hp in Hpm. now injection Hpm. }
  rewrite (evaluate_closed _ _ wl Hnd) in Hin, Hsame |- *. simpl in Hin, Hsame |- *.
  destruct (is_long_term n) eqn:Hlong.
  - destruct (reset_fold_long_term current_time (coin_id n) e1
                (resolved (notifications (scanned current_prices current_time wl))
                   (absolute_notifications (scanned current_prices current_time wl)))
                _ Hsc) as (info' & Hg & Hl & _).
    exists info'. split; [assumption|]. split; [assumption|]. split.
    + unfold is_long_term in Hlong. intros [Hty|Hty]; rewrite Hty in Hlong; discriminate.
    + intros _. rewrite Hl. destruct Hsrc as [[Hem _]|[_ Hty]].
      * now apply (emitted_facts _ _ _ _ _ Hem).
      * unfold is_long_term in Hlong. rewrite Hty in Hlong. discriminate.
  - exists (set_short_term (fresh_channel (current_price n) current_time) e1).
    split; [|split; [assumption|split]].
    + apply reset_fold_touched; [assumption| |assumption].
      exists n. now repeat split.
    + reflexivity.
    + unfold is_long_term in Hlong. intros Hty. rewrite Hty in Hlong. discriminate.
Qed.

(** C8 at work: a coin 2% above its short-term baseline one minute after
    the last alert. *)
Lemma C8_alert_resets_baseline_witness :
  let info :=
    {| short_term := {| last_price := Some 100%float; last_notification_time := 0 |};
       long_term := {| last_price := Some 100%float; last_notification_time := 0 |};
       name := "Bitcoin"; symbol := "BTC" |} in
  let n := Build_notification "Bitcoin" "BTC" 102 2 (Some 60000000) type_short_term 1 in
  exists info',
    dict_get 1 (watchlist (evaluate (<[1 := 102%float]> ∅) 60000000 [(1, info)]))
    = Some info' /\
    (<[1 := 102%float]> ∅ : gmap Z float) !! 1 = Some 102%float /\
    (type n = type_short_term \/ type n = type_absolute ->
     short_term info' = {| last_price := Some 102%float;
                           last_notification_time := 60000000 |}) /\
    (type n = type_long_term ->
     long_term info' = {| last_price := Some 102%float;
                          last_notification_time := 60000000 |}).
Proof.
  intros info n.
  apply (C8_alert_resets_baseline (<[1 := 102%float]> ∅) 60000000 [(1, info)] n).
  - repeat constructor. simpl. tauto.
  - vm_compute. left. reflexivity.
Defined.

(** ** Initialisation *)

Section InitialisationFacts.
Variable current_prices : gmap Z float.
Variable current_time : datetime.

Local Abbreviation eval := (evaluate current_prices current_time).

Lemma effect_initialise (id : Z) (info : coin_info) (price : float) :
  current_prices !! id = Some price ->
  last_price (short_term info) = None \/ last_price (long_term info) = None ->
  effect_of_coin current_prices current_time id info =
  {| entry_after := initialise price current_time info;
     emitted := [];
     candidates := [];
     changed := true |}.
Proof.
  intros Hp Hnone. unfold effect_of_coin. rewrite Hp.
  destruct (last_price (short_term info)); [|reflexivity].
  destruct (last_price (long_term info)); [|reflexivity].
  destruct Hnone; discriminate.
Qed.

(** A coin without notification keeps, at the end of the tick, the
    record it had at the end of the loop over the coins. *)
Lemma silent_coin_entry (wl : list (Z * coin_info)) (id : Z) (info : coin_info) :
  List.NoDup (dict_keys wl) ->
  dict_get id wl = Some info ->
  emitted (effect_of_coin current_prices current_time id info) = [] ->
  candidates (effect_of_coin current_prices current_time id info) = [] ->
  (forall n, In n (notifications (eval wl)) -> coin_id n <> id) /\
  dict_get id (watchlist (eval wl)) =
  Some (entry_after (effect_of_coin current_prices current_time id info)).
Proof.
  intros Hnd Hget Hem Hca.
  assert (Hnone : forall n, In n (notifications (eval wl)) -> coin_id n <> id).
  { intros n Hn Hid.
    destruct (notification_origin _ _ wl n Hnd Hn) as (info0 & Hget0 & _ & Hsrc).
    rewrite Hid, Hget in Hget0. injection Hget0 as <-. rewrite Hid in Hsrc.
    rewrite Hem, Hca in Hsrc. destruct Hsrc as [[[] _]|[[] _]]. }
  split; [exact Hnone|].
  pose proof (dict_get_scanned current_prices current_time id wl) as Hsc.
  rewrite Hget in Hsc.
  rewrite (evaluate_closed _ _ wl Hnd) in Hnone |- *. simpl in Hsc, Hnone |- *.
  rewrite reset_fold_untouched; [exact Hsc|].
  intros n Hn Hid. destruct (Hnone n Hn Hid).
Qed.

(** After a tick, a coin that was given a price has both baselines. *)
Lemma processed_baselines (wl : list (Z * coin_info)) (id : Z)
    (info' : coin_info) (price : float) :
  List.NoDup (dict_keys wl) ->
  dict_get id (watchlist (eval wl)) = Some info' ->
  current_prices !! id = Some price ->
  (exists x, last_price (short_term info') = Some x) /\
  (exists y, last_price (long_term info') = Some y).
Proof.
  intros Hnd Hget' Hp.
  rewrite (evaluate_watchlist _ _ wl Hnd) in Hget'.
  destruct (dict_get id wl) as [info|] eqn:Hget.
  - pose proof (dict_get_scanned current_prices current_time id wl) as Hsc.
    rewrite Hget in Hsc. cbn [option_map] in Hsc.
    destruct (entry_after_baselines current_prices current_time id info price Hp)
      as [[x Hx] [y Hy]].
    destruct (reset_fold_long_term current_time id _
                (notifications (eval wl)) _ Hsc) as (info2 & Hg & Hl & _ & _ & Hs).
    rewrite Hg in Hget'. injection Hget' as <-.
    split; [now apply (Hs x)|]. exists y. now rewrite Hl.
  - exfalso. apply dict_get_None in Hget.
    rewrite <- (scanned_keys current_prices current_time) in Hget.
    rewrite <- (reset_fold_keys current_time (notifications (eval wl))) in Hget.
    apply dict_get_None in Hget. rewrite Hget in Hget'. discriminate.
Qed.
End InitialisationFacts.

(** C5. A coin that has a price this tick and one of whose baselines is
    unset goes through the initialisation branch: its iteration of the loop
    writes the record and the changed flag and nothing else (no notification,
    no pending absolute notification: no check is made); after the tick both
    its channels hold the current price and the time of the tick, its name
    and symbol are untouched, the state is marked changed, and no
    notification of the tick is about it.  Hence, after any tick, every coin
    that was given a price has its two baselines both set: never one set and
    one unset. *)
Theorem C5_initialisation (current_prices : gmap Z float)
    (current_time : datetime) (wl : list (Z * coin_info)) :
  List.NoDup (dict_keys wl) ->
  (forall id info price,
     dict_get id wl = Some info ->
     current_prices !! id = Some price ->
     last_price (short_term info) = None \/ last_price (long_term info) = None ->
     (forall s, dict_get id (watchlist s) = Some info ->
        process_coin current_prices current_time s id =
        {| watchlist :=
             dict_alter
               (fun w =>
                  {| short_term := {| last_price := Some price;
                                      last_notification_time := current_time |};
                     long_term := {| last_price := Some price;
                                     last_notification_time := current_time |};
                     name := name w;
                     symbol := symbol w |})
               id (watchlist s);
           notifications := notifications s;
           absolute_notifications := absolute_notifications s;
           watchlist_updated := true |}) /\
     dict_get id (watchlist (evaluate current_prices current_time wl))
     = Some {| short_term := {| last_price := Some price;
                                last_notification_time := current_time |};
               long_term := {| last_price := Some price;
                               last_notification_time := current_time |};
               name := name info;
               symbol := symbol info |} /\
     watchlist_updated (evaluate current_prices current_time wl) = true /\
     (forall n, In n (notifications (evaluate current_prices current_time wl)) ->
        coin_id n <> id)) /\
  (forall id info' price,
     dict_get id (watchlist (evaluate current_prices current_time wl)) = Some info' ->
     current_prices !! id = Some price ->
     exists x y,
       last_price (short_term info') = Some x /\
       last_price (long_term info') = Some y).
Proof.
  intros Hnd. split.
  - intros id info price Hget Hp Hnone.
    pose proof (effect_initialise current_prices current_time id info price Hp Hnone)
      as Heff.
    destruct (silent_coin_entry current_prices current_time wl id info Hnd Hget)
      as [Hsilent Hentry]; try (rewrite Heff; reflexivity).
    repeat split.
    + intros s Hs. rewrite (process_coin_effect _ _ s id info Hs), Heff.
      unfold apply_effect, mark_updated, set_watchlist. simpl.
      rewrite !app_nil_r, orb_true_r. f_equal.
      now apply (dict_alter_ext _ _ _ _ info).
    + rewrite Hentry, Heff. reflexivity.
    + rewrite (evaluate_closed _ _ wl Hnd). simpl.
      apply orb_true_iff. left. apply existsb_exists.
      exists (id, info). split; [now apply dict_get_In|]. simpl. now rewrite Heff.
    + exact Hsilent.
  - intros id info' price Hget Hp.
    destruct (processed_baselines current_prices current_time wl id info' price
                Hnd Hget Hp) as [[x Hx] [y Hy]].
    exists x, y. now split.
Qed.

(** C5 at work: a coin added with unset baselines, priced at 10. *)
Lemma C5_initialisation_witness :
  let info :=
    {| short_term := {| last_price := None; last_notification_time := 0 |};
       long_term := {| last_price := None; last_notification_time := 0 |};
       name := "Zcash"; symbol := "ZEC" |} in
  let prices : gmap Z float := <[7 := 10%float]> ∅ in
  dict_get 7 (watchlist (evaluate prices 500 [(7, info)]))
  = Some {| short_term := {| last_price := Some 10%float;
                             last_notification_time := 500 |};
            long_term := {| last_price := Some 10%float;
                            last_notification_time := 500 |};
            name := "Zcash";
            symbol := "ZEC" |} /\
  watchlist_updated (evaluate prices 500 [(7, info)]) = true /\
  (forall n, In n (notifications (evaluate prices 500 [(7, info)])) ->
     coin_id n <> 7).
Proof.
  intros info prices.
  assert (Hnd : List.NoDup (dict_keys [(7, info)])).
  { repeat constructor. simpl. tauto. }
  destruct (C5_initialisation prices 500 [(7, info)] Hnd) as [Hinit _].
  destruct (Hinit 7 info 10%float) as (_ & Hentry & Hupd & Hsilent).
  - reflexivity.
  - vm_compute. reflexivity.
  - left. reflexivity.
  - exact (conj Hentry (conj Hupd Hsilent)).
Defined.

(** ** Coins a tick leaves alone *)

Section InertFacts.
Variable current_prices : gmap Z float.
Variable current_time : datetime.

Local Abbreviation effect := (effect_of_coin current_prices current_time).
Local Abbreviation eval := (evaluate current_prices current_time).
Local Abbreviation scan := (scanned current_prices current_time).

Lemma flat_map_remove {B : Type} (g : Z * coin_info -> list B) (id : Z)
    (wl : list (Z * coin_info)) :
  (forall v, In (id, v) wl -> g (id, v) = []) ->
  flat_map g (dict_remove id wl) = flat_map g wl.
Proof.
  unfold dict_remove. induction wl as [|[k v] wl IH]; intros Hnil; simpl;
    [reflexivity|].
  destruct (bool_decide_reflect (k = id)) as [->|Hne]; simpl.
  - rewrite (Hnil v) by now left. simpl. apply IH.
    intros v' Hv'. apply Hnil. now right.
  - f_equal. apply IH. intros v' Hv'. apply Hnil. now right.
Qed.

Lemma existsb_remove (g : Z * coin_info -> bool) (id : Z)
    (wl : list (Z * coin_info)) :
  (forall v, In (id, v) wl -> g (id, v) = false) ->
  existsb g (dict_remove id wl) = existsb g wl.
Proof.
  unfold dict_remove. induction wl as [|[k v] wl IH]; intros Hnil; simpl;
    [reflexivity|].
  destruct (bool_decide_reflect (k = id)) as [->|Hne]; simpl.
  - rewrite (Hnil v) by now left. simpl. apply IH.
    intros v' Hv'. apply Hnil. now right.
  - f_equal. apply IH. intros v' Hv'. apply Hnil. now right.
Qed.

Lemma map_remove (h : Z -> coin_info -> coin_info) (id : Z)
    (wl : list (Z * coin_info)) :
  map (fun kv => (fst kv, h (fst kv) (snd kv))) (dict_remove id wl) =
  dict_remove id (map (fun kv => (fst kv, h (fst kv) (snd kv))) wl).
Proof.
  unfold dict_remove. induction wl as [|[k v] wl IH]; simpl; [reflexivity|].
  destruct (bool_decide (k = id)); simpl; now rewrite IH.
Qed.

Lemma reset_fold_remove (id : Z) (ns : list notification)
    (wl : list (Z * coin_info)) :
  fold_left (reset_short_term current_time) ns (dict_remove id wl) =
  dict_remove id (fold_left (reset_short_term current_time) ns wl).
Proof.
  revert wl. induction ns as [|n ns IH]; intros wl; simpl; [reflexivity|].
  rewrite <- IH. f_equal. unfold reset_short_term.
  destruct (is_long_term n); [reflexivity|apply dict_alter_remove].
Qed.

Lemma remove_keys_NoDup (id : Z) (wl : list (Z * coin_info)) :
  List.NoDup (dict_keys wl) -> List.NoDup (dict_keys (dict_remove id wl)).
Proof. intros Hnd. rewrite dict_keys_remove. now apply List.NoDup_filter. Qed.

(** The loop over the coins does for the other coins what it does when
    a coin without effect is not in the watchlist at all. *)
Lemma scanned_remove_inert (wl : list (Z * coin_info)) (id : Z) (info : coin_info) :
  List.NoDup (dict_keys wl) ->
  dict_get id wl = Some info ->
  effect id info = no_effect info ->
  notifications (scan (dict_remove id wl)) = notifications (scan wl) /\
  absolute_notifications (scan (dict_remove id wl)) = absolute_notifications (scan wl) /\
  watchlist_updated (scan (dict_remove id wl)) = watchlist_updated (scan wl) /\
  watchlist (scan (dict_remove id wl)) = dict_remove id (watchlist (scan wl)).
Proof.
  intros Hnd Hget Heff.
  assert (Hv : forall v, In (id, v) wl -> v = info).
  { intros v Hv. apply (In_dict_get _ _ _ Hnd) in Hv. congruence. }
  unfold scanned. simpl. repeat split.
  - apply flat_map_remove. intros v Hin. simpl. now rewrite (Hv v Hin), Heff.
  - apply flat_map_remove. intros v Hin. simpl. now rewrite (Hv v Hin), Heff.
  - apply existsb_remove. intros v Hin. simpl. now rewrite (Hv v Hin), Heff.
  - apply (map_remove (fun k v => entry_after (effect k v))).
Qed.

(** A coin on which the iteration has no effect is inert for the whole
    tick, and the tick treats the other coins as if it were not watched. *)
Lemma inert_coin (wl : list (Z * coin_info)) (id : Z) (info : coin_info) :
  List.NoDup (dict_keys wl) ->
  dict_get id wl = Some info ->
  effect id info = no_effect info ->
  (forall s, dict_get id (watchlist s) = Some info ->
     process_coin current_prices current_time s id = s) /\
  (forall n, In n (notifications (eval wl)) -> coin_id n <> id) /\
  dict_get id (watchlist (eval wl)) = Some info /\
  notifications (eval wl) = notifications (eval (dict_remove id wl)) /\
  watchlist_updated (eval wl) = watchlist_updated (eval (dict_remove id wl)) /\
  dict_remove id (watchlist (eval wl)) = watchlist (eval (dict_remove id wl)).
Proof.
  intros Hnd Hget Heff.
  destruct (silent_coin_entry current_prices current_time wl id info Hnd Hget)
    as [Hsilent Hentry]; try (rewrite Heff; reflexivity).
  destruct (scanned_remove_inert wl id info Hnd Hget Heff)
    as (Hn & Ha & Hu & Hw).
  pose proof (remove_keys_NoDup id wl Hnd) as Hnd'.
  assert (Hns : notifications (eval wl) = notifications (eval (dict_remove id wl))).
  { rewrite !evaluate_notifications by assumption. now rewrite Hn, Ha. }
  split; [|split; [exact Hsilent|split; [|split; [exact Hns|split]]]].
  - intros s Hs. rewrite (process_coin_effect _ _ s id info Hs), Heff.
    now apply apply_no_effect.
  - rewrite Hentry, Heff. reflexivity.
  - rewrite !evaluate_updated by assumption. now rewrite Hu, Hns.
  - rewrite !evaluate_watchlist by assumption.
    now rewrite Hw, reset_fold_remove, Hns.
Qed.
End InertFacts.

(** ** Missing price *)

(** C7. A watched coin for which the tick was given no price gets no
    notification and keeps its whole record (both channels, name and
    symbol); the other coins are processed as in a tick over the watchlist
    without it: same notifications, same changed flag, same records. *)
Theorem C7_missing_price_inert (current_prices : gmap Z float)
    (current_time : datetime) (wl : list (Z * coin_info)) (id : Z)
    (info : coin_info) :
  List.NoDup (dict_keys wl) ->
  dict_get id wl = Some info ->
  current_prices !! id = None ->
  (forall n, In n (notifications (evaluate current_prices current_time wl)) ->
     coin_id n <> id) /\
  dict_get id (watchlist (evaluate current_prices current_time wl)) = Some info /\
  notifications (evaluate current_prices current_time wl) =
  notifications (evaluate current_prices current_time (dict_remove id wl)) /\
  watchlist_updated (evaluate current_prices current_time wl) =
  watchlist_updated (evaluate current_prices current_time (dict_remove id wl)) /\
  dict_remove id (watchlist (evaluate current_prices current_time wl)) =
  watchlist (evaluate current_prices current_time (dict_remove id wl)).
Proof.
  intros Hnd Hget Hp.
  assert (Heff : effect_of_coin current_prices current_time id info = no_effect info).
  { unfold effect_of_coin. now rewrite Hp. }
  destruct (inert_coin current_prices current_time wl id info Hnd Hget Heff)
    as (_ & Hsilent & Hentry & Hns & Hupd & Hwl).
  auto.
Qed.

(** C7 at work: two watched coins, a price for the second only. *)
Lemma C7_missing_price_inert_witness :
  let w :=
    {| short_term := {| last_price := Some 100%float; last_notification_time := 0 |};
       long_term := {| last_price := Some 90%float; last_notification_time := 0 |};
       name := "Wax"; symbol := "WAXP" |} in
  let x :=
    {| short_term := {| last_price := Some 100%float; last_notification_time := 0 |};
       long_term := {| last_price := Some 100%float; last_notification_time := 0 |};
       name := "Bitcoin"; symbol := "BTC" |} in
  let prices : gmap Z float := <[1 := 102%float]> ∅ in
  let wl := [(2, w); (1, x)] in
  (forall n, In n (notifications (evaluate prices 60000000 wl)) -> coin_id n <> 2) /\
  dict_get 2 (watchlist (evaluate prices 60000000 wl)) = Some w /\
  notifications (evaluate prices 60000000 wl) =
  notifications (evaluate prices 60000000 (dict_remove 2 wl)) /\
  watchlist_updated (evaluate prices 60000000 wl) =
  watchlist_updated (evaluate prices 60000000 (dict_remove 2 wl)) /\
  dict_remove 2 (watchlist (evaluate prices 60000000 wl)) =
  watchlist (evaluate prices 60000000 (dict_remove 2 wl)).
Proof.
  intros w x prices wl.
  apply (C7_missing_price_inert prices 60000000 wl 2 w).
  - repeat constructor; simpl; intuition discriminate.
  - reflexivity.
  - vm_compute. reflexivity.
Defined.

(** ** Zero baseline *)

Lemma change_percent_zero (price last : float) :
  PrimFloat.eqb last 0%float = true ->
  change_percent price last = Raise ZeroDivisionError.
Proof. intros Hz. unfold change_percent, py_div. now rewrite Hz. Qed.

(** C6, as stated, on a coin whose long-term baseline is zero and
    whose short-term baseline is unset: the tick that has a price for the coin
    takes the initialisation branch, which comes before the division; it
    overwrites both channels, the zero baseline included, and marks the
    watchlist as changed.  The record is not left unchanged. *)
Lemma C6_zero_baseline_counterexample :
  let info :=
    {| short_term := {| last_price := None; last_notification_time := 0 |};
       long_term := {| last_price := Some 0%float; last_notification_time := 0 |};
       name := "Dead"; symbol := "DEAD" |} in
  let s := evaluate (<[2 := 5%float]> ∅) 60000000 [(2, info)] in
  dict_get 2 (watchlist s)
  = Some {| short_term := {| last_price := Some 5%float;
                             last_notification_time := 60000000 |};
            long_term := {| last_price := Some 5%float;
                            last_notification_time := 60000000 |};
            name := "Dead"; symbol := "DEAD" |} /\
  dict_get 2 (watchlist s) <> Some info /\
  watchlist_updated s = true.
Proof.
  intros info s.
  assert (Hentry : dict_get 2 (watchlist s)
                   = Some (initialise 5 60000000 info)) by (vm_compute; reflexivity).
  split; [exact Hentry|]. split; [|vm_compute; reflexivity].
  rewrite Hentry. intros H.
  pose proof (f_equal (fun o => match o with
                                | Some w => last_notification_time (short_term w)
                                | None => 0
                                end) H) as Htime.
  vm_compute in Htime. discriminate Htime.
Qed.

(** C6, amended. For a watched coin whose two baselines are both set
    and one of which is zero ([0.0] or [-0.0]), the division by the zero
    baseline is not carried out: it raises [ZeroDivisionError], which the
    handler of the iteration absorbs.  The iteration leaves the state of the
    tick as it found it, so the coin gets no notification and keeps its
    record, and the other coins are processed as in a tick over the watchlist
    without it. *)
Theorem C6_zero_baseline_inert (current_prices : gmap Z float)
    (current_time : datetime) (wl : list (Z * coin_info)) (id : Z)
    (info : coin_info) (short_term_price long_term_price : float) :
  List.NoDup (dict_keys wl) ->
  dict_get id wl = Some info ->
  last_price (short_term info) = Some short_term_price ->
  last_price (long_term info) = Some long_term_price ->
  PrimFloat.eqb short_term_price 0%float = true
  \/ PrimFloat.eqb long_term_price 0%float = true ->
  (forall price x,
     last_price (short_term info) = Some x \/ last_price (long_term info) = Some x ->
     PrimFloat.eqb x 0%float = true ->
     change_percent price x = Raise ZeroDivisionError) /\
  (forall s, dict_get id (watchlist s) = Some info ->
     process_coin current_prices current_time s id = s) /\
  (forall n, In n (notifications (evaluate current_prices current_time wl)) ->
     coin_id n <> id) /\
  dict_get id (watchlist (evaluate current_prices current_time wl)) = Some info /\
  notifications (evaluate current_prices current_time wl) =
  notifications (evaluate current_prices current_time (dict_remove id wl)) /\
  watchlist_updated (evaluate current_prices current_time wl) =
  watchlist_updated (evaluate current_prices current_time (dict_remove id wl)) /\
  dict_remove id (watchlist (evaluate current_prices current_time wl)) =
  watchlist (evaluate current_prices current_time (dict_remove id wl)).
Proof.
  intros Hnd Hget Hs Hl Hzero.
  assert (Heff : effect_of_coin current_prices current_time id info = no_effect info).
  { unfold effect_of_coin.
    destruct (current_prices !! id) as [price|]; [|reflexivity].
    rewrite Hs, Hl.
    destruct Hzero as [Hz|Hz].
    - now rewrite (change_percent_zero price short_term_price Hz).
    - rewrite (change_percent_zero price long_term_price Hz).
      now destruct (change_percent price short_term_price). }
  split.
  - intros price x _ Hz. now apply change_percent_zero.
  - exact (inert_coin current_prices current_time wl id info Hnd Hget Heff).
Qed.

(** C6 at work: a coin whose two baselines are zero, next to a coin that
    fires. *)
Lemma C6_zero_baseline_inert_witness :
  let d :=
    {| short_term := {| last_price := Some 0%float; last_notification_time := 0 |};
       long_term := {| last_price := Some 0%float; last_notification_time := 0 |};
       name := "Dead"; symbol := "DEAD" |} in
  let x :=
    {| short_term := {| last_price := Some 100%float; last_notification_time := 0 |};
       long_term := {| last_price := Some 100%float; last_notification_time := 0 |};
       name := "Bitcoin"; symbol := "BTC" |} in
  let prices : gmap Z float := <[1 := 102%float]> (<[2 := 5%float]> ∅) in
  let wl := [(2, d); (1, x)] in
  (forall n, In n (notifications (evaluate prices 60000000 wl)) -> coin_id n <> 2) /\
  dict_get 2 (watchlist (evaluate prices 60000000 wl)) = Some d /\
  notifications (evaluate prices 60000000 wl) =
  notifications (evaluate prices 60000000 (dict_remove 2 wl)).
Proof.
  intros d x prices wl.
  destruct (C6_zero_baseline_inert prices 60000000 wl 2 d 0%float 0%float)
    as (_ & _ & Hsilent & Hentry & Hns & _).
  - repeat constructor; simpl; intuition discriminate.
  - reflexivity.
  - reflexivity.
  - reflexivity.
  - left. reflexivity.
  - exact (conj Hsilent (conj Hentry Hns)).
Defined.

(** ** The short-term table *)

Section ShortTermFacts.
Variable current_prices : gmap Z float.
Variable current_time : datetime.

Local Abbreviation effect := (effect_of_coin current_prices current_time).
Local Abbreviation eval := (evaluate current_prices current_time).

Lemma filter_none {A : Type} (f : A -> bool) (l : list A) :
  (forall x, In x l -> f x = false) -> List.filter f l = [].
Proof.
  induction l as [|x l IH]; intros Hf; simpl; [reflexivity|].
  rewrite (Hf x) by now left. apply IH. intros y Hy. apply Hf. now right.
Qed.

(** Of the notifications the coins produce, those about one coin are
    the ones its own record produces. *)
Lemma filter_about_coin (P : notification -> bool)
    (g : Z * coin_info -> list notification) (wl : list (Z * coin_info))
    (id : Z) (info : coin_info) :
  (forall kv n, In n (g kv) -> coin_id n = fst kv) ->
  List.NoDup (dict_keys wl) ->
  dict_get id wl = Some info ->
  List.filter (fun n => P n && (coin_id n =? id)) (flat_map g wl) =
  List.filter (fun n => P n && (coin_id n =? id)) (g (id, info)).
Proof.
  intros Hg.
  assert (Hother : forall kv, fst kv <> id ->
             List.filter (fun n => P n && (coin_id n =? id)) (g kv) = []).
  { intros kv Hne. apply filter_none. intros n Hn.
    rewrite (Hg kv n Hn), (proj2 (Z.eqb_neq (fst kv) id) Hne).
    apply andb_false_r. }
  induction wl as [|[k v] wl IH]; intros Hnd Hget; [discriminate|].
  simpl in Hnd. apply NoDup_cons_iff in Hnd as [Hk Hnd].
  simpl in Hget |- *. rewrite List.filter_app.
  destruct (decide (id = k)) as [->|Hne].
  - injection Hget as ->. rewrite <- (app_nil_r (List.filter _ (g (k, info)))) at 2.
    f_equal. apply filter_none. intros n Hn.
    apply in_flat_map in Hn as [[k' v'] [Hkv Hn]].
    rewrite (Hg _ n Hn). simpl.
    assert (Hne : k' <> k).
    { intros ->. apply Hk. now apply (in_map fst) in Hkv. }
    rewrite (proj2 (Z.eqb_neq k' k) Hne). apply andb_false_r.
  - rewrite (Hother (k, v)) by (simpl; congruence). simpl. now apply IH.
Qed.

Lemma short_term_about_emitted (wl : list (Z * coin_info)) (id : Z)
    (info : coin_info) :
  List.NoDup (dict_keys wl) ->
  dict_get id wl = Some info ->
  List.filter (short_term_about id)
    (flat_map (fun kv => emitted (effect (fst kv) (snd kv))) wl) =
  List.filter (short_term_about id) (emitted (effect id info)).
Proof.
  intros Hnd Hget.
  apply (filter_about_coin is_short_term
           (fun kv => emitted (effect (fst kv) (snd kv))) wl id info);
    [|assumption|assumption].
  intros kv n Hn. now apply (emitted_facts _ _ _ _ _ Hn).
Qed.

(** The short-term notifications of a tick about a coin are those of
    the iteration of that coin. *)
Lemma short_term_about_evaluate (wl : list (Z * coin_info)) (id : Z)
    (info : coin_info) :
  List.NoDup (dict_keys wl) ->
  dict_get id wl = Some info ->
  List.filter (short_term_about id) (notifications (eval wl)) =
  List.filter (short_term_about id) (emitted (effect id info)).
Proof.
  intros Hnd Hget. rewrite (evaluate_notifications _ _ wl Hnd).
  unfold resolved. rewrite List.filter_app.
  rewrite (filter_none (short_term_about id) (List.filter _ _)).
  - rewrite app_nil_r. now apply short_term_about_emitted.
  - intros n Hn. apply filter_In in Hn as [Hn _].
    pose proof (scanned_candidates_not_short current_prices current_time wl) as Hc.
    rewrite List.Forall_forall in Hc. unfold short_term_about.
    now rewrite (Hc n Hn).
Qed.

Lemma filter_swap {A : Type} (f g : A -> bool) (l : list A) :
  List.filter f (List.filter g l) = List.filter g (List.filter f l).
Proof.
  induction l as [|x l IH]; simpl; [reflexivity|].
  destruct (f x) eqn:Hf, (g x) eqn:Hg; simpl; rewrite ?Hf, ?Hg, IH; reflexivity.
Qed.

(** X1. A tick returns at most one notification of the short-term class
    about a coin: the pending absolute notification of a coin is dropped when
    its own short-term notification is there. *)
Lemma short_class_at_most_once (wl : list (Z * coin_info)) (id : Z) :
  List.NoDup (dict_keys wl) ->
  (List.length (List.filter (short_class_about id) (notifications (eval wl))) <= 1)%nat.
Proof.
  intros Hnd. destruct (dict_get id wl) as [info|] eqn:Hget.
  - rewrite (evaluate_notifications _ _ wl Hnd). unfold resolved.
    rewrite List.filter_app, List.length_app, filter_swap.
    unfold scanned at 1 3. cbn [notifications absolute_notifications].
    unfold short_class_about.
    rewrite (filter_about_coin (fun n => negb (is_long_term n))
               (fun kv => emitted (effect (fst kv) (snd kv))) wl id info);
      [|intros kv n Hn; now apply (emitted_facts _ _ _ _ _ Hn)|assumption|assumption].
    rewrite (filter_about_coin (fun n => negb (is_long_term n))
               (fun kv => candidates (effect (fst kv) (snd kv))) wl id info);
      [|intros kv n Hn; now apply (candidates_facts _ _ _ _ _ Hn)|assumption|assumption].
    cbn [fst snd].
    assert (Hin : forall n, In n (emitted (effect id info)) ->
               In n (notifications (scanned current_prices current_time wl))).
    { intros n Hn. unfold scanned. cbn [notifications]. apply in_flat_map.
      exists (id, info). split; [now apply dict_get_In|exact Hn]. }
    revert Hin. unfold effect_of_coin.
    destruct (current_prices !! id) as [price|]; [|intros _; simpl; lia].
    destruct (last_price (short_term info)) as [sp|]; [|intros _; simpl; lia].
    destruct (last_price (long_term info)) as [lp|]; [|intros _; simpl; lia].
    destruct (change_percent price sp) as [sc|e]; [|intros _; simpl; lia].
    destruct (change_percent price lp) as [lc|e]; [|intros _; simpl; lia].
    unfold checked_effect. cbn [emitted candidates].
    destruct (stops (scan_outcome sc (short_elapsed current_time info)
                       SHORT_TERM_THRESHOLDS));
      destruct (stops (scan_outcome lc (long_elapsed current_time info)
                         LONG_TERM_THRESHOLDS));
      destruct (py_ge (PrimFloat.abs sc) 2); intros Hin;
      cbn [app List.filter is_long_term type short_term_notification
             long_term_notification absolute_notification coin_id negb andb];
      rewrite ?Z.eqb_refl;
      cbn [app List.filter negb andb List.length];
      try lia.
    all: match goal with
         | |- context [overlaps ?a ?l] =>
             first
               [ now (destruct (overlaps a l); simpl; lia)
               | assert (Hov : overlaps a l = true);
                 [apply existsb_exists;
                  exists (short_term_notification id info price sc
                            (short_elapsed current_time info));
                  split; [apply Hin; simpl; now left|];
                  simpl; now rewrite String.eqb_refl
                 |rewrite Hov; simpl; lia] ]
         end.
  - rewrite filter_none; [simpl; lia|]. intros n Hn.
    destruct (notification_origin _ _ wl n Hnd Hn) as (info0 & Hg & _).
    unfold short_class_about.
    destruct (Z.eqb_spec (coin_id n) id) as [Heq|Hne]; [|apply andb_false_r].
    rewrite Heq in Hg. congruence.
Qed.
End ShortTermFacts.

(** C2. The short-term table is, in declared order, (0.2%, 2m),
    (0.5%, 5m), (1.0%, 10m), (2.0%, 30m).  The loop over it returns the first
    rule, in that order, for which [abs(change) >= percent] and the time
    since the last short-term notification is at most the window, appends one
    short-term notification when there is such a rule and tries no later rule;
    it appends nothing when there is none.  For a coin with both baselines
    set whose two change percentages are computed, the short-term
    notifications of the tick about the coin are that one notification, or
    none. *)
Theorem C2_short_term_first_match (current_prices : gmap Z float)
    (current_time : datetime) :
  SHORT_TERM_THRESHOLDS =
  [ {| percent := 0.2; minutes := Minutes 2 |};
    {| percent := 0.5; minutes := Minutes 5 |};
    {| percent := 1.0; minutes := Minutes 10 |};
    {| percent := 2.0; minutes := Minutes 30 |} ] /\
  (forall id info price change s,
     dict_get id (watchlist s) = Some info ->
     short_term_scan current_time id info price change SHORT_TERM_THRESHOLDS s =
     (Ok (spec_first_match change (short_elapsed current_time info)
            SHORT_TERM_THRESHOLDS),
      match spec_first_match change (short_elapsed current_time info)
              SHORT_TERM_THRESHOLDS with
      | Some _ =>
          append_notification
            (short_term_notification id info price change
               (short_elapsed current_time info)) s
      | None => s
      end)) /\
  (forall wl id info price short_term_price long_term_price
          short_change long_change,
     List.NoDup (dict_keys wl) ->
     dict_get id wl = Some info ->
     current_prices !! id = Some price ->
     last_price (short_term info) = Some short_term_price ->
     last_price (long_term info) = Some long_term_price ->
     change_percent price short_term_price = Ok short_change ->
     change_percent price long_term_price = Ok long_change ->
     List.filter (short_term_about id)
       (notifications (evaluate current_prices current_time wl)) =
     match spec_first_match short_change (short_elapsed current_time info)
             SHORT_TERM_THRESHOLDS with
     | Some _ =>
         [short_term_notification id info price short_change
            (short_elapsed current_time info)]
     | None => []
     end).
Proof.
  split; [reflexivity|split].
  - intros id info price change s Hget.
    rewrite (short_term_scan_run current_time id info price change _ s Hget).
    rewrite (scan_outcome_finite _ _ _ short_term_windows_finite).
    now destruct (spec_first_match change _ SHORT_TERM_THRESHOLDS).
  - intros wl id info price sp lp sc lc Hnd Hget Hp Hs Hl Hsc Hlc.
    rewrite (short_term_about_evaluate _ _ wl id info Hnd Hget).
    unfold effect_of_coin. rewrite Hp, Hs, Hl, Hsc, Hlc.
    unfold checked_effect. cbn [emitted].
    rewrite (scan_outcome_finite _ _ _ short_term_windows_finite).
    rewrite List.filter_app.
    destruct (spec_first_match sc _ SHORT_TERM_THRESHOLDS);
      destruct (stops (scan_outcome lc (long_elapsed current_time info)
                         LONG_TERM_THRESHOLDS));
      simpl; unfold short_term_about; simpl; rewrite ?Z.eqb_refl; reflexivity.
Qed.

(** C2 at work: 0.6% in four minutes passes the first rule by (its
    window is two minutes) and stops at the second. *)
Lemma C2_short_term_first_match_witness :
  let info :=
    {| short_term := {| last_price := Some 1000%float; last_notification_time := 0 |};
       long_term := {| last_price := Some 1000%float; last_notification_time := 0 |};
       name := "Bitcoin"; symbol := "BTC" |} in
  let prices : gmap Z float := <[1 := 1006%float]> ∅ in
  spec_first_match 0.6 240000000 SHORT_TERM_THRESHOLDS =
  Some {| percent := 0.5; minutes := Minutes 5 |} /\
  List.filter (short_term_about 1)
    (notifications (evaluate prices 240000000 [(1, info)])) =
  [short_term_notification 1 info 1006 0.6 240000000].
Proof.
  intros info prices. split; [vm_compute; reflexivity|].
  destruct (C2_short_term_first_match prices 240000000) as (_ & _ & Htick).
  rewrite (Htick [(1, info)] 1 info 1006%float 1000%float 1000%float
             0.6%float 0.6%float).
  - vm_compute. reflexivity.
  - repeat constructor. simpl. tauto.
  - reflexivity.
  - vm_compute. reflexivity.
  - reflexivity.
  - reflexivity.
  - vm_compute. reflexivity.
  - vm_compute. reflexivity.
Defined.

(** ** Scenario A *)

Lemma scenario_A_effect (now : datetime) :
  effect_of_coin scenario_A_prices now 1 (scenario_A_info now) =
  {| entry_after := scenario_A_info now;
     emitted := [short_term_notification 1 (scenario_A_info now) 102 2
                   (1 * microseconds_per_minute)];
     candidates := [absolute_notification 1 (scenario_A_info now) 102 2];
     changed := false |}.
Proof.
  unfold effect_of_coin.
  replace (scenario_A_prices !! 1) with (Some 102%float) by (vm_compute; reflexivity).
  cbn [scenario_A_info last_price short_term long_term].
  replace (change_percent 102 100) with (@Ok float 2%float)
    by (vm_compute; reflexivity).
  unfold checked_effect, short_elapsed, long_elapsed.
  cbn [scenario_A_info last_notification_time short_term long_term].
  replace (now - (now - 1 * microseconds_per_minute))
    with (1 * microseconds_per_minute) by lia.
  replace (scan_outcome 2 (1 * microseconds_per_minute) SHORT_TERM_THRESHOLDS)
    with (@Ok (option threshold) (Some {| percent := 0.2; minutes := Minutes 2 |}))
    by (vm_compute; reflexivity).
  replace (scan_outcome 2 (1 * microseconds_per_minute) LONG_TERM_THRESHOLDS)
    with (@Ok (option threshold) None) by (vm_compute; reflexivity).
  replace (py_ge (PrimFloat.abs 2) 2) with true by (vm_compute; reflexivity).
  reflexivity.
Qed.

Lemma scenario_A_NoDup (now : datetime) :
  List.NoDup (dict_keys [(1, scenario_A_info now)]).
Proof. repeat constructor. simpl. tauto. Qed.

(** C4, as stated, at a tick at minute 1: the loop over the short-term
    table does not stop at the rule (2.0%, 30m). *)
Lemma C4_scenario_A_counterexample :
  fst (short_term_scan (1 * microseconds_per_minute) 1
         (scenario_A_info (1 * microseconds_per_minute)) 102 2
         SHORT_TERM_THRESHOLDS
         (initial_state [(1, scenario_A_info (1 * microseconds_per_minute))]))
  <> Ok (Some {| percent := 2.0; minutes := Minutes 30 |}).
Proof.
  intros H.
  pose proof (f_equal (fun r => match r with
                                | Ok (Some rule) => minutes rule
                                | _ => Infinity
                                end) H) as Hwindow.
  vm_compute in Hwindow. discriminate Hwindow.
Qed.

(** C4, amended. In Scenario A the change is +2.0%; the loop over the
    short-term table stops at its first rule, (0.2%, 2m) (the rule
    (2.0%, 30m) is satisfied too, and is not reached); one short-term
    notification is emitted; the absolute rule matches as well and its
    notification is pending after the loop over the coins, and the overlap
    resolution drops it; the short-term baseline becomes 102 at the time of
    the tick, the long-term channel is untouched, and the watchlist is
    marked as changed. *)
Theorem C4_scenario_A (now : datetime) :
  let info := scenario_A_info now in
  let wl := [(1, info)] in
  let alert :=
    {| coin_name := "Asset X"; coin_symbol := "X";
       current_price := 102; price_change := 2;
       time_elapsed := Some (1 * microseconds_per_minute);
       type := type_short_term; coin_id := 1 |} in
  change_percent 102 100 = Ok 2%float /\
  fst (short_term_scan now 1 info 102 2 SHORT_TERM_THRESHOLDS (initial_state wl))
  = Ok (Some {| percent := 0.2; minutes := Minutes 2 |}) /\
  spec_rule_matches 2 (short_elapsed now info)
    {| percent := 2.0; minutes := Minutes 30 |} = true /\
  notifications (scan_coins scenario_A_prices now wl) = [alert] /\
  absolute_notifications (scan_coins scenario_A_prices now wl)
  = [ {| coin_name := "Asset X"; coin_symbol := "X";
         current_price := 102; price_change := 2;
         time_elapsed := None;
         type := type_absolute; coin_id := 1 |} ] /\
  notifications (evaluate scenario_A_prices now wl) = [alert] /\
  watchlist (evaluate scenario_A_prices now wl)
  = [(1, {| short_term := {| last_price := Some 102%float;
                             last_notification_time := now |};
            long_term := {| last_price := Some 100%float;
                            last_notification_time :=
                              now - 1 * microseconds_per_minute |};
            name := "Asset X";
            symbol := "X" |})] /\
  watchlist_updated (evaluate scenario_A_prices now wl) = true.
Proof.
  intros info wl alert.
  assert (Helapsed : short_elapsed now info = 1 * microseconds_per_minute).
  { unfold short_elapsed, info. simpl. lia. }
  assert (Hscan : scanned scenario_A_prices now wl =
                  {| watchlist := wl;
                     notifications := [alert];
                     absolute_notifications := [absolute_notification 1 info 102 2];
                     watchlist_updated := false |}).
  { unfold scanned, wl. cbn [map flat_map existsb fst snd].
    unfold info. rewrite scenario_A_effect. reflexivity. }
  split; [vm_compute; reflexivity|]. split.
  - rewrite (short_term_scan_run now 1 info 102 2 SHORT_TERM_THRESHOLDS
               (initial_state wl)) by reflexivity.
    cbn [fst]. rewrite Helapsed. vm_compute. reflexivity.
  - split; [rewrite Helapsed; vm_compute; reflexivity|].
    rewrite (evaluate_updated _ _ wl (scenario_A_NoDup now)).
    rewrite (evaluate_watchlist _ _ wl (scenario_A_NoDup now)).
    rewrite (evaluate_notifications _ _ wl (scenario_A_NoDup now)).
    rewrite (scan_coins_scanned _ _ wl (scenario_A_NoDup now)), Hscan.
    cbn [notifications absolute_notifications watchlist watchlist_updated].
    assert (Hres : resolved [alert] [absolute_notification 1 info 102 2] = [alert]).
    { vm_compute. reflexivity. }
    rewrite Hres. repeat split.
Qed.

(** ** Overlap resolution compares ticker symbols *)

(** C1, evaluated on two coins with the same symbol.  After the loop
    over the coins there is one short-term notification, about coin 1, and a
    pending absolute notification for each coin.  No short-term notification
    is about coin 2, and yet its absolute notification is dropped: the tick
    returns the notification of coin 1 alone and leaves the short-term
    baseline of coin 2 where it was.  With coin 1 out of the watchlist the
    same coin 2 gets its absolute notification. *)
Theorem C1_absolute_suppressed_by_other_asset :
  let s := scan_coins twin_symbol_prices twin_symbol_time twin_symbol_watchlist in
  let s' := evaluate twin_symbol_prices twin_symbol_time twin_symbol_watchlist in
  map (fun n => (coin_id n, type n)) (notifications s) = [(1, type_short_term)] /\
  map (fun n => (coin_id n, type n)) (absolute_notifications s)
  = [(1, type_absolute); (2, type_absolute)] /\
  List.filter (short_term_about 2) (notifications s) = [] /\
  map (fun n => (coin_id n, type n)) (notifications s') = [(1, type_short_term)] /\
  dict_get 2 (watchlist s') = dict_get 2 twin_symbol_watchlist /\
  map (fun n => (coin_id n, type n))
    (notifications (evaluate twin_symbol_prices twin_symbol_time
                      (dict_remove 1 twin_symbol_watchlist)))
  = [(2, type_absolute)].
Proof. vm_compute. repeat split. Qed.

(** ** The rule without window *)

(** A rule with a window that does not match is passed by: on its
    magnitude, or else on its window. *)
Ltac pass_rule H :=
  match type of H with
  | py_ge ?a ?p && _ = false =>
      destruct (py_ge a p); [simpl in H; rewrite H|]; clear H
  end.

(** A change of at least 15% that the four rules with a window let
    through reaches the fifth rule, whose window cannot be built: the scan
    raises. *)
Lemma long_term_scan_overflow (change : float) (elapsed : timedelta) :
  py_ge (PrimFloat.abs change) 15.0 = true ->
  (forall rule, In rule (firstn 4 LONG_TERM_THRESHOLDS) ->
     spec_rule_matches change elapsed rule = false) ->
  scan_outcome change elapsed LONG_TERM_THRESHOLDS = Raise OverflowError.
Proof.
  intros Hmag Hearlier.
  pose proof (Hearlier _ (or_introl eq_refl)) as H1.
  pose proof (Hearlier _ (or_intror (or_introl eq_refl))) as H2.
  pose proof (Hearlier _ (or_intror (or_intror (or_introl eq_refl)))) as H3.
  pose proof (Hearlier _ (or_intror (or_intror (or_intror (or_introl eq_refl)))))
    as H4.
  unfold spec_rule_matches, within_window in H1, H2, H3, H4.
  cbn [percent minutes] in H1, H2, H3, H4.
  unfold LONG_TERM_THRESHOLDS. rewrite !scan_outcome_cons.
  cbn [percent minutes timedelta_of_minutes].
  pass_rule H1; pass_rule H2; pass_rule H3; pass_rule H4; now rewrite Hmag.
Qed.

(** C3, evaluated on a coin 20% above its long-term baseline 25 hours
    after the last notification.  The magnitude is at least 15.0, none of the
    four earlier rules matches and the fifth, as the specification words it,
    does; but the loop over the long-term table raises [OverflowError] when
    it builds the window of the fifth rule.  The handler of the iteration
    absorbs it: the tick returns the absolute notification alone, and the
    long-term channel of the coin is what it was. *)
Theorem C3_final_long_term_rule_raises :
  let wl := [(1, slow_mover_info)] in
  let s := evaluate slow_mover_prices slow_mover_time wl in
  change_percent 120 100 = Ok 20%float /\
  py_ge (PrimFloat.abs 20) 15.0 = true /\
  spec_first_match 20 (long_elapsed slow_mover_time slow_mover_info)
    LONG_TERM_THRESHOLDS
  = Some {| percent := 15.0; minutes := Infinity |} /\
  long_term_scan slow_mover_time 1 slow_mover_info 120 20 LONG_TERM_THRESHOLDS
    (initial_state wl)
  = (Raise OverflowError, initial_state wl) /\
  map (fun n => (coin_id n, type n)) (notifications s) = [(1, type_absolute)] /\
  option_map long_term (dict_get 1 (watchlist s)) = Some (long_term slow_mover_info).
Proof. vm_compute. repeat split. Qed.

(** ** The persisted watchlist *)

Section PersistenceFacts.
Variable rt : runtime.

(** What [load_watchlist] returns has distinct keys, as a [dict] has. *)
Lemma load_watchlist_NoDup (fs : files) :
  List.NoDup (dict_keys (load_watchlist rt fs)).
Proof.
  unfold load_watchlist.
  destruct (nonempty_file (watchlist_json fs)) as [content|]; [|constructor].
  destruct (json_load rt content) as [[| | | | |data]|]; try constructor.
  assert (Hfold : forall items wl,
             List.NoDup (dict_keys wl) ->
             List.NoDup (dict_keys (fold_left (load_item rt) items wl))).
  { induction items as [|item items IH]; intros wl Hwl; simpl; [assumption|].
    apply IH. unfold load_item.
    destruct (int_of_str rt (fst item)); [|assumption].
    destruct (load_info rt (snd item)); [|assumption].
    now apply dict_keys_set. }
  apply Hfold. constructor.
Qed.

(** A typed record is the reading of the record it is stored as, and of
    no other. *)
Lemma typed_stored_channel (c : channel) :
  typed_channel (stored_of_channel c) = Some c.
Proof. destruct c as [[x|] t]; reflexivity. Qed.

Lemma typed_stored_info (info : coin_info) :
  typed_info (stored_of_info info) = Some info.
Proof.
  unfold typed_info. cbn [stored_of_info stored_short_term stored_long_term
                          stored_name stored_symbol].
  rewrite !typed_stored_channel. now destruct info.
Qed.

Lemma stored_typed_channel (c : stored_channel) (ch : channel) :
  typed_channel c = Some ch -> stored_of_channel ch = c.
Proof.
  destruct c as [p t]. unfold typed_channel. cbn [stored_last_price].
  destruct p; try discriminate; intros [= <-]; reflexivity.
Qed.

Lemma stored_typed_info (w : stored_info) (info : coin_info) :
  typed_info w = Some info -> stored_of_info info = w.
Proof.
  unfold typed_info. destruct w as [s l n sy].
  cbn [stored_short_term stored_long_term stored_name stored_symbol].
  destruct (typed_channel s) as [cs|] eqn:Hs; [|discriminate].
  destruct (typed_channel l) as [cl|] eqn:Hl; [|discriminate].
  destruct n; try discriminate. destruct sy; try discriminate.
  intros [= <-]. unfold stored_of_info. cbn [short_term long_term name symbol].
  now rewrite (stored_typed_channel _ _ Hs), (stored_typed_channel _ _ Hl).
Qed.

(** A watchlist of typed records is read whole, whatever the prices. *)
Lemma records_read_typed (current_prices : gmap Z float)
    (wl : list (Z * coin_info)) :
  records_read current_prices (stored_watchlist wl) = Some wl.
Proof.
  unfold stored_watchlist.
  induction wl as [|[id info] wl IH]; cbn [map records_read fst snd];
    [reflexivity|].
  now rewrite typed_stored_info, IH.
Qed.

(** Without a price for any coin, every watchlist is read: no record is
    looked at. *)
Lemma records_read_unpriced (current_prices : gmap Z float)
    (loaded : list (Z * stored_info)) :
  (forall id, In id (dict_keys loaded) -> current_prices !! id = None) ->
  exists wl,
    records_read current_prices loaded = Some wl /\
    forall id, In id (dict_keys wl) -> In id (dict_keys loaded).
Proof.
  induction loaded as [|[id w] loaded IH]; intros Hnone.
  - exists []. split; [reflexivity|]. intros id [].
  - destruct IH as (wl & Hread & Hkeys).
    { intros id' Hid'. apply Hnone. now right. }
    simpl. rewrite Hread, (Hnone id) by now left.
    destruct (typed_info w) as [info|].
    + exists ((id, info) :: wl). split; [reflexivity|].
      intros id' [<-|Hid']; [now left|right; now apply Hkeys].
    + exists wl. split; [reflexivity|].
      intros id' Hid'. right. now apply Hkeys.
Qed.

(** The tick is outside the typed records exactly when a record that is
    not typed belongs to a coin that has a price. *)
Lemma records_read_None (current_prices : gmap Z float)
    (loaded : list (Z * stored_info)) :
  records_read current_prices loaded = None <->
  exists id w,
    In (id, w) loaded /\ typed_info w = None /\ current_prices !! id <> None.
Proof.
  induction loaded as [|[id w] loaded IH]; cbn [records_read].
  - split; [discriminate|]. intros (id & w & [] & _).
  - destruct (typed_info w) as [info|] eqn:Hty.
    + destruct (records_read current_prices loaded) as [wl|].
      * split; [discriminate|]. intros (id' & w' & [[= <- <-]|Hin] & Hty' & Hp).
        -- congruence.
        -- assert (Hbad : Some wl = None) by (apply IH; eauto).
           discriminate.
      * split; [|reflexivity]. intros _.
        destruct (proj1 IH eq_refl) as (id' & w' & Hin & Hrest).
        exists id', w'. split; [now right|exact Hrest].
    + destruct (current_prices !! id) as [price|] eqn:Hp.
      * split; [|reflexivity]. intros _. exists id, w.
        split; [now left|]. split; [exact Hty|]. now rewrite Hp.
      * rewrite IH. split.
        -- intros (id' & w' & Hin & Hrest). exists id', w'.
           split; [now right|exact Hrest].
        -- intros (id' & w' & [[= <- <-]|Hin] & Hty' & Hp'); [congruence|eauto].
Qed.

(** What the tick writes back over a watchlist of typed records is the
    watchlist as the engine left it. *)
Lemma records_written_typed (wl wl' : list (Z * coin_info)) :
  List.NoDup (dict_keys wl) ->
  dict_keys wl' = dict_keys wl ->
  records_written wl' (stored_watchlist wl) = stored_watchlist wl'.
Proof.
  intros Hnd Hkeys. unfold records_written, stored_watchlist.
  rewrite map_map. cbn [fst snd].
  assert (Hgen : forall (l l' : list (Z * coin_info)),
             dict_keys l' = dict_keys l ->
             (forall kv, In kv l' -> dict_get (fst kv) wl' = Some (snd kv)) ->
             map (fun kv : Z * coin_info =>
                    (fst kv,
                     match dict_get (fst kv) wl' with
                     | Some info => stored_of_info info
                     | None => stored_of_info (snd kv)
                     end)) l
             = map (fun kv => (fst kv, stored_of_info (snd kv))) l').
  { induction l as [|[k v] l IH]; intros [|[k' v'] l'] Hk Hin; simpl in Hk;
      try discriminate; [reflexivity|].
    injection Hk as <- Hk.
    pose proof (Hin (k', v') (or_introl eq_refl)) as Hhead.
    cbn [map fst snd] in Hhead |- *. rewrite Hhead. f_equal.
    apply IH; [assumption|]. intros kv Hkv. apply Hin. now right. }
  apply Hgen; [assumption|].
  intros [k v] Hin. simpl. apply In_dict_get; [|assumption].
  now rewrite Hkeys.
Qed.

End PersistenceFacts.

(** C9. When the watchlist file exists, is not empty and holds a JSON
    object one of whose keys is [str(coin_id)], [add_coin] returns [True] and
    leaves the monitor as it was: the files and [self.tokens] are untouched,
    whatever the API would have answered for the coin. *)
Theorem C9_add_coin_idempotent (rt : runtime) (coin_id : Z)
    (coin_data : option (string * string)) (current_time : datetime)
    (m : monitor) (content : string) (fields : list (string * json))
    (entry : json) :
  watchlist_json (disk m) = Some content ->
  content <> ""%string ->
  json_load rt content = Some (JObj fields) ->
  dict_get (str_of_int rt coin_id) fields = Some entry ->
  add_coin rt coin_id coin_data current_time m = (true, m).
Proof.
  intros Hfile Hne Hload Hkey. unfold add_coin. rewrite Hfile.
  destruct content as [|c content]; [congruence|].
  cbn [nonempty_file]. rewrite Hload. unfold py_contains. now rewrite Hkey.
Qed.

(** C9 at work: coin 1027 is a key of the stored document. *)
Lemma C9_add_coin_idempotent_witness :
  let m :=
    {| disk := {| watchlist_json := Some "watchlist"%string; tokens_json := None |};
       tokens := [] |} in
  add_coin example_runtime 1027 (Some ("Ethereum", "ETH")%string) 0 m = (true, m).
Proof.
  intros m.
  apply (C9_add_coin_idempotent example_runtime 1027 _ 0 m
           "watchlist" [("1"%string, JNull); ("1027"%string, JObj [])] (JObj [])).
  - reflexivity.
  - discriminate.
  - reflexivity.
  - vm_compute. reflexivity.
Defined.

(** C10. When the watchlist file is missing, is empty, or does not parse
    as JSON, [load_watchlist] returns an empty watchlist, and
    [check_price_movements] returns no notification and leaves the files as
    they are, whatever the price API would have answered. *)
Theorem C10_unreadable_watchlist (rt : runtime)
    (get_coin_price : list Z -> gmap Z float) (current_time : datetime)
    (fs : files) :
  watchlist_json fs = None
  \/ watchlist_json fs = Some ""%string
  \/ (exists content, watchlist_json fs = Some content /\ json_load rt content = None) ->
  load_watchlist rt fs = [] /\
  check_price_movements rt get_coin_price current_time fs = Returned [] fs.
Proof.
  intros Hfile.
  assert (Hload : load_watchlist rt fs = []).
  { unfold load_watchlist.
    destruct Hfile as [-> | [-> | (content & -> & Hparse)]]; try reflexivity.
    destruct content as [|c content]; [reflexivity|].
    cbn [nonempty_file]. now rewrite Hparse. }
  split; [exact Hload|].
  unfold check_price_movements. now rewrite Hload.
Qed.

(** C10 at work: a file that is not JSON. *)
Lemma C10_unreadable_watchlist_witness :
  let fs := {| watchlist_json := Some "not json {"%string; tokens_json := None |} in
  load_watchlist example_runtime fs = [] /\
  check_price_movements example_runtime (fun _ => ∅) 0 fs = Returned [] fs.
Proof.
  intros fs.
  apply (C10_unreadable_watchlist example_runtime (fun _ => ∅) 0 fs).
  right. right. exists "not json {"%string. split; reflexivity.
Defined.

(** * Further properties of the evaluation *)

Section FurtherEvaluateFacts.
Variable current_prices : gmap Z float.
Variable current_time : datetime.

Local Abbreviation effect := (effect_of_coin current_prices current_time).
Local Abbreviation eval := (evaluate current_prices current_time).
Local Abbreviation scan := (scanned current_prices current_time).

(** A scan that stops, stops at a rule of its table that has a window
    in minutes and that matches. *)
Lemma scan_outcome_stops (change : float) (elapsed : timedelta)
    (rules : list threshold) :
  stops (scan_outcome change elapsed rules) = true ->
  exists rule k,
    In rule rules /\ minutes rule = Minutes k /\
    spec_rule_matches change elapsed rule = true.
Proof.
  induction rules as [|rule rules IH]; [discriminate|].
  rewrite scan_outcome_cons.
  destruct (py_ge (PrimFloat.abs change) (percent rule)) eqn:Hmag.
  - destruct (minutes rule) as [k|] eqn:Hmin; simpl; [|discriminate].
    destruct (elapsed <=? k * microseconds_per_minute) eqn:Hwin.
    + intros _. exists rule, k. split; [now left|]. split; [assumption|].
      unfold spec_rule_matches. now rewrite Hmag, Hmin.
    + intros Hstops. destruct (IH Hstops) as (r & k' & Hin & Hr).
      exists r, k'. split; [now right|assumption].
  - intros Hstops. destruct (IH Hstops) as (r & k' & Hin & Hr).
    exists r, k'. split; [now right|assumption].
Qed.

(** What the first pass emits for a coin, and why. *)
Lemma emitted_justified (id : Z) (info : coin_info) (n : notification) :
  In n (emitted (effect id info)) ->
  exists price sp lp sc lc,
    current_prices !! id = Some price /\
    last_price (short_term info) = Some sp /\
    last_price (long_term info) = Some lp /\
    change_percent price sp = Ok sc /\
    change_percent price lp = Ok lc /\
    (n = short_term_notification id info price sc (short_elapsed current_time info)
     /\ stops (scan_outcome sc (short_elapsed current_time info)
                 SHORT_TERM_THRESHOLDS) = true
     \/ n = long_term_notification id info price lc (long_elapsed current_time info)
        /\ stops (scan_outcome lc (long_elapsed current_time info)
                    LONG_TERM_THRESHOLDS) = true).
Proof.
  unfold effect_of_coin.
  destruct (current_prices !! id) as [price|]; [|intros []].
  destruct (last_price (short_term info)) as [sp|];
    [destruct (last_price (long_term info)) as [lp|]|]; try (intros []).
  destruct (change_percent price sp) as [sc|e] eqn:Hsc;
    [destruct (change_percent price lp) as [lc|e] eqn:Hlc|]; try (intros []).
  unfold checked_effect. cbn [emitted].
  intros Hin. exists price, sp, lp, sc, lc.
  do 5 (split; [first [reflexivity|assumption]|]).
  destruct (stops (scan_outcome sc (short_elapsed current_time info)
                     SHORT_TERM_THRESHOLDS));
    destruct (stops (scan_outcome lc (long_elapsed current_time info)
                       LONG_TERM_THRESHOLDS));
    simpl in Hin; repeat destruct Hin as [<-|Hin]; try destruct Hin;
    first [left; split; reflexivity | right; split; reflexivity].
Qed.

(** What is left pending for a coin, and why. *)
Lemma candidates_justified (id : Z) (info : coin_info) (n : notification) :
  In n (candidates (effect id info)) ->
  exists price sp sc,
    current_prices !! id = Some price /\
    last_price (short_term info) = Some sp /\
    change_percent price sp = Ok sc /\
    n = absolute_notification id info price sc /\
    py_ge (PrimFloat.abs sc) 2.0 = true.
Proof.
  unfold effect_of_coin.
  destruct (current_prices !! id) as [price|]; [|intros []].
  destruct (last_price (short_term info)) as [sp|];
    [destruct (last_price (long_term info)) as [lp|]|]; try (intros []).
  destruct (change_percent price sp) as [sc|e] eqn:Hsc;
    [destruct (change_percent price lp) as [lc|e] eqn:Hlc|]; try (intros []).
  unfold checked_effect. cbn [candidates].
  destruct (py_ge (PrimFloat.abs sc) 2) eqn:Habs; [|intros []].
  intros [<-|[]]. exists price, sp, sc. repeat split; assumption.
Qed.

(** A coin whose iteration does not set the changed flag keeps its
    record and emits no long-term notification. *)
Lemma unchanged_effect (id : Z) (info : coin_info) :
  changed (effect id info) = false ->
  entry_after (effect id info) = info /\
  (forall n, In n (emitted (effect id info)) -> is_long_term n = false).
Proof.
  unfold effect_of_coin.
  destruct (current_prices !! id) as [price|]; [|intros _; split; [reflexivity|intros n []]].
  destruct (last_price (short_term info)) as [sp|];
    [destruct (last_price (long_term info)) as [lp|]|]; try discriminate.
  destruct (change_percent price sp) as [sc|e];
    [destruct (change_percent price lp) as [lc|e]|];
    try (intros _; split; [reflexivity|intros n []]).
  unfold checked_effect. cbn [changed entry_after emitted].
  intros ->. split; [reflexivity|].
  destruct (stops (scan_outcome sc (short_elapsed current_time info)
                     SHORT_TERM_THRESHOLDS)); simpl;
    intros n Hn; repeat destruct Hn as [<-|Hn]; try destruct Hn; reflexivity.
Qed.

(** The names of a record, and its channels up to a reset, survive the
    loop over the coins. *)
Lemma entry_after_frame (id : Z) (info : coin_info) :
  name (entry_after (effect id info)) = name info /\
  symbol (entry_after (effect id info)) = symbol info /\
  (short_term (entry_after (effect id info)) = short_term info
   \/ exists p, current_prices !! id = Some p /\
        short_term (entry_after (effect id info)) = fresh_channel p current_time) /\
  (long_term (entry_after (effect id info)) = long_term info
   \/ exists p, current_prices !! id = Some p /\
        long_term (entry_after (effect id info)) = fresh_channel p current_time).
Proof.
  unfold effect_of_coin.
  destruct (current_prices !! id) as [price|]; [|simpl; auto].
  destruct (last_price (short_term info)) as [sp|];
    [destruct (last_price (long_term info)) as [lp|]|];
    try (simpl; repeat split; right; exists price; auto).
  destruct (change_percent price sp) as [sc|e];
    [destruct (change_percent price lp) as [lc|e]|]; try (simpl; auto).
  unfold checked_effect. cbn [entry_after].
  destruct (stops (scan_outcome lc (long_elapsed current_time info)
                     LONG_TERM_THRESHOLDS)); simpl; auto.
  repeat split; auto. right. exists price. auto.
Qed.

(** What the final loop can do to the short-term channel of a coin. *)
Lemma reset_fold_short_term (id : Z) (info : coin_info)
    (ns : list notification) (wl : list (Z * coin_info)) :
  dict_get id wl = Some info ->
  exists info',
    dict_get id (fold_left (reset_short_term current_time) ns wl) = Some info' /\
    (short_term info' = short_term info
     \/ exists n, In n ns /\ coin_id n = id /\
          short_term info' = fresh_channel (current_price n) current_time).
Proof.
  revert wl info. induction ns as [|n ns IH]; intros wl info Hget; simpl.
  - exists info. auto.
  - unfold reset_short_term at 2. destruct (is_long_term n).
    + destruct (IH wl info Hget) as (info' & Hg & [Hs|(m & Hm & Hid & Hs)]);
        exists info'; split; auto. right. exists m. auto.
    + destruct (decide (id = coin_id n)) as [Heq|Hne].
      * destruct (IH (dict_alter (set_short_term (fresh_channel (current_price n)
                                                    current_time)) (coin_id n) wl)
                    (set_short_term (fresh_channel (current_price n) current_time) info))
          as (info' & Hg & [Hs|(m & Hm & Hid & Hs)]).
        { now rewrite <- Heq, dict_get_alter_eq, Hget. }
        -- exists info'. split; [assumption|]. right. exists n. auto.
        -- exists info'. split; [assumption|]. right. exists m. auto.
      * destruct (IH (dict_alter (set_short_term (fresh_channel (current_price n)
                                                    current_time)) (coin_id n) wl)
                    info)
          as (info' & Hg & [Hs|(m & Hm & Hid & Hs)]).
        { now rewrite dict_get_alter_ne. }
        -- exists info'. auto.
        -- exists info'. split; [assumption|]. right. exists m. auto.
Qed.

Lemma map_fixed {A : Type} (f : A -> A) (l : list A) :
  (forall x, In x l -> f x = x) -> map f l = l.
Proof.
  induction l as [|x l IH]; intros Hf; simpl; [reflexivity|].
  rewrite (Hf x) by now left. f_equal. apply IH. intros y Hy. apply Hf. now right.
Qed.

(** An iteration for an identifier that is no key of the watchlist ends
    at its first line; the handler absorbs the [KeyError]. *)
Lemma process_coin_missing (s : tick_state) (id : Z) :
  dict_get id (watchlist s) = None ->
  process_coin current_prices current_time s id = s.
Proof.
  intros Hget. unfold process_coin, try_except, process_coin_body.
  unfold bind, get_coin. now rewrite Hget.
Qed.

Lemma process_coin_unpriced (s : tick_state) (id : Z) :
  current_prices !! id = None ->
  process_coin current_prices current_time s id = s.
Proof.
  intros Hp. destruct (dict_get id (watchlist s)) as [info|] eqn:Hget.
  - rewrite (process_coin_effect _ _ s id info Hget).
    unfold effect_of_coin. rewrite Hp. now apply apply_no_effect.
  - now apply process_coin_missing.
Qed.
End FurtherEvaluateFacts.

(** X2. A tick returns at most one long-term notification about a
    coin. *)
Theorem long_term_at_most_once (current_prices : gmap Z float)
    (current_time : datetime) (wl : list (Z * coin_info)) (id : Z) :
  List.NoDup (dict_keys wl) ->
  (List.length
     (List.filter (long_term_about id)
        (notifications (evaluate current_prices current_time wl))) <= 1)%nat.
Proof.
  intros Hnd. rewrite (evaluate_notifications _ _ wl Hnd). unfold resolved.
  rewrite List.filter_app, List.length_app.
  rewrite (filter_none (long_term_about id) (List.filter _ _)).
  2:{ intros n Hn. apply filter_In in Hn as [Hn _].
      unfold scanned in Hn. cbn [absolute_notifications] in Hn.
      apply in_flat_map in Hn as [[k v] [_ Hn]].
      apply candidates_facts in Hn as (_ & _ & _ & Hty).
      unfold long_term_about, is_long_term. now rewrite Hty. }
  destruct (dict_get id wl) as [info|] eqn:Hget.
  - unfold scanned. cbn [notifications]. unfold long_term_about.
    rewrite (filter_about_coin is_long_term
               (fun kv => emitted (effect_of_coin current_prices current_time
                                     (fst kv) (snd kv))) wl id info);
      [|intros kv n Hn; now apply (emitted_facts _ _ _ _ _ Hn)|assumption|assumption].
    cbn [fst snd]. unfold effect_of_coin.
    destruct (current_prices !! id) as [price|]; [|simpl; lia].
    destruct (last_price (short_term info)) as [sp|]; [|simpl; lia].
    destruct (last_price (long_term info)) as [lp|]; [|simpl; lia].
    destruct (change_percent price sp) as [sc|e]; [|simpl; lia].
    destruct (change_percent price lp) as [lc|e]; [|simpl; lia].
    unfold checked_effect. cbn [emitted].
    destruct (stops (scan_outcome sc (short_elapsed current_time info)
                       SHORT_TERM_THRESHOLDS));
      destruct (stops (scan_outcome lc (long_elapsed current_time info)
                         LONG_TERM_THRESHOLDS));
      simpl; rewrite ?Z.eqb_refl; simpl; lia.
  - rewrite filter_none; [simpl; lia|]. intros n Hn.
    unfold scanned in Hn. cbn [notifications] in Hn.
    apply in_flat_map in Hn as [[k v] [Hkv Hn]].
    destruct (emitted_facts _ _ _ _ _ Hn) as (Hid & _). simpl in Hid.
    unfold long_term_about.
    destruct (Z.eqb_spec (coin_id n) id) as [Heq|Hne]; [|apply andb_false_r].
    apply dict_get_None in Hget. exfalso. apply Hget.
    rewrite <- Heq, Hid. now apply (in_map fst) in Hkv.
Qed.

(** X3. When a tick leaves the changed flag unset, it returns no
    notification and the watchlist is what was loaded: nothing is lost by not
    saving. *)
Theorem quiet_tick_changes_nothing (current_prices : gmap Z float)
    (current_time : datetime) (wl : list (Z * coin_info)) :
  List.NoDup (dict_keys wl) ->
  watchlist_updated (evaluate current_prices current_time wl) = false ->
  notifications (evaluate current_prices current_time wl) = [] /\
  watchlist (evaluate current_prices current_time wl) = wl.
Proof.
  intros Hnd Hflag.
  rewrite (evaluate_updated _ _ wl Hnd) in Hflag.
  apply orb_false_iff in Hflag as [Hscan Hclass].
  assert (Hquiet : forall kv, In kv wl ->
             changed (effect_of_coin current_prices current_time (fst kv) (snd kv))
             = false).
  { intros kv Hkv. unfold scanned in Hscan. cbn [watchlist_updated] in Hscan.
    destruct (changed _) eqn:Hch; [|reflexivity].
    rewrite (proj2 (existsb_exists _ wl)) in Hscan; [discriminate|].
    exists kv. now split. }
  assert (Hnone : notifications (evaluate current_prices current_time wl) = []).
  { destruct (notifications (evaluate current_prices current_time wl))
      as [|n ns] eqn:Hns; [reflexivity|]. exfalso.
    assert (Hn : In n (notifications (evaluate current_prices current_time wl)))
      by (rewrite Hns; now left).
    simpl in Hclass. apply orb_false_iff in Hclass as [Hlong _].
    apply negb_false_iff in Hlong.
    destruct (notification_origin _ _ wl n Hnd Hn) as (info & Hget & _ & Hsrc).
    destruct Hsrc as [[Hem _]|[_ Hty]].
    - pose proof (Hquiet (coin_id n, info) (dict_get_In _ _ _ Hget)) as Hch.
      destruct (unchanged_effect _ _ _ _ Hch) as [_ Hshort].
      rewrite (Hshort n Hem) in Hlong. discriminate.
    - unfold is_long_term in Hlong. rewrite Hty in Hlong. discriminate. }
  split; [exact Hnone|].
  rewrite (evaluate_watchlist _ _ wl Hnd), Hnone. simpl.
  apply (map_fixed (fun kv => (fst kv, entry_after
                       (effect_of_coin current_prices current_time (fst kv) (snd kv))))).
  intros [k v] Hkv. cbn [fst snd]. f_equal.
  exact (proj1 (unchanged_effect _ _ k v (Hquiet (k, v) Hkv))).
Qed.

(** X4. A tick keeps the keys of the watchlist, in their order, and the
    name and symbol of every coin; each channel of a coin is after the tick
    what it was before, or holds the price the tick was given for the coin
    and the time of the tick. *)
Theorem evaluate_frame (current_prices : gmap Z float)
    (current_time : datetime) (wl : list (Z * coin_info)) :
  List.NoDup (dict_keys wl) ->
  dict_keys (watchlist (evaluate current_prices current_time wl)) = dict_keys wl /\
  (forall id info,
     dict_get id wl = Some info ->
     exists info',
       dict_get id (watchlist (evaluate current_prices current_time wl)) = Some info' /\
       name info' = name info /\
       symbol info' = symbol info /\
       (short_term info' = short_term info
        \/ exists p, current_prices !! id = Some p /\
             short_term info' = {| last_price := Some p;
                                   last_notification_time := current_time |}) /\
       (long_term info' = long_term info
        \/ exists p, current_prices !! id = Some p /\
             long_term info' = {| last_price := Some p;
                                  last_notification_time := current_time |})).
Proof.
  intros Hnd. split.
  - rewrite (evaluate_watchlist _ _ wl Hnd), reset_fold_keys. apply scanned_keys.
  - intros id info Hget.
    pose proof (dict_get_scanned current_prices current_time id wl) as Hsc.
    rewrite Hget in Hsc. cbn [option_map] in Hsc.
    destruct (entry_after_frame current_prices current_time id info)
      as (Hname & Hsym & Hshort & Hlong).
    destruct (reset_fold_long_term current_time id _
                (notifications (evaluate current_prices current_time wl)) _ Hsc)
      as (info' & Hg & Hl & Hn & Hs & _).
    destruct (reset_fold_short_term current_time id _
                (notifications (evaluate current_prices current_time wl)) _ Hsc)
      as (info2 & Hg2 & Hshort2).
    rewrite Hg in Hg2. injection Hg2 as <-.
    exists info'. rewrite (evaluate_watchlist _ _ wl Hnd).
    split; [exact Hg|]. split; [congruence|]. split; [congruence|]. split.
    + destruct Hshort2 as [Heq|(n & Hin & Hid & Heq)].
      * rewrite Heq. exact Hshort.
      * right. exists (current_price n). split; [|exact Heq].
        destruct (notification_origin _ _ wl n Hnd Hin) as (_ & _ & Hp & _).
        now rewrite <- Hid.
    + rewrite Hl. exact Hlong.
Qed.

Lemma evaluate_unpriced (current_prices : gmap Z float)
    (current_time : datetime) (wl : list (Z * coin_info)) :
  (forall id, In id (dict_keys wl) -> current_prices !! id = None) ->
  evaluate current_prices current_time wl = initial_state wl.
Proof.
  intros Hnone. unfold evaluate, scan_coins.
  assert (Hfold : forall ids s,
             (forall id, In id ids -> current_prices !! id = None) ->
             fold_left (process_coin current_prices current_time) ids s = s).
  { induction ids as [|id ids IH]; intros s Hids; simpl; [reflexivity|].
    rewrite process_coin_unpriced by (apply Hids; now left).
    apply IH. intros id' Hid'. apply Hids. now right. }
  rewrite (Hfold _ _ Hnone). reflexivity.
Qed.

(** X5. A tick that has no price for any watched coin returns no
    notification, leaves every record as it was and does not set the changed
    flag. *)
Theorem unpriced_tick_inert (current_prices : gmap Z float)
    (current_time : datetime) (wl : list (Z * coin_info)) :
  (forall id, In id (dict_keys wl) -> current_prices !! id = None) ->
  notifications (evaluate current_prices current_time wl) = [] /\
  watchlist (evaluate current_prices current_time wl) = wl /\
  watchlist_updated (evaluate current_prices current_time wl) = false.
Proof.
  intros Hnone. now rewrite (evaluate_unpriced _ _ _ Hnone).
Qed.

(** X6. The notifications a tick returns are those of the loop over the
    coins, in its order, followed by the pending absolute notifications that
    no short-term notification of that loop overlaps, in their order: a
    kept absolute notification never decides on a later one. *)
Theorem absolute_after_table (current_prices : gmap Z float)
    (current_time : datetime) (wl : list (Z * coin_info)) :
  List.NoDup (dict_keys wl) ->
  notifications (evaluate current_prices current_time wl) =
  notifications (scan_coins current_prices current_time wl) ++
  List.filter
    (fun a => negb (overlaps a (notifications
                                  (scan_coins current_prices current_time wl))))
    (absolute_notifications (scan_coins current_prices current_time wl)).
Proof.
  intros Hnd. rewrite (evaluate_notifications _ _ wl Hnd).
  now rewrite (scan_coins_scanned _ _ wl Hnd).
Qed.

(** X7. Every notification of a tick is justified by the record its coin
    had before the tick: it carries the name and symbol of the record and the
    percentage computed from the baseline of its channel; a short-term
    notification matches a rule of the short-term table at the time since the
    last short-term notification, a long-term notification matches one of the
    long-term rules that have a window in minutes, and an absolute
    notification has a magnitude of at least 2.0. *)
Theorem notification_justified (current_prices : gmap Z float)
    (current_time : datetime) (wl : list (Z * coin_info)) (n : notification) :
  List.NoDup (dict_keys wl) ->
  In n (notifications (evaluate current_prices current_time wl)) ->
  exists info baseline,
    dict_get (coin_id n) wl = Some info /\
    coin_name n = name info /\
    coin_symbol n = symbol info /\
    match type n with
    | type_short_term =>
        last_price (short_term info) = Some baseline /\
        change_percent (current_price n) baseline = Ok (price_change n) /\
        time_elapsed n = Some (short_elapsed current_time info) /\
        exists rule k,
          In rule SHORT_TERM_THRESHOLDS /\ minutes rule = Minutes k /\
          spec_rule_matches (price_change n) (short_elapsed current_time info) rule
          = true
    | type_long_term =>
        last_price (long_term info) = Some baseline /\
        change_percent (current_price n) baseline = Ok (price_change n) /\
        time_elapsed n = Some (long_elapsed current_time info) /\
        exists rule k,
          In rule LONG_TERM_THRESHOLDS /\ minutes rule = Minutes k /\
          spec_rule_matches (price_change n) (long_elapsed current_time info) rule
          = true
    | type_absolute =>
        last_price (short_term info) = Some baseline /\
        change_percent (current_price n) baseline = Ok (price_change n) /\
        time_elapsed n = None /\
        py_ge (PrimFloat.abs (price_change n)) 2.0 = true
    end.
Proof.
  intros Hnd Hin.
  destruct (notification_origin _ _ wl n Hnd Hin) as (info & Hget & _ & Hsrc).
  destruct Hsrc as [[Hem _]|[Hca _]].
  - destruct (emitted_justified _ _ _ _ _ Hem)
      as (price & sp & lp & sc & lc & _ & Hs & Hl & Hsc & Hlc & Hcase).
    destruct Hcase as [[-> Hstops]|[-> Hstops]].
    + exists info, sp. simpl. repeat (split; [first [reflexivity|assumption]|]).
      exact (scan_outcome_stops _ _ _ Hstops).
    + exists info, lp. simpl. repeat (split; [first [reflexivity|assumption]|]).
      exact (scan_outcome_stops _ _ _ Hstops).
  - destruct (candidates_justified _ _ _ _ _ Hca)
      as (price & sp & sc & _ & Hs & Hsc & -> & Habs).
    exists info, sp. simpl. repeat split; assumption.
Qed.

(** * The price source *)

Lemma py_slice_chunk {A : Type} (l : list A) (k : nat) :
  py_slice l (k * BATCH_SIZE) (k * BATCH_SIZE + BATCH_SIZE) =
  firstn BATCH_SIZE (skipn (k * BATCH_SIZE) l).
Proof.
  unfold py_slice. f_equal. lia.
Qed.

Lemma chunks_concat {A : Type} (m : nat) (l : list A) :
  (List.length l <= m * BATCH_SIZE)%nat ->
  concat (map (fun i => py_slice l i (i + BATCH_SIZE))
            (map (fun k => (k * BATCH_SIZE)%nat) (seq 0 m))) = l.
Proof.
  revert l. induction m as [|m IH]; intros l Hlen.
  - simpl in Hlen. destruct l; [reflexivity|simpl in Hlen; lia].
  - rewrite map_map. cbn [seq map concat].
    rewrite <- seq_shift, map_map.
    change (py_slice l (0 * BATCH_SIZE) (0 * BATCH_SIZE + BATCH_SIZE))
      with (firstn BATCH_SIZE (skipn 0 l)).
    cbn [skipn].
    transitivity (firstn BATCH_SIZE l ++ skipn BATCH_SIZE l);
      [|apply firstn_skipn].
    f_equal.
    rewrite <- (IH (skipn BATCH_SIZE l)).
    + rewrite map_map. f_equal. apply map_ext. intros k.
      rewrite !py_slice_chunk. f_equal.
      rewrite skipn_skipn. f_equal. lia.
    + rewrite List.length_skipn. lia.
Qed.

Lemma batch_count (n : nat) :
  (n <= (n + BATCH_SIZE - 1) / BATCH_SIZE * BATCH_SIZE)%nat /\
  (forall k, k < (n + BATCH_SIZE - 1) / BATCH_SIZE -> k * BATCH_SIZE < n)%nat.
Proof.
  unfold BATCH_SIZE.
  pose proof (Nat.div_mod_eq (n + 100 - 1) 100) as Hdiv.
  pose proof (Nat.mod_upper_bound (n + 100 - 1) 100) as Hmod.
  split; [lia|]. intros k Hk. lia.
Qed.

(** X8. Batching loses and repeats nothing: the batches, in order, make
    up the list of coins; no batch is empty and none has more than
    [BATCH_SIZE] coins. *)
Theorem batches_partition (coin_ids : list Z) :
  concat (batches coin_ids) = coin_ids /\
  Forall (fun batch => (1 <= List.length batch <= BATCH_SIZE)%nat) (batches coin_ids).
Proof.
  unfold batches, py_range.
  destruct (batch_count (List.length coin_ids)) as [Hcover Hstart].
  split; [now apply chunks_concat|].
  apply List.Forall_forall. intros batch Hin.
  apply in_map_iff in Hin as (i & <- & Hi).
  apply in_map_iff in Hi as (k & <- & Hk).
  apply in_seq in Hk. rewrite py_slice_chunk.
  rewrite List.length_firstn, List.length_skipn.
  specialize (Hstart k). unfold BATCH_SIZE in *. lia.
Qed.

Section PriceSourceFacts.
Variable fetch : nat -> nat -> list Z -> option (list (Z * float)).

Lemma update_all_prices_lookup (all_prices : gmap Z float)
    (batch_prices : list (Z * float)) (k : Z) (p : float) :
  update_all_prices all_prices batch_prices !! k = Some p ->
  all_prices !! k = Some p \/ In (k, p) batch_prices.
Proof.
  unfold update_all_prices. revert all_prices.
  induction batch_prices as [|[k' p'] rest IH]; intros all_prices; simpl; [auto|].
  intros Hlook. destruct (IH _ Hlook) as [Hins|Hin]; [|auto].
  rewrite lookup_insert in Hins. destruct (decide (k' = k)) as [->|Hne].
  - injection Hins as ->. auto.
  - auto.
Qed.

Lemma fetch_batches_lookup (retry_count i : nat) (todo : list (list Z))
    (all_prices prices : gmap Z float) (k : Z) (p : float) :
  fetch_batches fetch retry_count i todo all_prices = Some prices ->
  prices !! k = Some p ->
  all_prices !! k = Some p
  \/ exists j batch batch_prices,
       In batch todo /\ fetch retry_count j batch = Some batch_prices /\
       In (k, p) batch_prices.
Proof.
  revert i all_prices. induction todo as [|batch rest IH]; intros i all_prices; simpl.
  - intros [= ->]. auto.
  - destruct (fetch retry_count i batch) as [batch_prices|] eqn:Hfetch; [|discriminate].
    intros Hrest Hlook.
    destruct (IH _ _ Hrest Hlook) as [Hacc|(j & b & bp & Hb & Hf & Hin)].
    + destruct (update_all_prices_lookup _ _ _ _ Hacc) as [Hold|Hin]; [auto|].
      right. exists i, batch, batch_prices. auto.
    + right. exists j, b, bp. auto.
Qed.

Lemma fetch_batches_fails (retry_count i j : nat) (todo : list (list Z))
    (batch : list Z) (all_prices : gmap Z float) :
  nth_error todo j = Some batch ->
  fetch retry_count (i + j) batch = None ->
  fetch_batches fetch retry_count i todo all_prices = None.
Proof.
  revert i j all_prices. induction todo as [|b rest IH]; intros i j all_prices.
  - destruct j; discriminate.
  - destruct j as [|j]; simpl.
    + intros [= ->]. rewrite Nat.add_0_r. now intros ->.
    + intros Hnth Hfail. destruct (fetch retry_count i b); [|reflexivity].
      apply (IH (S i) j); [assumption|].
      now replace (S i + j)%nat with (i + S j)%nat by lia.
Qed.

(** What comes out of the retry loop is the map of one complete
    attempt, or the empty map. *)
Lemma retry_loop_cases (fuel retry_count : nat) (coin_ids : list Z) :
  retry_loop fetch fuel retry_count coin_ids = ∅
  \/ exists attempt,
       (retry_count <= attempt < max_retries)%nat /\
       fetch_batches fetch attempt 1 (batches coin_ids) ∅ =
       Some (retry_loop fetch fuel retry_count coin_ids).
Proof.
  revert retry_count.
  induction fuel as [|fuel IH]; intros retry_count; cbn [retry_loop];
    [now left|].
  destruct (Nat.ltb_spec retry_count max_retries) as [Hlt|Hge]; [|now left].
  destruct (fetch_batches fetch retry_count 1 (batches coin_ids) ∅)
    as [prices|] eqn:Hall.
  - right. exists retry_count. split; [lia|assumption].
  - destruct (max_retries <=? S retry_count)%nat; [now left|].
    destruct (IH (S retry_count)) as [Hempty|(attempt & Hrange & Hok)];
      [now left|].
    right. exists attempt. split; [lia|assumption].
Qed.

Lemma retry_loop_all_fail (fuel retry_count : nat) (coin_ids : list Z) :
  (forall attempt, (attempt < max_retries)%nat ->
     fetch_batches fetch attempt 1 (batches coin_ids) ∅ = None) ->
  retry_loop fetch fuel retry_count coin_ids = ∅.
Proof.
  intros Hfail. revert retry_count.
  induction fuel as [|fuel IH]; intros retry_count; cbn [retry_loop];
    [reflexivity|].
  destruct (Nat.ltb_spec retry_count max_retries) as [Hlt|Hge]; [|reflexivity].
  rewrite (Hfail retry_count Hlt).
  destruct (max_retries <=? S retry_count)%nat; [reflexivity|apply IH].
Qed.
End PriceSourceFacts.

(** X9. [get_coin_price] invents no price: every entry of the map it
    returns was given by the API, within the three attempts, in the answer to
    one of the batches. *)
Theorem get_coin_price_provenance
    (fetch : nat -> nat -> list Z -> option (list (Z * float)))
    (coin_ids : list Z) (k : Z) (p : float) :
  get_coin_price fetch coin_ids !! k = Some p ->
  exists attempt i batch batch_prices,
    (attempt < max_retries)%nat /\
    In batch (batches coin_ids) /\
    fetch attempt i batch = Some batch_prices /\
    In (k, p) batch_prices.
Proof.
  unfold get_coin_price. intros Hlook.
  destruct (retry_loop_cases fetch max_retries 0 coin_ids)
    as [Hempty|(attempt & Hrange & Hok)].
  - rewrite Hempty in Hlook. rewrite lookup_empty in Hlook. discriminate.
  - destruct (fetch_batches_lookup fetch _ _ _ _ _ k p Hok Hlook)
      as [Habs|(j & batch & bp & Hb & Hf & Hin)].
    + rewrite lookup_empty in Habs. discriminate.
    + exists attempt, j, batch, bp. repeat split; [lia|assumption..].
Qed.

(** X9 at work: one coin, answered at the second attempt. *)
Lemma get_coin_price_provenance_witness :
  let fetch := fun (attempt i : nat) (batch : list Z) =>
                 if (attempt =? 1)%nat then Some [(5, 7%float)] else None in
  exists attempt i batch batch_prices,
    (attempt < max_retries)%nat /\
    In batch (batches [5]) /\
    fetch attempt i batch = Some batch_prices /\
    In (5, 7%float) batch_prices.
Proof.
  intros fetch.
  apply (get_coin_price_provenance fetch [5] 5 7%float).
  vm_compute. reflexivity.
Defined.

(** * Adding and removing coins *)

Section DictSetFacts.
Context {K V : Type} `{EqDecision K}.
Implicit Types (k : K) (d : list (K * V)).

Lemma dict_get_set k k' (v : V) d :
  dict_get k (dict_set k' v d) = if decide (k = k') then Some v else dict_get k d.
Proof.
  induction d as [|[k0 v0] d IH]; simpl.
  - destruct (decide (k = k')); reflexivity.
  - destruct (decide (k' = k0)) as [->|Hne]; simpl.
    + destruct (decide (k = k0)); reflexivity.
    + destruct (decide (k = k0)) as [->|Hne0].
      * now rewrite decide_False by congruence.
      * exact IH.
Qed.

Lemma dict_keys_set_fresh k (v : V) d :
  dict_get k d = None -> dict_keys (dict_set k v d) = dict_keys d ++ [k].
Proof.
  unfold dict_keys. induction d as [|[k0 v0] d IH]; simpl; [reflexivity|].
  destruct (decide (k = k0)) as [->|Hne]; [discriminate|].
  intros Hget. simpl. f_equal. now apply IH.
Qed.

Lemma dict_remove_missing k d : dict_get k d = None -> dict_remove k d = d.
Proof.
  unfold dict_remove. induction d as [|[k0 v0] d IH]; simpl; [reflexivity|].
  destruct (decide (k = k0)) as [->|Hne]; [discriminate|].
  intros Hget. rewrite bool_decide_false by congruence. simpl. f_equal.
  now apply IH.
Qed.
End DictSetFacts.

(** X11. [remove_coin] fails without a trace: when it returns [False]
    the files and [self.tokens] are what they were.  It returns [True]
    exactly when the watchlist file is not empty and holds a JSON object in
    which [str(coin_id)] is a key with a value that is not empty ([null],
    [{}], [0], an empty string or list are empty): an entry with an empty
    value cannot be removed. *)
Theorem remove_coin_outcome (rt : runtime) (coin_id : Z) (m : monitor) :
  (fst (remove_coin rt coin_id m) = false -> snd (remove_coin rt coin_id m) = m) /\
  (fst (remove_coin rt coin_id m) = true <->
   exists content fields coin_info,
     watchlist_json (disk m) = Some content /\
     content <> ""%string /\
     json_load rt content = Some (JObj fields) /\
     dict_get (str_of_int rt coin_id) fields = Some coin_info /\
     py_truthy coin_info = true).
Proof.
  unfold remove_coin.
  destruct (watchlist_json (disk m)) as [content|] eqn:Hfile; cbn [nonempty_file].
  2:{ split; [reflexivity|]. split; [discriminate|].
      intros (c & f & v & Hc & _). discriminate. }
  destruct content as [|a content].
  { split; [reflexivity|]. split; [discriminate|].
    intros (c & f & v & [= <-] & Hne & _). congruence. }
  destruct (json_load rt (String a content)) as [data|] eqn:Hload.
  2:{ split; [reflexivity|]. split; [discriminate|].
      intros (c & f & v & [= <-] & _ & Hl & _). congruence. }
  destruct data as [| | | | |fields];
    try (split; [reflexivity|]; split; [discriminate|];
         intros (c & f & v & [= <-] & _ & Hl & _); congruence).
  destruct (dict_get (str_of_int rt coin_id) fields) as [coin_info|] eqn:Hkey.
  2:{ split; [reflexivity|]. split; [discriminate|].
      intros (c & f & v & [= <-] & _ & Hl & Hk & _).
      rewrite Hload in Hl. injection Hl as <-. congruence. }
  destruct (py_truthy coin_info) eqn:Htruthy.
  - split; [discriminate|]. split; [|reflexivity].
    intros _. exists (String a content), fields, coin_info.
    repeat split; [discriminate|assumption..].
  - split; [reflexivity|]. split; [discriminate|].
    intros (c & f & v & [= <-] & _ & Hl & Hk & Ht).
    rewrite Hload in Hl. injection Hl as <-. congruence.
Qed.

(** X12. A successful [remove_coin] writes the stored object without the
    key of the coin and with every other entry as it was, in the same order,
    and takes the coin out of [self.tokens]; the token file is rewritten
    when the coin was a token, and untouched otherwise. *)
Theorem remove_coin_success (rt : runtime) (coin_id : Z) (m : monitor)
    (content : string) (fields : list (string * json)) (coin_info : json) :
  watchlist_json (disk m) = Some content ->
  content <> ""%string ->
  json_load rt content = Some (JObj fields) ->
  dict_get (str_of_int rt coin_id) fields = Some coin_info ->
  py_truthy coin_info = true ->
  let m' := snd (remove_coin rt coin_id m) in
  let kept := dict_remove (str_of_int rt coin_id) fields in
  fst (remove_coin rt coin_id m) = true /\
  watchlist_json (disk m') = Some (json_dump rt true (JObj kept)) /\
  dict_get (str_of_int rt coin_id) kept = None /\
  (forall k, k <> str_of_int rt coin_id -> dict_get k kept = dict_get k fields) /\
  kept = List.filter (fun kv => negb (String.eqb (fst kv) (str_of_int rt coin_id))) fields /\
  tokens m' = dict_remove coin_id (tokens m) /\
  dict_get coin_id (tokens m') = None /\
  (dict_get coin_id (tokens m) = None -> tokens_json (disk m') = tokens_json (disk m)).
Proof.
  intros Hfile Hne Hload Hkey Htruthy m' kept. subst m'.
  unfold remove_coin. rewrite Hfile.
  destruct content as [|a content]; [congruence|]. cbn [nonempty_file].
  rewrite Hload, Hkey, Htruthy. cbn [fst snd].
  split; [reflexivity|].
  assert (Hfilter : kept = List.filter
            (fun kv => negb (String.eqb (fst kv) (str_of_int rt coin_id))) fields).
  { subst kept. unfold dict_remove. apply filter_ext. intros [k v]. simpl.
    destruct (String.eqb_spec k (str_of_int rt coin_id)) as [->|Hk].
    - now rewrite bool_decide_true.
    - now rewrite bool_decide_false. }
  destruct (dict_get coin_id (tokens m)) as [token|] eqn:Htok; simpl.
  - split; [reflexivity|]. split; [apply dict_get_remove_eq|].
    split; [intros k Hk; now apply dict_get_remove_ne|].
    split; [exact Hfilter|]. split; [reflexivity|].
    split; [apply dict_get_remove_eq|discriminate].
  - split; [reflexivity|]. split; [apply dict_get_remove_eq|].
    split; [intros k Hk; now apply dict_get_remove_ne|].
    split; [exact Hfilter|]. rewrite (dict_remove_missing _ _ Htok).
    split; [reflexivity|]. split; [assumption|reflexivity].
Qed.

(** X12 at work: coin 1027, a token, beside an entry that is [null]. *)
Lemma remove_coin_success_witness :
  let doc := [("1"%string, JNull);
              ("1027"%string, JObj [("name"%string, JStr "Ethereum")])] in
  let rt := table_runtime [("stored"%string, JObj doc)] in
  let m :=
    {| disk := {| watchlist_json := Some "stored"%string; tokens_json := None |};
       tokens := [(1027, ("Ethereum", "ETH")%string)] |} in
  fst (remove_coin rt 1027 m) = true /\
  dict_get 1027 (tokens (snd (remove_coin rt 1027 m))) = None.
Proof.
  intros doc rt m.
  destruct (remove_coin_success rt 1027 m "stored" doc
              (JObj [("name"%string, JStr "Ethereum")]))
    as (Hok & _ & _ & _ & _ & _ & Htok & _).
  - reflexivity.
  - discriminate.
  - reflexivity.
  - vm_compute. reflexivity.
  - reflexivity.
  - exact (conj Hok Htok).
Defined.

(** X13. Without an answer of the API for the coin, [add_coin] leaves
    the files and [self.tokens] as they are, whether the coin is already
    watched or not. *)
Theorem add_coin_without_data (rt : runtime) (coin_id : Z)
    (current_time : datetime) (m : monitor) :
  snd (add_coin rt coin_id None current_time m) = m.
Proof.
  unfold add_coin, add_new_coin.
  destruct (nonempty_file (watchlist_json (disk m))) as [content|]; [|reflexivity].
  destruct (json_load rt content) as [data|]; [|reflexivity].
  destruct (py_contains (str_of_int rt coin_id) data) as [[|]|e]; reflexivity.
Qed.

(** X14. For a coin that is no key of the stored object and for which
    the API answers, [add_coin] returns [True]; it writes the object with one
    more entry, the new one, at the end: the other entries keep their values
    and their order; the coin is in [self.tokens] with the name and symbol of
    the API, and the other tokens are as they were. *)
Theorem add_coin_fresh (rt : runtime) (coin_id : Z) (coin : string * string)
    (current_time : datetime) (m : monitor) (fields : list (string * json)) :
  stored_object rt m fields ->
  dict_get (str_of_int rt coin_id) fields = None ->
  let m' := snd (add_coin rt coin_id (Some coin) current_time m) in
  let data := dict_set (str_of_int rt coin_id) (new_entry rt coin current_time) fields in
  fst (add_coin rt coin_id (Some coin) current_time m) = true /\
  watchlist_json (disk m') = Some (json_dump rt true (JObj data)) /\
  data = fields ++ [(str_of_int rt coin_id, new_entry rt coin current_time)] /\
  dict_get coin_id (tokens m') = Some coin /\
  (forall id, id <> coin_id -> dict_get id (tokens m') = dict_get id (tokens m)).
Proof.
  intros Hstored Hfresh m' data. subst m'.
  assert (Hdata : data = fields ++ [(str_of_int rt coin_id,
                                     new_entry rt coin current_time)]).
  { subst data. clear Hstored. induction fields as [|[k v] fields IH]; simpl;
      [reflexivity|].
    simpl in Hfresh. destruct (decide (str_of_int rt coin_id = k)); [discriminate|].
    f_equal. now apply IH. }
  assert (Hrun : add_coin rt coin_id (Some coin) current_time m =
                 add_new_coin rt coin_id (Some coin) current_time (JObj fields) m).
  { unfold add_coin. destruct Hstored as [[-> ->]|(content & -> & ->)];
      [reflexivity|].
    unfold py_contains. now rewrite Hfresh. }
  rewrite Hrun. unfold add_new_coin, save_tokens. cbn [fst snd disk tokens watchlist_json].
  split; [reflexivity|]. split; [reflexivity|]. split; [exact Hdata|].
  split.
  - rewrite dict_get_set. now rewrite decide_True.
  - intros id Hid. rewrite dict_get_set. now rewrite decide_False.
Qed.

(** X14 at work: a first coin, with no watchlist file yet. *)
Lemma add_coin_fresh_witness :
  let m := {| disk := {| watchlist_json := None; tokens_json := None |};
              tokens := [] |} in
  let m' := snd (add_coin example_runtime 1 (Some ("Bitcoin", "BTC")%string) 0 m) in
  fst (add_coin example_runtime 1 (Some ("Bitcoin", "BTC")%string) 0 m) = true /\
  dict_get 1 (tokens m') = Some ("Bitcoin", "BTC")%string.
Proof.
  intros m m'.
  destruct (add_coin_fresh example_runtime 1 ("Bitcoin", "BTC")%string 0 m [])
    as (Hok & _ & _ & Htok & _).
  - left. split; reflexivity.
  - reflexivity.
  - exact (conj Hok Htok).
Defined.

(** * Reading the stored watchlist *)

(** Lookups of literal keys in literal objects. *)
Ltac decide_keys :=
  repeat first [ rewrite decide_True by reflexivity
               | rewrite decide_False by discriminate ].

Section LoadFacts.
Variable rt : runtime.

Lemma getitem_reordered (j j' : json) (k : string) (v : json) :
  reordered j j' ->
  getitem j k = Ok v ->
  exists v', getitem j' k = Ok v' /\ reordered v v'.
Proof.
  intros Hre Hget. inversion Hre as [j0|fields fields' Hkeys Hvals]; subst.
  - exists v. split; [assumption|constructor].
  - simpl in Hget |- *.
    destruct (dict_get k fields) as [v0|] eqn:Hk; [|discriminate].
    injection Hget as ->.
    destruct (dict_get k fields') as [v'|] eqn:Hk'.
    + exists v'. split; [reflexivity|]. now apply (Hvals k).
    + exfalso. apply dict_get_None in Hk'. apply Hk', Hkeys.
      apply dict_get_In in Hk. now apply (in_map fst) in Hk.
Qed.

Lemma reordered_string (s : string) (j : json) : reordered (JStr s) j -> j = JStr s.
Proof. intros Hre. now inversion Hre. Qed.

Lemma reordered_null (j : json) : reordered JNull j -> j = JNull.
Proof. intros Hre. now inversion Hre. Qed.

Lemma reordered_number (x : float) (j : json) : reordered (JNum x) j -> j = JNum x.
Proof. intros Hre. now inversion Hre. Qed.

Lemma load_channel_reordered (c c' : json) (ch : stored_channel) :
  reordered c c' ->
  load_channel rt c = Some ch ->
  exists ch',
    load_channel rt c' = Some ch' /\
    stored_last_notification_time ch' = stored_last_notification_time ch /\
    reordered (stored_last_price ch) (stored_last_price ch').
Proof.
  intros Hre. unfold load_channel.
  destruct (getitem c "last_notification_time") as [t|] eqn:Ht; [|discriminate].
  destruct t as [| | |t| |]; try discriminate.
  destruct (getitem c "last_price") as [p|] eqn:Hp; [|discriminate].
  destruct (getitem_reordered _ _ _ _ Hre Ht) as (t' & -> & Hret).
  destruct (getitem_reordered _ _ _ _ Hre Hp) as (p' & -> & Hrep).
  rewrite (reordered_string _ _ Hret).
  destruct (fromisoformat rt t) as [time|]; [|discriminate].
  intros [= <-]. eexists. split; [reflexivity|]. split; [reflexivity|exact Hrep].
Qed.

Lemma load_info_reordered_object (info info' : json) (record : stored_info) :
  reordered info info' ->
  load_info rt info = Some record ->
  exists record',
    load_info rt info' = Some record' /\
    stored_last_notification_time (stored_short_term record')
    = stored_last_notification_time (stored_short_term record) /\
    stored_last_notification_time (stored_long_term record')
    = stored_last_notification_time (stored_long_term record) /\
    reordered (stored_last_price (stored_short_term record))
      (stored_last_price (stored_short_term record')) /\
    reordered (stored_last_price (stored_long_term record))
      (stored_last_price (stored_long_term record')) /\
    reordered (stored_name record) (stored_name record') /\
    reordered (stored_symbol record) (stored_symbol record').
Proof.
  intros Hre. unfold load_info.
  assert (Hobj : forall fields, info = JObj fields ->
             exists fields', info' = JObj fields').
  { intros fields ->. inversion Hre; subst; eauto. }
  destruct info as [| | | | |fields]; try discriminate.
  destruct (Hobj fields eq_refl) as [fields' ->]. clear Hobj.
  destruct (getitem (JObj fields) "short_term") as [st|] eqn:Hst; [|discriminate].
  destruct (getitem (JObj fields) "long_term") as [lt|] eqn:Hlt; [|discriminate].
  destruct (getitem (JObj fields) "name") as [n|] eqn:Hn; [|discriminate].
  destruct (getitem (JObj fields) "symbol") as [sy|] eqn:Hsy; [|discriminate].
  destruct (getitem_reordered _ _ _ _ Hre Hst) as (st' & -> & Hrest).
  destruct (getitem_reordered _ _ _ _ Hre Hlt) as (lt' & -> & Hrelt).
  destruct (getitem_reordered _ _ _ _ Hre Hn) as (n' & -> & Hren).
  destruct (getitem_reordered _ _ _ _ Hre Hsy) as (sy' & -> & Hresy).
  destruct (load_channel rt st) as [s|] eqn:Hs; [|discriminate].
  destruct (load_channel rt lt) as [l|] eqn:Hl; [|discriminate].
  destruct (load_channel_reordered _ _ _ Hrest Hs) as (s' & -> & Hts & Hps).
  destruct (load_channel_reordered _ _ _ Hrelt Hl) as (l' & -> & Htl & Hpl).
  intros [= <-]. eexists. split; [reflexivity|].
  cbn [stored_short_term stored_long_term stored_name stored_symbol].
  repeat split; assumption.
Qed.

(** A value of a typed record has no fields to reorder. *)
Lemma reordered_typed_channel (c c' : stored_channel) (ch : channel) :
  typed_channel c = Some ch ->
  stored_last_notification_time c' = stored_last_notification_time c ->
  reordered (stored_last_price c) (stored_last_price c') ->
  c' = c.
Proof.
  destruct c as [p t], c' as [p' t']. unfold typed_channel.
  cbn [stored_last_price stored_last_notification_time].
  intros Hty -> Hre. f_equal.
  destruct p; try discriminate.
  - now apply reordered_null.
  - now apply reordered_number.
Qed.

Lemma load_info_reordered_typed (info info' : json) (record : stored_info)
    (typed : coin_info) :
  reordered info info' ->
  load_info rt info = Some record ->
  typed_info record = Some typed ->
  load_info rt info' = Some record.
Proof.
  intros Hre Hload Hty.
  destruct (load_info_reordered_object _ _ _ Hre Hload)
    as (record' & -> & Hts & Htl & Hps & Hpl & Hn & Hsy).
  f_equal. destruct record as [s l n sy], record' as [s' l' n' sy'].
  unfold typed_info in Hty.
  cbn [stored_short_term stored_long_term stored_name stored_symbol] in *.
  destruct (typed_channel s) as [cs|] eqn:Hs; [|discriminate].
  destruct (typed_channel l) as [cl|] eqn:Hl; [|discriminate].
  destruct n; try discriminate. destruct sy; try discriminate.
  rewrite (reordered_typed_channel _ _ _ Hs Hts Hps).
  rewrite (reordered_typed_channel _ _ _ Hl Htl Hpl).
  now rewrite (reordered_string _ _ Hn), (reordered_string _ _ Hsy).
Qed.

Lemma load_channel_dump_channel (c : stored_channel) :
  fromisoformat rt (isoformat rt (stored_last_notification_time c))
  = Some (stored_last_notification_time c) ->
  load_channel rt (dump_channel rt c) = Some c.
Proof.
  intros Hiso. unfold load_channel, dump_channel. cbn [getitem dict_get].
  decide_keys. rewrite Hiso. now destruct c.
Qed.

Lemma load_info_dump_info_eq (info : stored_info) :
  fromisoformat rt
    (isoformat rt (stored_last_notification_time (stored_short_term info)))
  = Some (stored_last_notification_time (stored_short_term info)) ->
  fromisoformat rt
    (isoformat rt (stored_last_notification_time (stored_long_term info)))
  = Some (stored_last_notification_time (stored_long_term info)) ->
  load_info rt (dump_info rt info) = Some info.
Proof.
  intros Hs Hl. unfold load_info, dump_info. cbn [getitem dict_get].
  decide_keys.
  rewrite (load_channel_dump_channel _ Hs), (load_channel_dump_channel _ Hl).
  now destruct info.
Qed.


Lemma In_dict_set {K V : Type} `{EqDecision K} (k k' : K) (v v' : V)
    (d : list (K * V)) :
  In (k, v) (dict_set k' v' d) -> (k, v) = (k', v') \/ In (k, v) d.
Proof.
  induction d as [|[k0 v0] d IH]; simpl.
  - intros [Heq|[]]. left. congruence.
  - destruct (decide (k' = k0)) as [->|Hne]; simpl.
    + intros [Heq|Hin]; [left; congruence|auto].
    + intros [Heq|Hin]; [auto|]. destruct (IH Hin); auto.
Qed.

Lemma load_fold_sound (data : list (string * json)) (acc : list (Z * stored_info))
    (id : Z) (info : stored_info) :
  In (id, info) (fold_left (load_item rt) data acc) ->
  In (id, info) acc
  \/ exists k raw,
       In (k, raw) data /\ int_of_str rt k = Some id /\ load_info rt raw = Some info.
Proof.
  revert acc. induction data as [|[k raw] data IH]; intros acc; simpl; [auto|].
  intros Hin. destruct (IH _ Hin) as [Hacc|(k' & raw' & Hk & Hid & Hinfo)].
  - unfold load_item in Hacc. simpl in Hacc.
    destruct (int_of_str rt k) as [id0|] eqn:Hint; [|auto].
    destruct (load_info rt raw) as [info0|] eqn:Hload; [|auto].
    destruct (In_dict_set _ _ _ _ _ Hacc) as [Heq|Hold]; [|auto].
    injection Heq as -> ->. right. exists k, raw. auto.
  - right. exists k', raw'. auto.
Qed.

(** An entry that is read stays in the watchlist until a later entry for
    the same coin is read. *)
Lemma load_fold_last (after : list (string * json)) (acc : list (Z * stored_info))
    (id : Z) (w : stored_info) :
  (forall k raw, In (k, raw) after ->
     int_of_str rt k = Some id -> load_info rt raw = None) ->
  dict_get id acc = Some w ->
  dict_get id (fold_left (load_item rt) after acc) = Some w.
Proof.
  revert acc. induction after as [|[k raw] after IH]; intros acc Hlater Hacc;
    simpl; [exact Hacc|].
  apply IH; [intros k' raw' Hin; apply Hlater; now right|].
  unfold load_item. cbn [fst snd].
  destruct (int_of_str rt k) as [id0|] eqn:Hint; [|exact Hacc].
  destruct (load_info rt raw) as [w0|] eqn:Hload; [|exact Hacc].
  rewrite dict_get_set. destruct (decide (id = id0)) as [->|Hne]; [|exact Hacc].
  rewrite (Hlater k raw (or_introl eq_refl) Hint) in Hload. discriminate.
Qed.
End LoadFacts.

(** X15. The entry [save_watchlist] writes for a record of the
    watchlist is read back by [load_watchlist] as the record it was written
    from, whatever its prices, name and symbol are, provided [fromisoformat]
    reads back what [isoformat] wrote for its two times. *)
Theorem load_info_dump_info (rt : runtime) (info : stored_info) :
  fromisoformat rt
    (isoformat rt (stored_last_notification_time (stored_short_term info)))
  = Some (stored_last_notification_time (stored_short_term info)) ->
  fromisoformat rt
    (isoformat rt (stored_last_notification_time (stored_long_term info)))
  = Some (stored_last_notification_time (stored_long_term info)) ->
  load_info rt (dump_info rt info) = Some info.
Proof. apply load_info_dump_info_eq. Qed.

(** X15 at work, with the runtime of the examples. *)
Lemma load_info_dump_info_witness :
  load_info example_runtime
    (dump_info example_runtime (stored_of_info slow_mover_info))
  = Some (stored_of_info slow_mover_info).
Proof.
  apply (load_info_dump_info example_runtime (stored_of_info slow_mover_info));
    reflexivity.
Defined.

(** X16. What [load_watchlist] reads from an entry does not depend on
    the order of its fields, nor on the order of the fields of its two
    channels: an entry that is read, is read after the keys have been sorted,
    with the same times and with prices, name and symbol that are the same up
    to the order of the fields of the objects among them; a typed record (its
    prices are [null] or numbers, its name and symbol strings) is read as the
    same record. *)
Theorem load_info_reordered (rt : runtime) (info info' : json)
    (record : stored_info) :
  reordered info info' ->
  load_info rt info = Some record ->
  exists record',
    load_info rt info' = Some record' /\
    stored_last_notification_time (stored_short_term record')
    = stored_last_notification_time (stored_short_term record) /\
    stored_last_notification_time (stored_long_term record')
    = stored_last_notification_time (stored_long_term record) /\
    reordered (stored_last_price (stored_short_term record))
      (stored_last_price (stored_short_term record')) /\
    reordered (stored_last_price (stored_long_term record))
      (stored_last_price (stored_long_term record')) /\
    reordered (stored_name record) (stored_name record') /\
    reordered (stored_symbol record) (stored_symbol record') /\
    (forall typed, typed_info record = Some typed -> record' = record).
Proof.
  intros Hre Hload.
  destruct (load_info_reordered_object rt _ _ _ Hre Hload)
    as (record' & Hload' & Hrest).
  exists record'. split; [exact Hload'|].
  repeat (split; [apply Hrest|]).
  intros typed Hty.
  pose proof (load_info_reordered_typed rt _ _ _ _ Hre Hload Hty) as Hsame.
  congruence.
Qed.

(** X17. The entry [add_coin] writes for a new coin is read by
    [load_watchlist] as a coin with the name and symbol of the API, both
    baselines unset and the time of the addition on both channels, provided
    [fromisoformat] reads back what [isoformat] wrote for that time. *)
Theorem new_entry_loads_blank (rt : runtime) (coin : string * string)
    (current_time : datetime) :
  fromisoformat rt (isoformat rt current_time) = Some current_time ->
  exists w,
    load_info rt (new_entry rt coin current_time) = Some w /\
    w = {| stored_short_term :=
             {| stored_last_price := JNull;
                stored_last_notification_time := current_time |};
           stored_long_term :=
             {| stored_last_price := JNull;
                stored_last_notification_time := current_time |};
           stored_name := JStr (fst coin);
           stored_symbol := JStr (snd coin) |} /\
    typed_info w =
    Some {| short_term := {| last_price := None;
                             last_notification_time := current_time |};
            long_term := {| last_price := None;
                            last_notification_time := current_time |};
            name := fst coin;
            symbol := snd coin |}.
Proof.
  intros Hiso. eexists. split; [|split; [reflexivity|reflexivity]].
  unfold load_info, new_entry, load_channel. cbn [getitem dict_get].
  decide_keys. cbn [getitem dict_get]. decide_keys. now rewrite Hiso.
Qed.

(** X17 at work. *)
Lemma new_entry_loads_blank_witness :
  exists w,
    load_info example_runtime
      (new_entry example_runtime ("Bitcoin", "BTC")%string 42) = Some w /\
    w = {| stored_short_term :=
             {| stored_last_price := JNull; stored_last_notification_time := 42 |};
           stored_long_term :=
             {| stored_last_price := JNull; stored_last_notification_time := 42 |};
           stored_name := JStr "Bitcoin";
           stored_symbol := JStr "BTC" |} /\
    typed_info w =
    Some {| short_term := {| last_price := None; last_notification_time := 42 |};
            long_term := {| last_price := None; last_notification_time := 42 |};
            name := "Bitcoin";
            symbol := "BTC" |}.
Proof.
  apply (new_entry_loads_blank example_runtime ("Bitcoin", "BTC")%string 42).
  reflexivity.
Defined.



(** X19. Every coin of the loaded watchlist comes from an entry of the
    stored object: its identifier is [int] of the key, and its record is what
    the entry decodes to.  And every entry that decodes is loaded: the
    watchlist holds, for its coin, the record of the last entry of that coin
    that decodes. *)
Theorem load_watchlist_sound (rt : runtime) (fs : files) :
  (forall id info,
     In (id, info) (load_watchlist rt fs) ->
     exists content data k raw,
       nonempty_file (watchlist_json fs) = Some content /\
       json_load rt content = Some (JObj data) /\
       In (k, raw) data /\
       int_of_str rt k = Some id /\
       load_info rt raw = Some info) /\
  (forall content before after k raw id w,
     nonempty_file (watchlist_json fs) = Some content ->
     json_load rt content = Some (JObj (before ++ (k, raw) :: after)) ->
     int_of_str rt k = Some id ->
     load_info rt raw = Some w ->
     (forall k' raw', In (k', raw') after ->
        int_of_str rt k' = Some id -> load_info rt raw' = None) ->
     dict_get id (load_watchlist rt fs) = Some w).
Proof.
  split.
  - intros id info. unfold load_watchlist.
    destruct (nonempty_file (watchlist_json fs)) as [content|] eqn:Hfile;
      [|intros []].
    destruct (json_load rt content) as [[| | | | |data]|] eqn:Hload;
      try (intros []).
    intros Hin. destruct (load_fold_sound rt data [] id info Hin)
      as [[]|(k & raw & Hk & Hid & Hinfo)].
    exists content, data, k, raw. repeat split; first [reflexivity|assumption].
  - intros content before after k raw id w Hfile Hload Hint Hinfo Hlater.
    unfold load_watchlist. rewrite Hfile, Hload, fold_left_app. cbn [fold_left].
    apply load_fold_last; [exact Hlater|].
    unfold load_item. cbn [fst snd]. rewrite Hint, Hinfo, dict_get_set.
    now rewrite decide_True.
Qed.

(** X19 at work: a record whose short-term price is a string and whose
    name is a number is loaded as it is. *)
Lemma load_watchlist_sound_witness :
  let w :=
    {| stored_short_term :=
         {| stored_last_price := JStr "abc"; stored_last_notification_time := 0 |};
       stored_long_term :=
         {| stored_last_price := JNum 100; stored_last_notification_time := 0 |};
       stored_name := JNum 12;
       stored_symbol := JNull |} in
  let rt := table_runtime
              [("doc"%string, JObj [("7"%string, dump_info example_runtime w)])] in
  let fs := {| watchlist_json := Some "doc"%string; tokens_json := None |} in
  exists content data k raw,
    nonempty_file (watchlist_json fs) = Some content /\
    json_load rt content = Some (JObj data) /\
    In (k, raw) data /\
    int_of_str rt k = Some 7 /\
    load_info rt raw = Some w.
Proof.
  intros w rt fs.
  apply (proj1 (load_watchlist_sound rt fs) 7 w).
  vm_compute. left. reflexivity.
Defined.

(** X20. [get_monitored_coins] lists the coins of the loaded watchlist,
    in its order, each with the name and the symbol of its record, and no
    coin twice; [get_coin_info] gives for every listed coin the name and
    symbol that are listed, whatever [self.tokens] holds for it. *)
Theorem listed_coins_agree (rt : runtime) (m : monitor) :
  map summary_id (get_monitored_coins rt (disk m))
  = dict_keys (load_watchlist rt (disk m)) /\
  List.NoDup (map summary_id (get_monitored_coins rt (disk m))) /\
  (forall id w, In (id, w) (load_watchlist rt (disk m)) ->
     In {| summary_id := id;
           summary_name := stored_name w;
           summary_symbol := stored_symbol w |}
        (get_monitored_coins rt (disk m))) /\
  (forall c, In c (get_monitored_coins rt (disk m)) ->
     get_coin_info rt (summary_id c) m = Some c).
Proof.
  unfold get_monitored_coins, get_coin_info.
  pose proof (load_watchlist_NoDup rt (disk m)) as Hnd.
  split; [|split; [|split]].
  - rewrite map_map. reflexivity.
  - rewrite map_map. exact Hnd.
  - intros id w Hin. apply in_map_iff. now exists (id, w).
  - intros c Hc. apply in_map_iff in Hc as ([id info] & <- & Hin). simpl.
    now rewrite (In_dict_get _ _ _ Hnd Hin).
Qed.

(** X16 at work: the record of a coin, with its keys sorted. *)
Lemma load_info_reordered_witness :
  let w := stored_of_info slow_mover_info in
  let st := dump_channel example_runtime (stored_short_term w) in
  let lt := dump_channel example_runtime (stored_long_term w) in
  exists record',
    load_info example_runtime
      (JObj [("long_term"%string, lt); ("name"%string, JStr "Slow Mover");
             ("short_term"%string, st); ("symbol"%string, JStr "SLOW")])
    = Some record' /\
    record' = w.
Proof.
  intros w st lt.
  destruct (load_info_reordered example_runtime
              (dump_info example_runtime w)
              (JObj [("long_term"%string, lt); ("name"%string, JStr "Slow Mover");
                     ("short_term"%string, st); ("symbol"%string, JStr "SLOW")])
              w)
    as (record' & Hload & _ & _ & _ & _ & _ & _ & Hsame).
  3: { exists record'. split; [exact Hload|].
       apply (Hsame slow_mover_info). reflexivity. }
  - apply reordered_object.
    + intros k. simpl. tauto.
    + intros k v v' Hv Hv'. simpl in Hv, Hv'.
      repeat match type of Hv with
             | context [decide (?a = ?b)] => destruct (decide (a = b)); try subst k
             end;
        try discriminate;
        repeat match type of Hv' with
               | context [decide (?a = ?b)] => destruct (decide (a = b))
               end;
        try discriminate;
        injection Hv as <-; injection Hv' as <-; constructor.
  - reflexivity.
Defined.

(** * A tick without prices *)

(** X21. When each of the three attempts of [get_coin_price] fails at
    one of its batches, the method returns an empty map, and
    [check_price_movements] returns no notification and leaves the files as
    they are: the tick can be tried again. *)
Theorem failed_fetch_tick_inert (rt : runtime)
    (fetch : nat -> nat -> list Z -> option (list (Z * float)))
    (current_time : datetime) (fs : files) :
  (forall attempt, (attempt < max_retries)%nat ->
     exists j batch,
       nth_error (batches (dict_keys (load_watchlist rt fs))) j = Some batch /\
       fetch attempt (S j) batch = None) ->
  get_coin_price fetch (dict_keys (load_watchlist rt fs)) = ∅ /\
  check_price_movements rt (get_coin_price fetch) current_time fs = Returned [] fs.
Proof.
  intros Hfail.
  assert (Hempty : get_coin_price fetch (dict_keys (load_watchlist rt fs)) = ∅).
  { apply retry_loop_all_fail. intros attempt Hlt.
    destruct (Hfail attempt Hlt) as (j & batch & Hnth & Hnone).
    now apply (fetch_batches_fails fetch attempt 1 j _ batch). }
  split; [exact Hempty|].
  unfold check_price_movements.
  destruct (load_watchlist rt fs) as [|kv loaded] eqn:Hload; [reflexivity|].
  rewrite Hempty.
  destruct (records_read_unpriced ∅ (kv :: loaded)) as (wl & -> & _).
  { intros id _. apply lookup_empty. }
  cbv zeta. rewrite evaluate_unpriced; [reflexivity|].
  intros id _. apply lookup_empty.
Qed.

(** X21 at work: one watched coin, an API that does not answer. *)
Lemma failed_fetch_tick_inert_witness :
  let rt := table_runtime
              [("doc"%string,
                JObj [("7"%string,
                       dump_info example_runtime (stored_of_info slow_mover_info))])] in
  let fs := {| watchlist_json := Some "doc"%string; tokens_json := None |} in
  let fetch := fun (_ _ : nat) (_ : list Z) => @None (list (Z * float)) in
  get_coin_price fetch (dict_keys (load_watchlist rt fs)) = ∅ /\
  check_price_movements rt (get_coin_price fetch) 0 fs = Returned [] fs.
Proof.
  intros rt fs fetch.
  apply (failed_fetch_tick_inert rt fetch 0 fs).
  intros attempt _. exists 0%nat, [7]. split; [vm_compute|]; reflexivity.
Defined.

(** * The tick on a watchlist file of typed records *)

(** X23. On a watchlist file whose records are all typed (their prices
    are [null] or numbers, their names and symbols strings) and that holds a
    coin at least, [check_price_movements] asks the price source for the
    coins of the file, in the order of the file; it returns the notifications
    of the loop over these records with the prices it was given, and it
    writes the watchlist file when, and only when, that loop has marked the
    watchlist as changed: then with the records as the loop left them.  The
    properties of [evaluate] are properties of the method. *)
Theorem check_price_movements_evaluate (rt : runtime)
    (get_coin_price : list Z -> gmap Z float)
    (current_time : datetime) (fs : files) (wl : list (Z * coin_info)) :
  load_watchlist rt fs = stored_watchlist wl ->
  wl <> [] ->
  check_price_movements rt get_coin_price current_time fs =
  let s := evaluate (get_coin_price (dict_keys wl)) current_time wl in
  Returned (notifications s)
    (if watchlist_updated s
     then save_watchlist rt (stored_watchlist (watchlist s)) fs
     else fs).
Proof.
  intros Hload Hne. unfold check_price_movements.
  pose proof (load_watchlist_NoDup rt fs) as Hnd. rewrite Hload in Hnd |- *.
  assert (Hkeys : dict_keys (stored_watchlist wl) = dict_keys wl).
  { unfold stored_watchlist, dict_keys. rewrite map_map. reflexivity. }
  rewrite Hkeys in Hnd.
  destruct (stored_watchlist wl) as [|kv rest] eqn:Hst.
  { destruct wl; [congruence|discriminate]. }
  rewrite Hkeys, <- Hst, records_read_typed. cbv zeta.
  rewrite records_written_typed; [reflexivity|assumption|].
  rewrite (evaluate_watchlist _ _ wl Hnd), reset_fold_keys. apply scanned_keys.
Qed.

(** X23 at work: the coin of Scenario A in the watchlist file, at a tick
    at minute 1.  The method returns the short-term notification and saves
    the record with its short-term baseline at 102. *)
Lemma check_price_movements_evaluate_witness :
  let now := 1 * microseconds_per_minute in
  let rt := table_runtime
              [("doc"%string,
                JObj [("1"%string,
                       dump_info example_runtime
                         (stored_of_info (scenario_A_info now)))])] in
  let fs := {| watchlist_json := Some "doc"%string; tokens_json := None |} in
  let s := evaluate scenario_A_prices now [(1, scenario_A_info now)] in
  check_price_movements rt (fun _ => scenario_A_prices) now fs
  = Returned (notifications s)
      (if watchlist_updated s
       then save_watchlist rt (stored_watchlist (watchlist s)) fs
       else fs).
Proof.
  intros now rt fs s.
  apply (check_price_movements_evaluate rt (fun _ => scenario_A_prices) now fs
           [(1, scenario_A_info now)]).
  - vm_compute. reflexivity.
  - discriminate.
Defined.

(** * The rule without window, at every tick *)

(** X10. A coin that is at least 15% away from its long-term baseline
    more than 1440 minutes after its last long-term notification gets no
    long-term notification, and its long-term channel is after the tick what
    it was before: the rule (15.0, inf) does not fire. *)
Theorem stale_long_term_never_fires (current_prices : gmap Z float)
    (current_time : datetime) (wl : list (Z * coin_info)) (id : Z)
    (info : coin_info) (price short_term_price long_term_price change : float) :
  List.NoDup (dict_keys wl) ->
  dict_get id wl = Some info ->
  current_prices !! id = Some price ->
  last_price (short_term info) = Some short_term_price ->
  last_price (long_term info) = Some long_term_price ->
  change_percent price long_term_price = Ok change ->
  py_ge (PrimFloat.abs change) 15.0 = true ->
  1440 * microseconds_per_minute < long_elapsed current_time info ->
  (forall n, In n (notifications (evaluate current_prices current_time wl)) ->
     coin_id n = id -> is_long_term n = false) /\
  exists info',
    dict_get id (watchlist (evaluate current_prices current_time wl)) = Some info' /\
    long_term info' = long_term info.
Proof.
  intros Hnd Hget Hp Hs Hl Hchange Hmag Hstale.
  assert (Hraise : scan_outcome change (long_elapsed current_time info)
                     LONG_TERM_THRESHOLDS = Raise OverflowError).
  { apply long_term_scan_overflow; [assumption|].
    intros rule Hrule. unfold spec_rule_matches.
    assert (Hwin : within_window (long_elapsed current_time info) (minutes rule)
                   = false).
    { unfold microseconds_per_minute in Hstale.
      simpl in Hrule.
      destruct Hrule as [<-|[<-|[<-|[<-|[]]]]]; simpl;
        unfold microseconds_per_minute; apply Z.leb_gt; lia. }
    rewrite Hwin. apply andb_false_r. }
  assert (Heff : entry_after (effect_of_coin current_prices current_time id info) = info
                 /\ forall n, In n (emitted (effect_of_coin current_prices
                                              current_time id info)) ->
                              is_long_term n = false).
  { unfold effect_of_coin. rewrite Hp, Hs, Hl, Hchange.
    destruct (change_percent price short_term_price) as [sc|e];
      [|split; [reflexivity|intros n []]].
    unfold checked_effect. rewrite Hraise. cbn [stops entry_after emitted].
    split; [reflexivity|].
    destruct (stops (scan_outcome sc (short_elapsed current_time info)
                       SHORT_TERM_THRESHOLDS));
      simpl; intros n Hn; repeat destruct Hn as [<-|Hn]; try destruct Hn;
      reflexivity. }
  destruct Heff as [Hentry Hquiet]. split.
  - intros n Hn Hid.
    destruct (notification_origin _ _ wl n Hnd Hn) as (info0 & Hget0 & _ & Hsrc).
    rewrite Hid, Hget in Hget0. injection Hget0 as <-. rewrite Hid in Hsrc.
    destruct Hsrc as [[Hem _]|[_ Hty]]; [now apply Hquiet|].
    unfold is_long_term. now rewrite Hty.
  - pose proof (dict_get_scanned current_prices current_time id wl) as Hsc.
    rewrite Hget in Hsc. cbn [option_map] in Hsc. rewrite Hentry in Hsc.
    destruct (reset_fold_long_term current_time id _
                (notifications (evaluate current_prices current_time wl)) _ Hsc)
      as (info' & Hg & Hlong & _).
    exists info'. rewrite (evaluate_watchlist _ _ wl Hnd). auto.
Qed.

(** X10 at work: 20% after 25 hours. *)
Lemma stale_long_term_never_fires_witness :
  (forall n,
     In n (notifications (evaluate slow_mover_prices slow_mover_time
                            [(1, slow_mover_info)])) ->
     coin_id n = 1 -> is_long_term n = false) /\
  exists info',
    dict_get 1 (watchlist (evaluate slow_mover_prices slow_mover_time
                             [(1, slow_mover_info)])) = Some info' /\
    long_term info' = long_term slow_mover_info.
Proof.
  apply (stale_long_term_never_fires slow_mover_prices slow_mover_time
           [(1, slow_mover_info)] 1 slow_mover_info 120 100 100 20).
  - repeat constructor. simpl. tauto.
  - reflexivity.
  - vm_compute. reflexivity.
  - reflexivity.
  - reflexivity.
  - vm_compute. reflexivity.
  - vm_compute. reflexivity.
  - vm_compute. reflexivity.
Defined.

(** * Saving and loading *)

Section RoundTripFacts.
Variable rt : runtime.

Local Abbreviation dump_item :=
  (fun (data : list (string * json)) (item : Z * stored_info) =>
     dict_set (str_of_int rt (fst item)) (dump_info rt (snd item)) data).

Lemma dump_fold_other (wl : list (Z * stored_info)) (acc : list (string * json))
    (k : string) :
  (forall id, In id (dict_keys wl) -> str_of_int rt id <> k) ->
  dict_get k (fold_left dump_item wl acc) = dict_get k acc.
Proof.
  revert acc. induction wl as [|[id info] wl IH]; intros acc Hother; simpl;
    [reflexivity|].
  rewrite IH by (intros id' Hid'; apply Hother; now right).
  rewrite dict_get_set. rewrite decide_False; [reflexivity|].
  intros ->. apply (Hother id); [now left|reflexivity].
Qed.

Lemma dump_fold_lookup (wl : list (Z * stored_info)) (acc : list (string * json))
    (id : Z) (info : stored_info) :
  List.NoDup (dict_keys wl) ->
  (forall id', In id' (dict_keys wl) -> int_of_str rt (str_of_int rt id') = Some id') ->
  In (id, info) wl ->
  dict_get (str_of_int rt id) (fold_left dump_item wl acc) = Some (dump_info rt info).
Proof.
  revert acc. induction wl as [|[id0 info0] wl IH]; intros acc Hnd Hback Hin;
    [destruct Hin|].
  simpl in Hnd. apply NoDup_cons_iff in Hnd as [Hfresh Hnd].
  simpl. destruct Hin as [[= -> ->]|Hin].
  - rewrite dump_fold_other.
    + rewrite dict_get_set. now rewrite decide_True.
    + intros id' Hid' Heq.
      assert (Hsame : Some id' = Some id).
      { rewrite <- (Hback id') by now right.
        rewrite <- (Hback id) by now left. now rewrite Heq. }
      injection Hsame as ->. now apply Hfresh.
  - apply IH; [assumption| |assumption].
    intros id' Hid'. apply Hback. now right.
Qed.

Lemma dump_fold_sound (wl : list (Z * stored_info)) (acc : list (string * json))
    (k : string) (v : json) :
  In (k, v) (fold_left dump_item wl acc) ->
  In (k, v) acc
  \/ exists id info, In (id, info) wl /\ k = str_of_int rt id /\ v = dump_info rt info.
Proof.
  revert acc. induction wl as [|[id info] wl IH]; intros acc; simpl; [auto|].
  intros Hin. destruct (IH _ Hin) as [Hacc|(id' & info' & Hin' & Hk & Hv)].
  - destruct (In_dict_set _ _ _ _ _ Hacc) as [[= -> ->]|Hold]; [|auto].
    right. exists id, info. auto.
  - right. exists id', info'. auto.
Qed.

Lemma reordered_object_inv (fields : list (string * json)) (j' : json) :
  reordered (JObj fields) j' ->
  exists fields',
    j' = JObj fields' /\
    (forall k, In k (dict_keys fields) <-> In k (dict_keys fields')) /\
    (forall k v v',
       dict_get k fields = Some v -> dict_get k fields' = Some v' ->
       reordered v v').
Proof.
  intros Hre. inversion Hre as [j Hj Heq|fields0 fields1 Hkeys Hvals Heq0 Heq1].
  - exists fields. split; [reflexivity|]. split; [tauto|].
    intros k v v' Hv Hv'. rewrite Hv in Hv'. injection Hv' as <-. constructor.
  - exists fields1. auto.
Qed.

(** The fold of [load_watchlist] over entries that all decode to
    records of [wl]. *)
Lemma load_fold_lookup (wl : list (Z * stored_info)) (items : list (string * json))
    (acc : list (Z * stored_info)) :
  (forall k raw, In (k, raw) items ->
     exists id info,
       int_of_str rt k = Some id /\ load_info rt raw = Some info /\
       dict_get id wl = Some info) ->
  (forall id info, dict_get id acc = Some info -> dict_get id wl = Some info) ->
  (forall id info,
     dict_get id (fold_left (load_item rt) items acc) = Some info ->
     dict_get id wl = Some info) /\
  (forall id,
     dict_get id acc <> None
     \/ (exists k raw, In (k, raw) items /\ int_of_str rt k = Some id) ->
     dict_get id (fold_left (load_item rt) items acc) <> None).
Proof.
  revert acc. induction items as [|[k raw] items IH]; intros acc Hitems Hacc.
  - simpl. split; [exact Hacc|].
    intros id [Hsome|(k & raw & [] & _)]. exact Hsome.
  - simpl.
    destruct (Hitems k raw (or_introl eq_refl)) as (id0 & info0 & Hid0 & Hinfo0 & Hwl0).
    assert (Hstep : load_item rt acc (k, raw) = dict_set id0 info0 acc).
    { unfold load_item. simpl. now rewrite Hid0, Hinfo0. }
    rewrite Hstep.
    destruct (IH (dict_set id0 info0 acc)) as [Hsound Hpresent].
    + intros k' raw' Hin. apply Hitems. now right.
    + intros id info. rewrite dict_get_set.
      destruct (decide (id = id0)) as [->|Hne]; [|apply Hacc].
      intros [= <-]. exact Hwl0.
    + split; [exact Hsound|].
      intros id Hid. apply Hpresent.
      rewrite dict_get_set. destruct (decide (id = id0)) as [->|Hne].
      * left. discriminate.
      * destruct Hid as [Hsome|(k' & raw' & [[= -> ->]|Hin] & Hint)].
        -- now left.
        -- congruence.
        -- right. exists k', raw'. auto.
Qed.
End RoundTripFacts.

(** X22. What a tick saves is what the next one loads.  For a
    watchlist of typed records with distinct keys whose identifiers and times
    are read back by [int] and [fromisoformat], [save_watchlist] writes the
    dump of [watchlist_document]; when [json.load] reads that text back as
    the same object up to the order of the fields, [load_watchlist] gives
    every coin the record that was saved, and no other coin. *)
Theorem save_load_round_trip (rt : runtime) (wl : list (Z * stored_info))
    (fs : files) (fields' : list (string * json)) :
  List.NoDup (dict_keys wl) ->
  (forall id w, In (id, w) wl -> typed_info w <> None) ->
  reads_back rt wl ->
  json_dump rt true (watchlist_document rt wl) <> ""%string ->
  json_load rt (json_dump rt true (watchlist_document rt wl)) = Some (JObj fields') ->
  reordered (watchlist_document rt wl) (JObj fields') ->
  List.NoDup (dict_keys fields') ->
  watchlist_json (save_watchlist rt wl fs)
  = Some (json_dump rt true (watchlist_document rt wl)) /\
  forall id,
    dict_get id (load_watchlist rt (save_watchlist rt wl fs)) = dict_get id wl.
Proof.
  intros Hnd Htyped Hback Htext Hload Hre Hnd'. split; [reflexivity|].
  unfold load_watchlist, save_watchlist. cbn [watchlist_json].
  fold (watchlist_document rt wl).
  destruct (json_dump rt true (watchlist_document rt wl)) as [|a text] eqn:Hdump;
    [congruence|].
  cbn [nonempty_file]. rewrite Hload.
  assert (Hint : forall id', In id' (dict_keys wl) ->
             int_of_str rt (str_of_int rt id') = Some id').
  { intros id' Hid'. apply in_map_iff in Hid' as ([i info] & <- & Hin).
    now apply (Hback i info). }
  unfold watchlist_document in Hre.
  apply reordered_object_inv in Hre as (fields1 & [= <-] & Hkeys & Hvals).
  assert (Hitems : forall k raw, In (k, raw) fields' ->
             exists id info,
               int_of_str rt k = Some id /\ load_info rt raw = Some info /\
               dict_get id wl = Some info).
  { intros k raw Hin.
    assert (Hk : In k (dict_keys fields')) by now apply (in_map fst) in Hin.
    apply Hkeys in Hk.
    match type of Hk with
    | In k (dict_keys ?data) =>
        destruct (dict_get k data) as [v|] eqn:Hv;
          [|now apply dict_get_None in Hv]
    end.
    pose proof (Hvals k v raw Hv (In_dict_get _ _ _ Hnd' Hin)) as Hrev.
    apply dict_get_In in Hv.
    apply (dump_fold_sound rt wl []) in Hv as [[]|(id & info & Hwl & -> & ->)].
    destruct (Hback id info Hwl) as (Hi & Hs & Hl).
    exists id, info. split; [assumption|]. split.
    - destruct (typed_info info) as [typed|] eqn:Hty;
        [|now destruct (Htyped id info Hwl)].
      apply (load_info_reordered_typed rt _ _ _ typed Hrev); [|exact Hty].
      now apply load_info_dump_info_eq.
    - now apply In_dict_get. }
  destruct (load_fold_lookup rt wl fields' [] Hitems) as [Hsound Hpresent];
    [discriminate|].
  intros id. destruct (dict_get id wl) as [info|] eqn:Hwl.
  - destruct (dict_get id (fold_left (load_item rt) fields' [])) as [x|] eqn:Hx.
    + rewrite (Hsound id x Hx) in Hwl. congruence.
    + exfalso. apply (Hpresent id); [|exact Hx]. right.
      apply dict_get_In in Hwl.
      pose proof (dump_fold_lookup rt wl [] id info Hnd Hint Hwl) as Hdata.
      assert (Hkey : In (str_of_int rt id) (dict_keys fields')).
      { apply Hkeys. apply dict_get_In in Hdata.
        now apply (in_map fst) in Hdata. }
      apply in_map_iff in Hkey as ([k raw] & Hk & Hin). simpl in Hk. subst k.
      exists (str_of_int rt id), raw. split; [assumption|].
      now apply (Hback id info).
  - destruct (dict_get id (fold_left (load_item rt) fields' [])) as [x|] eqn:Hx;
      [|reflexivity].
    rewrite (Hsound id x Hx) in Hwl. discriminate.
Qed.

(** X22 at work: one coin, saved and loaded. *)
Lemma save_load_round_trip_witness :
  let wl := [(7, stored_of_info slow_mover_info)] in
  let rt := table_runtime
              [("stored"%string, watchlist_document example_runtime wl)] in
  let fs := {| watchlist_json := None; tokens_json := None |} in
  dict_get 7 (load_watchlist rt (save_watchlist rt wl fs)) = dict_get 7 wl.
Proof.
  intros wl rt fs.
  apply (save_load_round_trip rt wl fs
           [("7"%string,
             dump_info example_runtime (stored_of_info slow_mover_info))]).
  - repeat constructor. simpl. tauto.
  - intros id info [[= <- <-]|[]]. discriminate.
  - intros id info [[= <- <-]|[]]. repeat split.
  - discriminate.
  - reflexivity.
  - apply reordered_same.
  - repeat constructor. simpl. tauto.
Defined.

(** * Examples for the properties of the evaluation *)

Lemma twin_symbol_NoDup : List.NoDup (dict_keys twin_symbol_watchlist).
Proof. repeat constructor; simpl; intuition discriminate. Qed.

Lemma slow_mover_NoDup : List.NoDup (dict_keys [(1, slow_mover_info)]).
Proof. repeat constructor. simpl. tauto. Qed.

(** X1 at work: coin 1 of the two coins with one symbol. *)
Lemma short_class_at_most_once_witness :
  (List.length
     (List.filter (short_class_about 1)
        (notifications (evaluate twin_symbol_prices twin_symbol_time
                          twin_symbol_watchlist))) <= 1)%nat.
Proof.
  apply (short_class_at_most_once twin_symbol_prices twin_symbol_time
           twin_symbol_watchlist 1).
  exact twin_symbol_NoDup.
Defined.

(** X2 at work. *)
Lemma long_term_at_most_once_witness :
  (List.length
     (List.filter (long_term_about 2)
        (notifications (evaluate twin_symbol_prices twin_symbol_time
                          twin_symbol_watchlist))) <= 1)%nat.
Proof.
  apply (long_term_at_most_once twin_symbol_prices twin_symbol_time
           twin_symbol_watchlist 2).
  exact twin_symbol_NoDup.
Defined.

(** X3 at work: a coin whose price has not moved. *)
Lemma quiet_tick_changes_nothing_witness :
  let prices : gmap Z float := <[1 := 100%float]> ∅ in
  notifications (evaluate prices slow_mover_time [(1, slow_mover_info)]) = [] /\
  watchlist (evaluate prices slow_mover_time [(1, slow_mover_info)])
  = [(1, slow_mover_info)].
Proof.
  intros prices.
  apply (quiet_tick_changes_nothing prices slow_mover_time [(1, slow_mover_info)]).
  - exact slow_mover_NoDup.
  - vm_compute. reflexivity.
Defined.

(** X4 at work. *)
Lemma evaluate_frame_witness :
  dict_keys (watchlist (evaluate twin_symbol_prices twin_symbol_time
                          twin_symbol_watchlist))
  = dict_keys twin_symbol_watchlist.
Proof.
  apply (evaluate_frame twin_symbol_prices twin_symbol_time twin_symbol_watchlist).
  exact twin_symbol_NoDup.
Defined.

(** X5 at work: no price at all. *)
Lemma unpriced_tick_inert_witness :
  notifications (evaluate ∅ twin_symbol_time twin_symbol_watchlist) = [] /\
  watchlist (evaluate ∅ twin_symbol_time twin_symbol_watchlist)
  = twin_symbol_watchlist /\
  watchlist_updated (evaluate ∅ twin_symbol_time twin_symbol_watchlist) = false.
Proof.
  apply (unpriced_tick_inert ∅ twin_symbol_time twin_symbol_watchlist).
  intros id _. apply lookup_empty.
Defined.

(** X6 at work. *)
Lemma absolute_after_table_witness :
  notifications (evaluate twin_symbol_prices twin_symbol_time twin_symbol_watchlist) =
  notifications (scan_coins twin_symbol_prices twin_symbol_time twin_symbol_watchlist) ++
  List.filter
    (fun a => negb (overlaps a (notifications
                                  (scan_coins twin_symbol_prices twin_symbol_time
                                     twin_symbol_watchlist))))
    (absolute_notifications
       (scan_coins twin_symbol_prices twin_symbol_time twin_symbol_watchlist)).
Proof.
  apply (absolute_after_table twin_symbol_prices twin_symbol_time
           twin_symbol_watchlist).
  exact twin_symbol_NoDup.
Defined.

(** X7 at work: the absolute notification of the coin that moved 20%. *)
Lemma notification_justified_witness :
  let n := absolute_notification 1 slow_mover_info 120 20 in
  exists info baseline,
    dict_get (coin_id n) [(1, slow_mover_info)] = Some info /\
    coin_name n = name info /\
    coin_symbol n = symbol info /\
    last_price (short_term info) = Some baseline /\
    change_percent (current_price n) baseline = Ok (price_change n) /\
    time_elapsed n = None /\
    py_ge (PrimFloat.abs (price_change n)) 2.0 = true.
Proof.
  intros n.
  apply (notification_justified slow_mover_prices slow_mover_time
           [(1, slow_mover_info)] n).
  - exact slow_mover_NoDup.
  - vm_compute. left. reflexivity.
Defined.
